(** * Cien años de soledad: the question-interpretation pipeline

    A shallow embedding of [src/nlpProcessor.js] and [src/routes/preguntas.js]
    and the properties of the pipeline they implement: text folding, the
    existence detector, the verb-intent matcher, the entity matcher, the fuzzy
    event ranker and the query planner with its fallback cascade.

    Layout: the platform the code runs on (Unicode data, ECMAScript strings
    and regular expressions, the document store), then the two source
    modules, then the lemmas and theorems.

    A JavaScript string is a sequence of UTF-16 code units; it is modelled as
    [list N].  The npm library [compromise] and the regular-expression engine
    of the document store are not part of the repository: the functions that
    call them take them as parameters. *)

From Stdlib Require Import String Ascii.
From Stdlib Require Import List NArith ZArith QArith Bool Lia Arith.
From Stdlib Require Import Permutation Sorted.
Import ListNotations.

Set Implicit Arguments.

(** ** Unicode Character Database (version 14.0)

    The tables [String.prototype.toLowerCase], [String.prototype.normalize]
    and the [i] flag of [RegExp] are defined from: full lower-case mappings,
    the two character classes of the Final_Sigma condition, the simple
    upper-case mappings used by the regular-expression [Canonicalize]
    operation, full canonical decompositions and canonical combining
    classes. *)
Module Unicode.
Local Open Scope N_scope.

Definition lowercase_table : list (N * list N) := [
  (65, [97]); (66, [98]); (67, [99]); (68, [100]); (69, [101]);
  (70, [102]); (71, [103]); (72, [104]); (73, [105]); (74, [106]);
  (75, [107]); (76, [108]); (77, [109]); (78, [110]); (79, [111]);
  (80, [112]); (81, [113]); (82, [114]); (83, [115]); (84, [116]);
  (85, [117]); (86, [118]); (87, [119]); (88, [120]); (89, [121]);
  (90, [122]); (192, [224]); (193, [225]); (194, [226]); (195, [227]);
  (196, [228]); (197, [229]); (198, [230]); (199, [231]); (200, [232]);
  (201, [233]); (202, [234]); (203, [235]); (204, [236]); (205, [237]);
  (206, [238]); (207, [239]); (208, [240]); (209, [241]); (210, [242]);
  (211, [243]); (212, [244]); (213, [245]); (214, [246]); (216, [248]);
  (217, [249]); (218, [250]); (219, [251]); (220, [252]); (221, [253]);
  (222, [254]); (256, [257]); (258, [259]); (260, [261]); (262, [263]);
  (264, [265]); (266, [267]); (268, [269]); (270, [271]); (272, [273]);
  (274, [275]); (276, [277]); (278, [279]); (280, [281]); (282, [283]);
  (284, [285]); (286, [287]); (288, [289]); (290, [291]); (292, [293]);
  (294, [295]); (296, [297]); (298, [299]); (300, [301]); (302, [303]);
  (304, [105; 775]); (306, [307]); (308, [309]); (310, [311]); (313, [314]);
  (315, [316]); (317, [318]); (319, [320]); (321, [322]); (323, [324]);
  (325, [326]); (327, [328]); (330, [331]); (332, [333]); (334, [335]);
  (336, [337]); (338, [339]); (340, [341]); (342, [343]); (344, [345]);
  (346, [347]); (348, [349]); (350, [351]); (352, [353]); (354, [355]);
  (356, [357]); (358, [359]); (360, [361]); (362, [363]); (364, [365]);
  (366, [367]); (368, [369]); (370, [371]); (372, [373]); (374, [375]);
  (376, [255]); (377, [378]); (379, [380]); (381, [382]); (385, [595]);
  (386, [387]); (388, [389]); (390, [596]); (391, [392]); (393, [598]);
  (394, [599]); (395, [396]); (398, [477]); (399, [601]); (400, [603]);
  (401, [402]); (403, [608]); (404, [611]); (406, [617]); (407, [616]);
  (408, [409]); (412, [623]); (413, [626]); (415, [629]); (416, [417]);
  (418, [419]); (420, [421]); (422, [640]); (423, [424]); (425, [643]);
  (428, [429]); (430, [648]); (431, [432]); (433, [650]); (434, [651]);
  (435, [436]); (437, [438]); (439, [658]); (440, [441]); (444, [445]);
  (452, [454]); (453, [454]); (455, [457]); (456, [457]); (458, [460]);
  (459, [460]); (461, [462]); (463, [464]); (465, [466]); (467, [468]);
  (469, [470]); (471, [472]); (473, [474]); (475, [476]); (478, [479]);
  (480, [481]); (482, [483]); (484, [485]); (486, [487]); (488, [489]);
  (490, [491]); (492, [493]); (494, [495]); (497, [499]); (498, [499]);
  (500, [501]); (502, [405]); (503, [447]); (504, [505]); (506, [507]);
  (508, [509]); (510, [511]); (512, [513]); (514, [515]); (516, [517]);
  (518, [519]); (520, [521]); (522, [523]); (524, [525]); (526, [527]);
  (528, [529]); (530, [531]); (532, [533]); (534, [535]); (536, [537]);
  (538, [539]); (540, [541]); (542, [543]); (544, [414]); (546, [547]);
  (548, [549]); (550, [551]); (552, [553]); (554, [555]); (556, [557]);
  (558, [559]); (560, [561]); (562, [563]); (570, [11365]); (571, [572]);
  (573, [410]); (574, [11366]); (577, [578]); (579, [384]); (580, [649]);
  (581, [652]); (582, [583]); (584, [585]); (586, [587]); (588, [589]);
  (590, [591]); (880, [881]); (882, [883]); (886, [887]); (895, [1011]);
  (902, [940]); (904, [941]); (905, [942]); (906, [943]); (908, [972]);
  (910, [973]); (911, [974]); (913, [945]); (914, [946]); (915, [947]);
  (916, [948]); (917, [949]); (918, [950]); (919, [951]); (920, [952]);
  (921, [953]); (922, [954]); (923, [955]); (924, [956]); (925, [957]);
  (926, [958]); (927, [959]); (928, [960]); (929, [961]); (931, [963]);
  (932, [964]); (933, [965]); (934, [966]); (935, [967]); (936, [968]);
  (937, [969]); (938, [970]); (939, [971]); (975, [983]); (984, [985]);
  (986, [987]); (988, [989]); (990, [991]); (992, [993]); (994, [995]);
  (996, [997]); (998, [999]); (1000, [1001]); (1002, [1003]); (1004, [1005]);
  (1006, [1007]); (1012, [952]); (1015, [1016]); (1017, [1010]); (1018, [1019]);
  (1021, [891]); (1022, [892]); (1023, [893]); (1024, [1104]); (1025, [1105]);
  (1026, [1106]); (1027, [1107]); (1028, [1108]); (1029, [1109]); (1030, [1110]);
  (1031, [1111]); (1032, [1112]); (1033, [1113]); (1034, [1114]); (1035, [1115]);
  (1036, [1116]); (1037, [1117]); (1038, [1118]); (1039, [1119]); (1040, [1072]);
  (1041, [1073]); (1042, [1074]); (1043, [1075]); (1044, [1076]); (1045, [1077]);
  (1046, [1078]); (1047, [1079]); (1048, [1080]); (1049, [1081]); (1050, [1082]);
  (1051, [1083]); (1052, [1084]); (1053, [1085]); (1054, [1086]); (1055, [1087]);
  (1056, [1088]); (1057, [1089]); (1058, [1090]); (1059, [1091]); (1060, [1092]);
  (1061, [1093]); (1062, [1094]); (1063, [1095]); (1064, [1096]); (1065, [1097]);
  (1066, [1098]); (1067, [1099]); (1068, [1100]); (1069, [1101]); (1070, [1102]);
  (1071, [1103]); (1120, [1121]); (1122, [1123]); (1124, [1125]); (1126, [1127]);
  (1128, [1129]); (1130, [1131]); (1132, [1133]); (1134, [1135]); (1136, [1137]);
  (1138, [1139]); (1140, [1141]); (1142, [1143]); (1144, [1145]); (1146, [1147]);
  (1148, [1149]); (1150, [1151]); (1152, [1153]); (1162, [1163]); (1164, [1165]);
  (1166, [1167]); (1168, [1169]); (1170, [1171]); (1172, [1173]); (1174, [1175]);
  (1176, [1177]); (1178, [1179]); (1180, [1181]); (1182, [1183]); (1184, [1185]);
  (1186, [1187]); (1188, [1189]); (1190, [1191]); (1192, [1193]); (1194, [1195]);
  (1196, [1197]); (1198, [1199]); (1200, [1201]); (1202, [1203]); (1204, [1205]);
  (1206, [1207]); (1208, [1209]); (1210, [1211]); (1212, [1213]); (1214, [1215]);
  (1216, [1231]); (1217, [1218]); (1219, [1220]); (1221, [1222]); (1223, [1224]);
  (1225, [1226]); (1227, [1228]); (1229, [1230]); (1232, [1233]); (1234, [1235]);
  (1236, [1237]); (1238, [1239]); (1240, [1241]); (1242, [1243]); (1244, [1245]);
  (1246, [1247]); (1248, [1249]); (1250, [1251]); (1252, [1253]); (1254, [1255]);
  (1256, [1257]); (1258, [1259]); (1260, [1261]); (1262, [1263]); (1264, [1265]);
  (1266, [1267]); (1268, [1269]); (1270, [1271]); (1272, [1273]); (1274, [1275]);
  (1276, [1277]); (1278, [1279]); (1280, [1281]); (1282, [1283]); (1284, [1285]);
  (1286, [1287]); (1288, [1289]); (1290, [1291]); (1292, [1293]); (1294, [1295]);
  (1296, [1297]); (1298, [1299]); (1300, [1301]); (1302, [1303]); (1304, [1305]);
  (1306, [1307]); (1308, [1309]); (1310, [1311]); (1312, [1313]); (1314, [1315]);
  (1316, [1317]); (1318, [1319]); (1320, [1321]); (1322, [1323]); (1324, [1325]);
  (1326, [1327]); (1329, [1377]); (1330, [1378]); (1331, [1379]); (1332, [1380]);
  (1333, [1381]); (1334, [1382]); (1335, [1383]); (1336, [1384]); (1337, [1385]);
  (1338, [1386]); (1339, [1387]); (1340, [1388]); (1341, [1389]); (1342, [1390]);
  (1343, [1391]); (1344, [1392]); (1345, [1393]); (1346, [1394]); (1347, [1395]);
  (1348, [1396]); (1349, [1397]); (1350, [1398]); (1351, [1399]); (1352, [1400]);
  (1353, [1401]); (1354, [1402]); (1355, [1403]); (1356, [1404]); (1357, [1405]);
  (1358, [1406]); (1359, [1407]); (1360, [1408]); (1361, [1409]); (1362, [1410]);
  (1363, [1411]); (1364, [1412]); (1365, [1413]); (1366, [1414]); (4256, [11520]);
  (4257, [11521]); (4258, [11522]); (4259, [11523]); (4260, [11524]); (4261, [11525]);
  (4262, [11526]); (4263, [11527]); (4264, [11528]); (4265, [11529]); (4266, [11530]);
  (4267, [11531]); (4268, [11532]); (4269, [11533]); (4270, [11534]); (4271, [11535]);
  (4272, [11536]); (4273, [11537]); (4274, [11538]); (4275, [11539]); (4276, [11540]);
  (4277, [11541]); (4278, [11542]); (4279, [11543]); (4280, [11544]); (4281, [11545]);
  (4282, [11546]); (4283, [11547]); (4284, [11548]); (4285, [11549]); (4286, [11550]);
  (4287, [11551]); (4288, [11552]); (4289, [11553]); (4290, [11554]); (4291, [11555]);
  (4292, [11556]); (4293, [11557]); (4295, [11559]); (4301, [11565]); (5024, [43888]);
  (5025, [43889]); (5026, [43890]); (5027, [43891]); (5028, [43892]); (5029, [43893]);
  (5030, [43894]); (5031, [43895]); (5032, [43896]); (5033, [43897]); (5034, [43898]);
  (5035, [43899]); (5036, [43900]); (5037, [43901]); (5038, [43902]); (5039, [43903]);
  (5040, [43904]); (5041, [43905]); (5042, [43906]); (5043, [43907]); (5044, [43908]);
  (5045, [43909]); (5046, [43910]); (5047, [43911]); (5048, [43912]); (5049, [43913]);
  (5050, [43914]); (5051, [43915]); (5052, [43916]); (5053, [43917]); (5054, [43918]);
  (5055, [43919]); (5056, [43920]); (5057, [43921]); (5058, [43922]); (5059, [43923]);
  (5060, [43924]); (5061, [43925]); (5062, [43926]); (5063, [43927]); (5064, [43928]);
  (5065, [43929]); (5066, [43930]); (5067, [43931]); (5068, [43932]); (5069, [43933]);
  (5070, [43934]); (5071, [43935]); (5072, [43936]); (5073, [43937]); (5074, [43938]);
  (5075, [43939]); (5076, [43940]); (5077, [43941]); (5078, [43942]); (5079, [43943]);
  (5080, [43944]); (5081, [43945]); (5082, [43946]); (5083, [43947]); (5084, [43948]);
  (5085, [43949]); (5086, [43950]); (5087, [43951]); (5088, [43952]); (5089, [43953]);
  (5090, [43954]); (5091, [43955]); (5092, [43956]); (5093, [43957]); (5094, [43958]);
  (5095, [43959]); (5096, [43960]); (5097, [43961]); (5098, [43962]); (5099, [43963]);
  (5100, [43964]); (5101, [43965]); (5102, [43966]); (5103, [43967]); (5104, [5112]);
  (5105, [5113]); (5106, [5114]); (5107, [5115]); (5108, [5116]); (5109, [5117]);
  (7312, [4304]); (7313, [4305]); (7314, [4306]); (7315, [4307]); (7316, [4308]);
  (7317, [4309]); (7318, [4310]); (7319, [4311]); (7320, [4312]); (7321, [4313]);
  (7322, [4314]); (7323, [4315]); (7324, [4316]); (7325, [4317]); (7326, [4318]);
  (7327, [4319]); (7328, [4320]); (7329, [4321]); (7330, [4322]); (7331, [4323]);
  (7332, [4324]); (7333, [4325]); (7334, [4326]); (7335, [4327]); (7336, [4328]);
  (7337, [4329]); (7338, [4330]); (7339, [4331]); (7340, [4332]); (7341, [4333]);
  (7342, [4334]); (7343, [4335]); (7344, [4336]); (7345, [4337]); (7346, [4338]);
  (7347, [4339]); (7348, [4340]); (7349, [4341]); (7350, [4342]); (7351, [4343]);
  (7352, [4344]); (7353, [4345]); (7354, [4346]); (7357, [4349]); (7358, [4350]);
  (7359, [4351]); (7680, [7681]); (7682, [7683]); (7684, [7685]); (7686, [7687]);
  (7688, [7689]); (7690, [7691]); (7692, [7693]); (7694, [7695]); (7696, [7697]);
  (7698, [7699]); (7700, [7701]); (7702, [7703]); (7704, [7705]); (7706, [7707]);
  (7708, [7709]); (7710, [7711]); (7712, [7713]); (7714, [7715]); (7716, [7717]);
  (7718, [7719]); (7720, [7721]); (7722, [7723]); (7724, [7725]); (7726, [7727]);
  (7728, [7729]); (7730, [7731]); (7732, [7733]); (7734, [7735]); (7736, [7737]);
  (7738, [7739]); (7740, [7741]); (7742, [7743]); (7744, [7745]); (7746, [7747]);
  (7748, [7749]); (7750, [7751]); (7752, [7753]); (7754, [7755]); (7756, [7757]);
  (7758, [7759]); (7760, [7761]); (7762, [7763]); (7764, [7765]); (7766, [7767]);
  (7768, [7769]); (7770, [7771]); (7772, [7773]); (7774, [7775]); (7776, [7777]);
  (7778, [7779]); (7780, [7781]); (7782, [7783]); (7784, [7785]); (7786, [7787]);
  (7788, [7789]); (7790, [7791]); (7792, [7793]); (7794, [7795]); (7796, [7797]);
  (7798, [7799]); (7800, [7801]); (7802, [7803]); (7804, [7805]); (7806, [7807]);
  (7808, [7809]); (7810, [7811]); (7812, [7813]); (7814, [7815]); (7816, [7817]);
  (7818, [7819]); (7820, [7821]); (7822, [7823]); (7824, [7825]); (7826, [7827]);
  (7828, [7829]); (7838, [223]); (7840, [7841]); (7842, [7843]); (7844, [7845]);
  (7846, [7847]); (7848, [7849]); (7850, [7851]); (7852, [7853]); (7854, [7855]);
  (7856, [7857]); (7858, [7859]); (7860, [7861]); (7862, [7863]); (7864, [7865]);
  (7866, [7867]); (7868, [7869]); (7870, [7871]); (7872, [7873]); (7874, [7875]);
  (7876, [7877]); (7878, [7879]); (7880, [7881]); (7882, [7883]); (7884, [7885]);
  (7886, [7887]); (7888, [7889]); (7890, [7891]); (7892, [7893]); (7894, [7895]);
  (7896, [7897]); (7898, [7899]); (7900, [7901]); (7902, [7903]); (7904, [7905]);
  (7906, [7907]); (7908, [7909]); (7910, [7911]); (7912, [7913]); (7914, [7915]);
  (7916, [7917]); (7918, [7919]); (7920, [7921]); (7922, [7923]); (7924, [7925]);
  (7926, [7927]); (7928, [7929]); (7930, [7931]); (7932, [7933]); (7934, [7935]);
  (7944, [7936]); (7945, [7937]); (7946, [7938]); (7947, [7939]); (7948, [7940]);
  (7949, [7941]); (7950, [7942]); (7951, [7943]); (7960, [7952]); (7961, [7953]);
  (7962, [7954]); (7963, [7955]); (7964, [7956]); (7965, [7957]); (7976, [7968]);
  (7977, [7969]); (7978, [7970]); (7979, [7971]); (7980, [7972]); (7981, [7973]);
  (7982, [7974]); (7983, [7975]); (7992, [7984]); (7993, [7985]); (7994, [7986]);
  (7995, [7987]); (7996, [7988]); (7997, [7989]); (7998, [7990]); (7999, [7991]);
  (8008, [8000]); (8009, [8001]); (8010, [8002]); (8011, [8003]); (8012, [8004]);
  (8013, [8005]); (8025, [8017]); (8027, [8019]); (8029, [8021]); (8031, [8023]);
  (8040, [8032]); (8041, [8033]); (8042, [8034]); (8043, [8035]); (8044, [8036]);
  (8045, [8037]); (8046, [8038]); (8047, [8039]); (8072, [8064]); (8073, [8065]);
  (8074, [8066]); (8075, [8067]); (8076, [8068]); (8077, [8069]); (8078, [8070]);
  (8079, [8071]); (8088, [8080]); (8089, [8081]); (8090, [8082]); (8091, [8083]);
  (8092, [8084]); (8093, [8085]); (8094, [8086]); (8095, [8087]); (8104, [8096]);
  (8105, [8097]); (8106, [8098]); (8107, [8099]); (8108, [8100]); (8109, [8101]);
  (8110, [8102]); (8111, [8103]); (8120, [8112]); (8121, [8113]); (8122, [8048]);
  (8123, [8049]); (8124, [8115]); (8136, [8050]); (8137, [8051]); (8138, [8052]);
  (8139, [8053]); (8140, [8131]); (8152, [8144]); (8153, [8145]); (8154, [8054]);
  (8155, [8055]); (8168, [8160]); (8169, [8161]); (8170, [8058]); (8171, [8059]);
  (8172, [8165]); (8184, [8056]); (8185, [8057]); (8186, [8060]); (8187, [8061]);
  (8188, [8179]); (8486, [969]); (8490, [107]); (8491, [229]); (8498, [8526]);
  (8544, [8560]); (8545, [8561]); (8546, [8562]); (8547, [8563]); (8548, [8564]);
  (8549, [8565]); (8550, [8566]); (8551, [8567]); (8552, [8568]); (8553, [8569]);
  (8554, [8570]); (8555, [8571]); (8556, [8572]); (8557, [8573]); (8558, [8574]);
  (8559, [8575]); (8579, [8580]); (9398, [9424]); (9399, [9425]); (9400, [9426]);
  (9401, [9427]); (9402, [9428]); (9403, [9429]); (9404, [9430]); (9405, [9431]);
  (9406, [9432]); (9407, [9433]); (9408, [9434]); (9409, [9435]); (9410, [9436]);
  (9411, [9437]); (9412, [9438]); (9413, [9439]); (9414, [9440]); (9415, [9441]);
  (9416, [9442]); (9417, [9443]); (9418, [9444]); (9419, [9445]); (9420, [9446]);
  (9421, [9447]); (9422, [9448]); (9423, [9449]); (11264, [11312]); (11265, [11313]);
  (11266, [11314]); (11267, [11315]); (11268, [11316]); (11269, [11317]); (11270, [11318]);
  (11271, [11319]); (11272, [11320]); (11273, [11321]); (11274, [11322]); (11275, [11323]);
  (11276, [11324]); (11277, [11325]); (11278, [11326]); (11279, [11327]); (11280, [11328]);
  (11281, [11329]); (11282, [11330]); (11283, [11331]); (11284, [11332]); (11285, [11333]);
  (11286, [11334]); (11287, [11335]); (11288, [11336]); (11289, [11337]); (11290, [11338]);
  (11291, [11339]); (11292, [11340]); (11293, [11341]); (11294, [11342]); (11295, [11343]);
  (11296, [11344]); (11297, [11345]); (11298, [11346]); (11299, [11347]); (11300, [11348]);
  (11301, [11349]); (11302, [11350]); (11303, [11351]); (11304, [11352]); (11305, [11353]);
  (11306, [11354]); (11307, [11355]); (11308, [11356]); (11309, [11357]); (11310, [11358]);
  (11311, [11359]); (11360, [11361]); (11362, [619]); (11363, [7549]); (11364, [637]);
  (11367, [11368]); (11369, [11370]); (11371, [11372]); (11373, [593]); (11374, [625]);
  (11375, [592]); (11376, [594]); (11378, [11379]); (11381, [11382]); (11390, [575]);
  (11391, [576]); (11392, [11393]); (11394, [11395]); (11396, [11397]); (11398, [11399]);
  (11400, [11401]); (11402, [11403]); (11404, [11405]); (11406, [11407]); (11408, [11409]);
  (11410, [11411]); (11412, [11413]); (11414, [11415]); (11416, [11417]); (11418, [11419]);
  (11420, [11421]); (11422, [11423]); (11424, [11425]); (11426, [11427]); (11428, [11429]);
  (11430, [11431]); (11432, [11433]); (11434, [11435]); (11436, [11437]); (11438, [11439]);
  (11440, [11441]); (11442, [11443]); (11444, [11445]); (11446, [11447]); (11448, [11449]);
  (11450, [11451]); (11452, [11453]); (11454, [11455]); (11456, [11457]); (11458, [11459]);
  (11460, [11461]); (11462, [11463]); (11464, [11465]); (11466, [11467]); (11468, [11469]);
  (11470, [11471]); (11472, [11473]); (11474, [11475]); (11476, [11477]); (11478, [11479]);
  (11480, [11481]); (11482, [11483]); (11484, [11485]); (11486, [11487]); (11488, [11489]);
  (11490, [11491]); (11499, [11500]); (11501, [11502]); (11506, [11507]); (42560, [42561]);
  (42562, [42563]); (42564, [42565]); (42566, [42567]); (42568, [42569]); (42570, [42571]);
  (42572, [42573]); (42574, [42575]); (42576, [42577]); (42578, [42579]); (42580, [42581]);
  (42582, [42583]); (42584, [42585]); (42586, [42587]); (42588, [42589]); (42590, [42591]);
  (42592, [42593]); (42594, [42595]); (42596, [42597]); (42598, [42599]); (42600, [42601]);
  (42602, [42603]); (42604, [42605]); (42624, [42625]); (42626, [42627]); (42628, [42629]);
  (42630, [42631]); (42632, [42633]); (42634, [42635]); (42636, [42637]); (42638, [42639]);
  (42640, [42641]); (42642, [42643]); (42644, [42645]); (42646, [42647]); (42648, [42649]);
  (42650, [42651]); (42786, [42787]); (42788, [42789]); (42790, [42791]); (42792, [42793]);
  (42794, [42795]); (42796, [42797]); (42798, [42799]); (42802, [42803]); (42804, [42805]);
  (42806, [42807]); (42808, [42809]); (42810, [42811]); (42812, [42813]); (42814, [42815]);
  (42816, [42817]); (42818, [42819]); (42820, [42821]); (42822, [42823]); (42824, [42825]);
  (42826, [42827]); (42828, [42829]); (42830, [42831]); (42832, [42833]); (42834, [42835]);
  (42836, [42837]); (42838, [42839]); (42840, [42841]); (42842, [42843]); (42844, [42845]);
  (42846, [42847]); (42848, [42849]); (42850, [42851]); (42852, [42853]); (42854, [42855]);
  (42856, [42857]); (42858, [42859]); (42860, [42861]); (42862, [42863]); (42873, [42874]);
  (42875, [42876]); (42877, [7545]); (42878, [42879]); (42880, [42881]); (42882, [42883]);
  (42884, [42885]); (42886, [42887]); (42891, [42892]); (42893, [613]); (42896, [42897]);
  (42898, [42899]); (42902, [42903]); (42904, [42905]); (42906, [42907]); (42908, [42909]);
  (42910, [42911]); (42912, [42913]); (42914, [42915]); (42916, [42917]); (42918, [42919]);
  (42920, [42921]); (42922, [614]); (42923, [604]); (42924, [609]); (42925, [620]);
  (42926, [618]); (42928, [670]); (42929, [647]); (42930, [669]); (42931, [43859]);
  (42932, [42933]); (42934, [42935]); (42936, [42937]); (42938, [42939]); (42940, [42941]);
  (42942, [42943]); (42944, [42945]); (42946, [42947]); (42948, [42900]); (42949, [642]);
  (42950, [7566]); (42951, [42952]); (42953, [42954]); (42960, [42961]); (42966, [42967]);
  (42968, [42969]); (42997, [42998]); (65313, [65345]); (65314, [65346]); (65315, [65347]);
  (65316, [65348]); (65317, [65349]); (65318, [65350]); (65319, [65351]); (65320, [65352]);
  (65321, [65353]); (65322, [65354]); (65323, [65355]); (65324, [65356]); (65325, [65357]);
  (65326, [65358]); (65327, [65359]); (65328, [65360]); (65329, [65361]); (65330, [65362]);
  (65331, [65363]); (65332, [65364]); (65333, [65365]); (65334, [65366]); (65335, [65367]);
  (65336, [65368]); (65337, [65369]); (65338, [65370]); (66560, [66600]); (66561, [66601]);
  (66562, [66602]); (66563, [66603]); (66564, [66604]); (66565, [66605]); (66566, [66606]);
  (66567, [66607]); (66568, [66608]); (66569, [66609]); (66570, [66610]); (66571, [66611]);
  (66572, [66612]); (66573, [66613]); (66574, [66614]); (66575, [66615]); (66576, [66616]);
  (66577, [66617]); (66578, [66618]); (66579, [66619]); (66580, [66620]); (66581, [66621]);
  (66582, [66622]); (66583, [66623]); (66584, [66624]); (66585, [66625]); (66586, [66626]);
  (66587, [66627]); (66588, [66628]); (66589, [66629]); (66590, [66630]); (66591, [66631]);
  (66592, [66632]); (66593, [66633]); (66594, [66634]); (66595, [66635]); (66596, [66636]);
  (66597, [66637]); (66598, [66638]); (66599, [66639]); (66736, [66776]); (66737, [66777]);
  (66738, [66778]); (66739, [66779]); (66740, [66780]); (66741, [66781]); (66742, [66782]);
  (66743, [66783]); (66744, [66784]); (66745, [66785]); (66746, [66786]); (66747, [66787]);
  (66748, [66788]); (66749, [66789]); (66750, [66790]); (66751, [66791]); (66752, [66792]);
  (66753, [66793]); (66754, [66794]); (66755, [66795]); (66756, [66796]); (66757, [66797]);
  (66758, [66798]); (66759, [66799]); (66760, [66800]); (66761, [66801]); (66762, [66802]);
  (66763, [66803]); (66764, [66804]); (66765, [66805]); (66766, [66806]); (66767, [66807]);
  (66768, [66808]); (66769, [66809]); (66770, [66810]); (66771, [66811]); (66928, [66967]);
  (66929, [66968]); (66930, [66969]); (66931, [66970]); (66932, [66971]); (66933, [66972]);
  (66934, [66973]); (66935, [66974]); (66936, [66975]); (66937, [66976]); (66938, [66977]);
  (66940, [66979]); (66941, [66980]); (66942, [66981]); (66943, [66982]); (66944, [66983]);
  (66945, [66984]); (66946, [66985]); (66947, [66986]); (66948, [66987]); (66949, [66988]);
  (66950, [66989]); (66951, [66990]); (66952, [66991]); (66953, [66992]); (66954, [66993]);
  (66956, [66995]); (66957, [66996]); (66958, [66997]); (66959, [66998]); (66960, [66999]);
  (66961, [67000]); (66962, [67001]); (66964, [67003]); (66965, [67004]); (68736, [68800]);
  (68737, [68801]); (68738, [68802]); (68739, [68803]); (68740, [68804]); (68741, [68805]);
  (68742, [68806]); (68743, [68807]); (68744, [68808]); (68745, [68809]); (68746, [68810]);
  (68747, [68811]); (68748, [68812]); (68749, [68813]); (68750, [68814]); (68751, [68815]);
  (68752, [68816]); (68753, [68817]); (68754, [68818]); (68755, [68819]); (68756, [68820]);
  (68757, [68821]); (68758, [68822]); (68759, [68823]); (68760, [68824]); (68761, [68825]);
  (68762, [68826]); (68763, [68827]); (68764, [68828]); (68765, [68829]); (68766, [68830]);
  (68767, [68831]); (68768, [68832]); (68769, [68833]); (68770, [68834]); (68771, [68835]);
  (68772, [68836]); (68773, [68837]); (68774, [68838]); (68775, [68839]); (68776, [68840]);
  (68777, [68841]); (68778, [68842]); (68779, [68843]); (68780, [68844]); (68781, [68845]);
  (68782, [68846]); (68783, [68847]); (68784, [68848]); (68785, [68849]); (68786, [68850]);
  (71840, [71872]); (71841, [71873]); (71842, [71874]); (71843, [71875]); (71844, [71876]);
  (71845, [71877]); (71846, [71878]); (71847, [71879]); (71848, [71880]); (71849, [71881]);
  (71850, [71882]); (71851, [71883]); (71852, [71884]); (71853, [71885]); (71854, [71886]);
  (71855, [71887]); (71856, [71888]); (71857, [71889]); (71858, [71890]); (71859, [71891]);
  (71860, [71892]); (71861, [71893]); (71862, [71894]); (71863, [71895]); (71864, [71896]);
  (71865, [71897]); (71866, [71898]); (71867, [71899]); (71868, [71900]); (71869, [71901]);
  (71870, [71902]); (71871, [71903]); (93760, [93792]); (93761, [93793]); (93762, [93794]);
  (93763, [93795]); (93764, [93796]); (93765, [93797]); (93766, [93798]); (93767, [93799]);
  (93768, [93800]); (93769, [93801]); (93770, [93802]); (93771, [93803]); (93772, [93804]);
  (93773, [93805]); (93774, [93806]); (93775, [93807]); (93776, [93808]); (93777, [93809]);
  (93778, [93810]); (93779, [93811]); (93780, [93812]); (93781, [93813]); (93782, [93814]);
  (93783, [93815]); (93784, [93816]); (93785, [93817]); (93786, [93818]); (93787, [93819]);
  (93788, [93820]); (93789, [93821]); (93790, [93822]); (93791, [93823]); (125184, [125218]);
  (125185, [125219]); (125186, [125220]); (125187, [125221]); (125188, [125222]); (125189, [125223]);
  (125190, [125224]); (125191, [125225]); (125192, [125226]); (125193, [125227]); (125194, [125228]);
  (125195, [125229]); (125196, [125230]); (125197, [125231]); (125198, [125232]); (125199, [125233]);
  (125200, [125234]); (125201, [125235]); (125202, [125236]); (125203, [125237]); (125204, [125238]);
  (125205, [125239]); (125206, [125240]); (125207, [125241]); (125208, [125242]); (125209, [125243]);
  (125210, [125244]); (125211, [125245]); (125212, [125246]); (125213, [125247]); (125214, [125248]);
  (125215, [125249]); (125216, [125250]); (125217, [125251])].

Definition case_ignorable_ranges : list (N * N) := [
  (39, 39); (46, 46); (58, 58); (94, 94); (96, 96); (168, 168);
  (173, 173); (175, 175); (180, 180); (183, 184); (688, 879); (884, 885);
  (890, 890); (900, 901); (903, 903); (1155, 1161); (1369, 1369); (1375, 1375);
  (1425, 1469); (1471, 1471); (1473, 1474); (1476, 1477); (1479, 1479); (1524, 1524);
  (1536, 1541); (1552, 1562); (1564, 1564); (1600, 1600); (1611, 1631); (1648, 1648);
  (1750, 1757); (1759, 1768); (1770, 1773); (1807, 1807); (1809, 1809); (1840, 1866);
  (1958, 1968); (2027, 2037); (2042, 2042); (2045, 2045); (2070, 2093); (2137, 2139);
  (2184, 2184); (2192, 2193); (2200, 2207); (2249, 2306); (2362, 2362); (2364, 2364);
  (2369, 2376); (2381, 2381); (2385, 2391); (2402, 2403); (2417, 2417); (2433, 2433);
  (2492, 2492); (2497, 2500); (2509, 2509); (2530, 2531); (2558, 2558); (2561, 2562);
  (2620, 2620); (2625, 2626); (2631, 2632); (2635, 2637); (2641, 2641); (2672, 2673);
  (2677, 2677); (2689, 2690); (2748, 2748); (2753, 2757); (2759, 2760); (2765, 2765);
  (2786, 2787); (2810, 2815); (2817, 2817); (2876, 2876); (2879, 2879); (2881, 2884);
  (2893, 2893); (2901, 2902); (2914, 2915); (2946, 2946); (3008, 3008); (3021, 3021);
  (3072, 3072); (3076, 3076); (3132, 3132); (3134, 3136); (3142, 3144); (3146, 3149);
  (3157, 3158); (3170, 3171); (3201, 3201); (3260, 3260); (3263, 3263); (3270, 3270);
  (3276, 3277); (3298, 3299); (3328, 3329); (3387, 3388); (3393, 3396); (3405, 3405);
  (3426, 3427); (3457, 3457); (3530, 3530); (3538, 3540); (3542, 3542); (3633, 3633);
  (3636, 3642); (3654, 3662); (3761, 3761); (3764, 3772); (3782, 3782); (3784, 3789);
  (3864, 3865); (3893, 3893); (3895, 3895); (3897, 3897); (3953, 3966); (3968, 3972);
  (3974, 3975); (3981, 3991); (3993, 4028); (4038, 4038); (4141, 4144); (4146, 4151);
  (4153, 4154); (4157, 4158); (4184, 4185); (4190, 4192); (4209, 4212); (4226, 4226);
  (4229, 4230); (4237, 4237); (4253, 4253); (4348, 4348); (4957, 4959); (5906, 5908);
  (5938, 5939); (5970, 5971); (6002, 6003); (6068, 6069); (6071, 6077); (6086, 6086);
  (6089, 6099); (6103, 6103); (6109, 6109); (6155, 6159); (6211, 6211); (6277, 6278);
  (6313, 6313); (6432, 6434); (6439, 6440); (6450, 6450); (6457, 6459); (6679, 6680);
  (6683, 6683); (6742, 6742); (6744, 6750); (6752, 6752); (6754, 6754); (6757, 6764);
  (6771, 6780); (6783, 6783); (6823, 6823); (6832, 6862); (6912, 6915); (6964, 6964);
  (6966, 6970); (6972, 6972); (6978, 6978); (7019, 7027); (7040, 7041); (7074, 7077);
  (7080, 7081); (7083, 7085); (7142, 7142); (7144, 7145); (7149, 7149); (7151, 7153);
  (7212, 7219); (7222, 7223); (7288, 7293); (7376, 7378); (7380, 7392); (7394, 7400);
  (7405, 7405); (7412, 7412); (7416, 7417); (7468, 7530); (7544, 7544); (7579, 7679);
  (8125, 8125); (8127, 8129); (8141, 8143); (8157, 8159); (8173, 8175); (8189, 8190);
  (8203, 8207); (8216, 8217); (8228, 8228); (8231, 8231); (8234, 8238); (8288, 8292);
  (8294, 8303); (8305, 8305); (8319, 8319); (8336, 8348); (8400, 8432); (11388, 11389);
  (11503, 11505); (11631, 11631); (11647, 11647); (11744, 11775); (11823, 11823); (12293, 12293);
  (12330, 12333); (12337, 12341); (12347, 12347); (12441, 12446); (12540, 12542); (40981, 40981);
  (42232, 42237); (42508, 42508); (42607, 42610); (42612, 42621); (42623, 42623); (42652, 42655);
  (42736, 42737); (42752, 42785); (42864, 42864); (42888, 42890); (42994, 42996); (43000, 43001);
  (43010, 43010); (43014, 43014); (43019, 43019); (43045, 43046); (43052, 43052); (43204, 43205);
  (43232, 43249); (43263, 43263); (43302, 43309); (43335, 43345); (43392, 43394); (43443, 43443);
  (43446, 43449); (43452, 43453); (43471, 43471); (43493, 43494); (43561, 43566); (43569, 43570);
  (43573, 43574); (43587, 43587); (43596, 43596); (43632, 43632); (43644, 43644); (43696, 43696);
  (43698, 43700); (43703, 43704); (43710, 43711); (43713, 43713); (43741, 43741); (43756, 43757);
  (43763, 43764); (43766, 43766); (43867, 43871); (43881, 43883); (44005, 44005); (44008, 44008);
  (44013, 44013); (64286, 64286); (64434, 64450); (65024, 65039); (65043, 65043); (65056, 65071);
  (65106, 65106); (65109, 65109); (65279, 65279); (65287, 65287); (65294, 65294); (65306, 65306);
  (65342, 65342); (65344, 65344); (65392, 65392); (65438, 65439); (65507, 65507); (65529, 65531);
  (66045, 66045); (66272, 66272); (66422, 66426); (67456, 67461); (67463, 67504); (67506, 67514);
  (68097, 68099); (68101, 68102); (68108, 68111); (68152, 68154); (68159, 68159); (68325, 68326);
  (68900, 68903); (69291, 69292); (69446, 69456); (69506, 69509); (69633, 69633); (69688, 69702);
  (69744, 69744); (69747, 69748); (69759, 69761); (69811, 69814); (69817, 69818); (69821, 69821);
  (69826, 69826); (69837, 69837); (69888, 69890); (69927, 69931); (69933, 69940); (70003, 70003);
  (70016, 70017); (70070, 70078); (70089, 70092); (70095, 70095); (70191, 70193); (70196, 70196);
  (70198, 70199); (70206, 70206); (70367, 70367); (70371, 70378); (70400, 70401); (70459, 70460);
  (70464, 70464); (70502, 70508); (70512, 70516); (70712, 70719); (70722, 70724); (70726, 70726);
  (70750, 70750); (70835, 70840); (70842, 70842); (70847, 70848); (70850, 70851); (71090, 71093);
  (71100, 71101); (71103, 71104); (71132, 71133); (71219, 71226); (71229, 71229); (71231, 71232);
  (71339, 71339); (71341, 71341); (71344, 71349); (71351, 71351); (71453, 71455); (71458, 71461);
  (71463, 71467); (71727, 71735); (71737, 71738); (71995, 71996); (71998, 71998); (72003, 72003);
  (72148, 72151); (72154, 72155); (72160, 72160); (72193, 72202); (72243, 72248); (72251, 72254);
  (72263, 72263); (72273, 72278); (72281, 72283); (72330, 72342); (72344, 72345); (72752, 72758);
  (72760, 72765); (72767, 72767); (72850, 72871); (72874, 72880); (72882, 72883); (72885, 72886);
  (73009, 73014); (73018, 73018); (73020, 73021); (73023, 73029); (73031, 73031); (73104, 73105);
  (73109, 73109); (73111, 73111); (73459, 73460); (78896, 78904); (92912, 92916); (92976, 92982);
  (92992, 92995); (94031, 94031); (94095, 94111); (94176, 94177); (94179, 94180); (110576, 110579);
  (110581, 110587); (110589, 110590); (113821, 113822); (113824, 113827); (118528, 118573); (118576, 118598);
  (119143, 119145); (119155, 119170); (119173, 119179); (119210, 119213); (119362, 119364); (121344, 121398);
  (121403, 121452); (121461, 121461); (121476, 121476); (121499, 121503); (121505, 121519); (122880, 122886);
  (122888, 122904); (122907, 122913); (122915, 122916); (122918, 122922); (123184, 123197); (123566, 123566);
  (123628, 123631); (125136, 125142); (125252, 125259); (127995, 127999); (917505, 917505); (917536, 917631);
  (917760, 917999)].

Definition cased_ranges : list (N * N) := [
  (65, 90); (97, 122); (170, 170); (181, 181); (186, 186); (192, 214);
  (216, 246); (248, 442); (444, 447); (452, 659); (661, 687); (880, 883);
  (886, 887); (891, 893); (895, 895); (902, 902); (904, 906); (908, 908);
  (910, 929); (931, 1013); (1015, 1153); (1162, 1327); (1329, 1366); (1376, 1416);
  (4256, 4293); (4295, 4295); (4301, 4301); (4304, 4346); (4349, 4351); (5024, 5109);
  (5112, 5117); (7296, 7304); (7312, 7354); (7357, 7359); (7424, 7467); (7531, 7543);
  (7545, 7578); (7680, 7957); (7960, 7965); (7968, 8005); (8008, 8013); (8016, 8023);
  (8025, 8025); (8027, 8027); (8029, 8029); (8031, 8061); (8064, 8116); (8118, 8124);
  (8126, 8126); (8130, 8132); (8134, 8140); (8144, 8147); (8150, 8155); (8160, 8172);
  (8178, 8180); (8182, 8188); (8450, 8450); (8455, 8455); (8458, 8467); (8469, 8469);
  (8473, 8477); (8484, 8484); (8486, 8486); (8488, 8488); (8490, 8493); (8495, 8500);
  (8505, 8505); (8508, 8511); (8517, 8521); (8526, 8526); (8544, 8575); (8579, 8580);
  (9398, 9449); (11264, 11387); (11390, 11492); (11499, 11502); (11506, 11507); (11520, 11557);
  (11559, 11559); (11565, 11565); (42560, 42605); (42624, 42651); (42786, 42863); (42865, 42887);
  (42891, 42894); (42896, 42954); (42960, 42961); (42963, 42963); (42965, 42969); (42997, 42998);
  (43002, 43002); (43824, 43866); (43872, 43880); (43888, 43967); (64256, 64262); (64275, 64279);
  (65313, 65338); (65345, 65370); (66560, 66639); (66736, 66771); (66776, 66811); (66928, 66938);
  (66940, 66954); (66956, 66962); (66964, 66965); (66967, 66977); (66979, 66993); (66995, 67001);
  (67003, 67004); (68736, 68786); (68800, 68850); (71840, 71903); (93760, 93823); (119808, 119892);
  (119894, 119964); (119966, 119967); (119970, 119970); (119973, 119974); (119977, 119980); (119982, 119993);
  (119995, 119995); (119997, 120003); (120005, 120069); (120071, 120074); (120077, 120084); (120086, 120092);
  (120094, 120121); (120123, 120126); (120128, 120132); (120134, 120134); (120138, 120144); (120146, 120485);
  (120488, 120512); (120514, 120538); (120540, 120570); (120572, 120596); (120598, 120628); (120630, 120654);
  (120656, 120686); (120688, 120712); (120714, 120744); (120746, 120770); (120772, 120779); (122624, 122633);
  (122635, 122654); (125184, 125251); (127280, 127305); (127312, 127337); (127344, 127369)].

Definition canonicalize_table : list (N * N) := [
  (97, 65); (98, 66); (99, 67); (100, 68); (101, 69); (102, 70); (103, 71); (104, 72);
  (105, 73); (106, 74); (107, 75); (108, 76); (109, 77); (110, 78); (111, 79); (112, 80);
  (113, 81); (114, 82); (115, 83); (116, 84); (117, 85); (118, 86); (119, 87); (120, 88);
  (121, 89); (122, 90); (181, 924); (224, 192); (225, 193); (226, 194); (227, 195); (228, 196);
  (229, 197); (230, 198); (231, 199); (232, 200); (233, 201); (234, 202); (235, 203); (236, 204);
  (237, 205); (238, 206); (239, 207); (240, 208); (241, 209); (242, 210); (243, 211); (244, 212);
  (245, 213); (246, 214); (248, 216); (249, 217); (250, 218); (251, 219); (252, 220); (253, 221);
  (254, 222); (255, 376); (257, 256); (259, 258); (261, 260); (263, 262); (265, 264); (267, 266);
  (269, 268); (271, 270); (273, 272); (275, 274); (277, 276); (279, 278); (281, 280); (283, 282);
  (285, 284); (287, 286); (289, 288); (291, 290); (293, 292); (295, 294); (297, 296); (299, 298);
  (301, 300); (303, 302); (307, 306); (309, 308); (311, 310); (314, 313); (316, 315); (318, 317);
  (320, 319); (322, 321); (324, 323); (326, 325); (328, 327); (331, 330); (333, 332); (335, 334);
  (337, 336); (339, 338); (341, 340); (343, 342); (345, 344); (347, 346); (349, 348); (351, 350);
  (353, 352); (355, 354); (357, 356); (359, 358); (361, 360); (363, 362); (365, 364); (367, 366);
  (369, 368); (371, 370); (373, 372); (375, 374); (378, 377); (380, 379); (382, 381); (384, 579);
  (387, 386); (389, 388); (392, 391); (396, 395); (402, 401); (405, 502); (409, 408); (410, 573);
  (414, 544); (417, 416); (419, 418); (421, 420); (424, 423); (429, 428); (432, 431); (436, 435);
  (438, 437); (441, 440); (445, 444); (447, 503); (453, 452); (454, 452); (456, 455); (457, 455);
  (459, 458); (460, 458); (462, 461); (464, 463); (466, 465); (468, 467); (470, 469); (472, 471);
  (474, 473); (476, 475); (477, 398); (479, 478); (481, 480); (483, 482); (485, 484); (487, 486);
  (489, 488); (491, 490); (493, 492); (495, 494); (498, 497); (499, 497); (501, 500); (505, 504);
  (507, 506); (509, 508); (511, 510); (513, 512); (515, 514); (517, 516); (519, 518); (521, 520);
  (523, 522); (525, 524); (527, 526); (529, 528); (531, 530); (533, 532); (535, 534); (537, 536);
  (539, 538); (541, 540); (543, 542); (547, 546); (549, 548); (551, 550); (553, 552); (555, 554);
  (557, 556); (559, 558); (561, 560); (563, 562); (572, 571); (575, 11390); (576, 11391); (578, 577);
  (583, 582); (585, 584); (587, 586); (589, 588); (591, 590); (592, 11375); (593, 11373); (594, 11376);
  (595, 385); (596, 390); (598, 393); (599, 394); (601, 399); (603, 400); (604, 42923); (608, 403);
  (609, 42924); (611, 404); (613, 42893); (614, 42922); (616, 407); (617, 406); (618, 42926); (619, 11362);
  (620, 42925); (623, 412); (625, 11374); (626, 413); (629, 415); (637, 11364); (640, 422); (642, 42949);
  (643, 425); (647, 42929); (648, 430); (649, 580); (650, 433); (651, 434); (652, 581); (658, 439);
  (669, 42930); (670, 42928); (837, 921); (881, 880); (883, 882); (887, 886); (891, 1021); (892, 1022);
  (893, 1023); (940, 902); (941, 904); (942, 905); (943, 906); (945, 913); (946, 914); (947, 915);
  (948, 916); (949, 917); (950, 918); (951, 919); (952, 920); (953, 921); (954, 922); (955, 923);
  (956, 924); (957, 925); (958, 926); (959, 927); (960, 928); (961, 929); (962, 931); (963, 931);
  (964, 932); (965, 933); (966, 934); (967, 935); (968, 936); (969, 937); (970, 938); (971, 939);
  (972, 908); (973, 910); (974, 911); (976, 914); (977, 920); (981, 934); (982, 928); (983, 975);
  (985, 984); (987, 986); (989, 988); (991, 990); (993, 992); (995, 994); (997, 996); (999, 998);
  (1001, 1000); (1003, 1002); (1005, 1004); (1007, 1006); (1008, 922); (1009, 929); (1010, 1017); (1011, 895);
  (1013, 917); (1016, 1015); (1019, 1018); (1072, 1040); (1073, 1041); (1074, 1042); (1075, 1043); (1076, 1044);
  (1077, 1045); (1078, 1046); (1079, 1047); (1080, 1048); (1081, 1049); (1082, 1050); (1083, 1051); (1084, 1052);
  (1085, 1053); (1086, 1054); (1087, 1055); (1088, 1056); (1089, 1057); (1090, 1058); (1091, 1059); (1092, 1060);
  (1093, 1061); (1094, 1062); (1095, 1063); (1096, 1064); (1097, 1065); (1098, 1066); (1099, 1067); (1100, 1068);
  (1101, 1069); (1102, 1070); (1103, 1071); (1104, 1024); (1105, 1025); (1106, 1026); (1107, 1027); (1108, 1028);
  (1109, 1029); (1110, 1030); (1111, 1031); (1112, 1032); (1113, 1033); (1114, 1034); (1115, 1035); (1116, 1036);
  (1117, 1037); (1118, 1038); (1119, 1039); (1121, 1120); (1123, 1122); (1125, 1124); (1127, 1126); (1129, 1128);
  (1131, 1130); (1133, 1132); (1135, 1134); (1137, 1136); (1139, 1138); (1141, 1140); (1143, 1142); (1145, 1144);
  (1147, 1146); (1149, 1148); (1151, 1150); (1153, 1152); (1163, 1162); (1165, 1164); (1167, 1166); (1169, 1168);
  (1171, 1170); (1173, 1172); (1175, 1174); (1177, 1176); (1179, 1178); (1181, 1180); (1183, 1182); (1185, 1184);
  (1187, 1186); (1189, 1188); (1191, 1190); (1193, 1192); (1195, 1194); (1197, 1196); (1199, 1198); (1201, 1200);
  (1203, 1202); (1205, 1204); (1207, 1206); (1209, 1208); (1211, 1210); (1213, 1212); (1215, 1214); (1218, 1217);
  (1220, 1219); (1222, 1221); (1224, 1223); (1226, 1225); (1228, 1227); (1230, 1229); (1231, 1216); (1233, 1232);
  (1235, 1234); (1237, 1236); (1239, 1238); (1241, 1240); (1243, 1242); (1245, 1244); (1247, 1246); (1249, 1248);
  (1251, 1250); (1253, 1252); (1255, 1254); (1257, 1256); (1259, 1258); (1261, 1260); (1263, 1262); (1265, 1264);
  (1267, 1266); (1269, 1268); (1271, 1270); (1273, 1272); (1275, 1274); (1277, 1276); (1279, 1278); (1281, 1280);
  (1283, 1282); (1285, 1284); (1287, 1286); (1289, 1288); (1291, 1290); (1293, 1292); (1295, 1294); (1297, 1296);
  (1299, 1298); (1301, 1300); (1303, 1302); (1305, 1304); (1307, 1306); (1309, 1308); (1311, 1310); (1313, 1312);
  (1315, 1314); (1317, 1316); (1319, 1318); (1321, 1320); (1323, 1322); (1325, 1324); (1327, 1326); (1377, 1329);
  (1378, 1330); (1379, 1331); (1380, 1332); (1381, 1333); (1382, 1334); (1383, 1335); (1384, 1336); (1385, 1337);
  (1386, 1338); (1387, 1339); (1388, 1340); (1389, 1341); (1390, 1342); (1391, 1343); (1392, 1344); (1393, 1345);
  (1394, 1346); (1395, 1347); (1396, 1348); (1397, 1349); (1398, 1350); (1399, 1351); (1400, 1352); (1401, 1353);
  (1402, 1354); (1403, 1355); (1404, 1356); (1405, 1357); (1406, 1358); (1407, 1359); (1408, 1360); (1409, 1361);
  (1410, 1362); (1411, 1363); (1412, 1364); (1413, 1365); (1414, 1366); (4304, 7312); (4305, 7313); (4306, 7314);
  (4307, 7315); (4308, 7316); (4309, 7317); (4310, 7318); (4311, 7319); (4312, 7320); (4313, 7321); (4314, 7322);
  (4315, 7323); (4316, 7324); (4317, 7325); (4318, 7326); (4319, 7327); (4320, 7328); (4321, 7329); (4322, 7330);
  (4323, 7331); (4324, 7332); (4325, 7333); (4326, 7334); (4327, 7335); (4328, 7336); (4329, 7337); (4330, 7338);
  (4331, 7339); (4332, 7340); (4333, 7341); (4334, 7342); (4335, 7343); (4336, 7344); (4337, 7345); (4338, 7346);
  (4339, 7347); (4340, 7348); (4341, 7349); (4342, 7350); (4343, 7351); (4344, 7352); (4345, 7353); (4346, 7354);
  (4349, 7357); (4350, 7358); (4351, 7359); (5112, 5104); (5113, 5105); (5114, 5106); (5115, 5107); (5116, 5108);
  (5117, 5109); (7296, 1042); (7297, 1044); (7298, 1054); (7299, 1057); (7300, 1058); (7301, 1058); (7302, 1066);
  (7303, 1122); (7304, 42570); (7545, 42877); (7549, 11363); (7566, 42950); (7681, 7680); (7683, 7682); (7685, 7684);
  (7687, 7686); (7689, 7688); (7691, 7690); (7693, 7692); (7695, 7694); (7697, 7696); (7699, 7698); (7701, 7700);
  (7703, 7702); (7705, 7704); (7707, 7706); (7709, 7708); (7711, 7710); (7713, 7712); (7715, 7714); (7717, 7716);
  (7719, 7718); (7721, 7720); (7723, 7722); (7725, 7724); (7727, 7726); (7729, 7728); (7731, 7730); (7733, 7732);
  (7735, 7734); (7737, 7736); (7739, 7738); (7741, 7740); (7743, 7742); (7745, 7744); (7747, 7746); (7749, 7748);
  (7751, 7750); (7753, 7752); (7755, 7754); (7757, 7756); (7759, 7758); (7761, 7760); (7763, 7762); (7765, 7764);
  (7767, 7766); (7769, 7768); (7771, 7770); (7773, 7772); (7775, 7774); (7777, 7776); (7779, 7778); (7781, 7780);
  (7783, 7782); (7785, 7784); (7787, 7786); (7789, 7788); (7791, 7790); (7793, 7792); (7795, 7794); (7797, 7796);
  (7799, 7798); (7801, 7800); (7803, 7802); (7805, 7804); (7807, 7806); (7809, 7808); (7811, 7810); (7813, 7812);
  (7815, 7814); (7817, 7816); (7819, 7818); (7821, 7820); (7823, 7822); (7825, 7824); (7827, 7826); (7829, 7828);
  (7835, 7776); (7841, 7840); (7843, 7842); (7845, 7844); (7847, 7846); (7849, 7848); (7851, 7850); (7853, 7852);
  (7855, 7854); (7857, 7856); (7859, 7858); (7861, 7860); (7863, 7862); (7865, 7864); (7867, 7866); (7869, 7868);
  (7871, 7870); (7873, 7872); (7875, 7874); (7877, 7876); (7879, 7878); (7881, 7880); (7883, 7882); (7885, 7884);
  (7887, 7886); (7889, 7888); (7891, 7890); (7893, 7892); (7895, 7894); (7897, 7896); (7899, 7898); (7901, 7900);
  (7903, 7902); (7905, 7904); (7907, 7906); (7909, 7908); (7911, 7910); (7913, 7912); (7915, 7914); (7917, 7916);
  (7919, 7918); (7921, 7920); (7923, 7922); (7925, 7924); (7927, 7926); (7929, 7928); (7931, 7930); (7933, 7932);
  (7935, 7934); (7936, 7944); (7937, 7945); (7938, 7946); (7939, 7947); (7940, 7948); (7941, 7949); (7942, 7950);
  (7943, 7951); (7952, 7960); (7953, 7961); (7954, 7962); (7955, 7963); (7956, 7964); (7957, 7965); (7968, 7976);
  (7969, 7977); (7970, 7978); (7971, 7979); (7972, 7980); (7973, 7981); (7974, 7982); (7975, 7983); (7984, 7992);
  (7985, 7993); (7986, 7994); (7987, 7995); (7988, 7996); (7989, 7997); (7990, 7998); (7991, 7999); (8000, 8008);
  (8001, 8009); (8002, 8010); (8003, 8011); (8004, 8012); (8005, 8013); (8017, 8025); (8019, 8027); (8021, 8029);
  (8023, 8031); (8032, 8040); (8033, 8041); (8034, 8042); (8035, 8043); (8036, 8044); (8037, 8045); (8038, 8046);
  (8039, 8047); (8048, 8122); (8049, 8123); (8050, 8136); (8051, 8137); (8052, 8138); (8053, 8139); (8054, 8154);
  (8055, 8155); (8056, 8184); (8057, 8185); (8058, 8170); (8059, 8171); (8060, 8186); (8061, 8187); (8112, 8120);
  (8113, 8121); (8126, 921); (8144, 8152); (8145, 8153); (8160, 8168); (8161, 8169); (8165, 8172); (8526, 8498);
  (8560, 8544); (8561, 8545); (8562, 8546); (8563, 8547); (8564, 8548); (8565, 8549); (8566, 8550); (8567, 8551);
  (8568, 8552); (8569, 8553); (8570, 8554); (8571, 8555); (8572, 8556); (8573, 8557); (8574, 8558); (8575, 8559);
  (8580, 8579); (9424, 9398); (9425, 9399); (9426, 9400); (9427, 9401); (9428, 9402); (9429, 9403); (9430, 9404);
  (9431, 9405); (9432, 9406); (9433, 9407); (9434, 9408); (9435, 9409); (9436, 9410); (9437, 9411); (9438, 9412);
  (9439, 9413); (9440, 9414); (9441, 9415); (9442, 9416); (9443, 9417); (9444, 9418); (9445, 9419); (9446, 9420);
  (9447, 9421); (9448, 9422); (9449, 9423); (11312, 11264); (11313, 11265); (11314, 11266); (11315, 11267); (11316, 11268);
  (11317, 11269); (11318, 11270); (11319, 11271); (11320, 11272); (11321, 11273); (11322, 11274); (11323, 11275); (11324, 11276);
  (11325, 11277); (11326, 11278); (11327, 11279); (11328, 11280); (11329, 11281); (11330, 11282); (11331, 11283); (11332, 11284);
  (11333, 11285); (11334, 11286); (11335, 11287); (11336, 11288); (11337, 11289); (11338, 11290); (11339, 11291); (11340, 11292);
  (11341, 11293); (11342, 11294); (11343, 11295); (11344, 11296); (11345, 11297); (11346, 11298); (11347, 11299); (11348, 11300);
  (11349, 11301); (11350, 11302); (11351, 11303); (11352, 11304); (11353, 11305); (11354, 11306); (11355, 11307); (11356, 11308);
  (11357, 11309); (11358, 11310); (11359, 11311); (11361, 11360); (11365, 570); (11366, 574); (11368, 11367); (11370, 11369);
  (11372, 11371); (11379, 11378); (11382, 11381); (11393, 11392); (11395, 11394); (11397, 11396); (11399, 11398); (11401, 11400);
  (11403, 11402); (11405, 11404); (11407, 11406); (11409, 11408); (11411, 11410); (11413, 11412); (11415, 11414); (11417, 11416);
  (11419, 11418); (11421, 11420); (11423, 11422); (11425, 11424); (11427, 11426); (11429, 11428); (11431, 11430); (11433, 11432);
  (11435, 11434); (11437, 11436); (11439, 11438); (11441, 11440); (11443, 11442); (11445, 11444); (11447, 11446); (11449, 11448);
  (11451, 11450); (11453, 11452); (11455, 11454); (11457, 11456); (11459, 11458); (11461, 11460); (11463, 11462); (11465, 11464);
  (11467, 11466); (11469, 11468); (11471, 11470); (11473, 11472); (11475, 11474); (11477, 11476); (11479, 11478); (11481, 11480);
  (11483, 11482); (11485, 11484); (11487, 11486); (11489, 11488); (11491, 11490); (11500, 11499); (11502, 11501); (11507, 11506);
  (11520, 4256); (11521, 4257); (11522, 4258); (11523, 4259); (11524, 4260); (11525, 4261); (11526, 4262); (11527, 4263);
  (11528, 4264); (11529, 4265); (11530, 4266); (11531, 4267); (11532, 4268); (11533, 4269); (11534, 4270); (11535, 4271);
  (11536, 4272); (11537, 4273); (11538, 4274); (11539, 4275); (11540, 4276); (11541, 4277); (11542, 4278); (11543, 4279);
  (11544, 4280); (11545, 4281); (11546, 4282); (11547, 4283); (11548, 4284); (11549, 4285); (11550, 4286); (11551, 4287);
  (11552, 4288); (11553, 4289); (11554, 4290); (11555, 4291); (11556, 4292); (11557, 4293); (11559, 4295); (11565, 4301);
  (42561, 42560); (42563, 42562); (42565, 42564); (42567, 42566); (42569, 42568); (42571, 42570); (42573, 42572); (42575, 42574);
  (42577, 42576); (42579, 42578); (42581, 42580); (42583, 42582); (42585, 42584); (42587, 42586); (42589, 42588); (42591, 42590);
  (42593, 42592); (42595, 42594); (42597, 42596); (42599, 42598); (42601, 42600); (42603, 42602); (42605, 42604); (42625, 42624);
  (42627, 42626); (42629, 42628); (42631, 42630); (42633, 42632); (42635, 42634); (42637, 42636); (42639, 42638); (42641, 42640);
  (42643, 42642); (42645, 42644); (42647, 42646); (42649, 42648); (42651, 42650); (42787, 42786); (42789, 42788); (42791, 42790);
  (42793, 42792); (42795, 42794); (42797, 42796); (42799, 42798); (42803, 42802); (42805, 42804); (42807, 42806); (42809, 42808);
  (42811, 42810); (42813, 42812); (42815, 42814); (42817, 42816); (42819, 42818); (42821, 42820); (42823, 42822); (42825, 42824);
  (42827, 42826); (42829, 42828); (42831, 42830); (42833, 42832); (42835, 42834); (42837, 42836); (42839, 42838); (42841, 42840);
  (42843, 42842); (42845, 42844); (42847, 42846); (42849, 42848); (42851, 42850); (42853, 42852); (42855, 42854); (42857, 42856);
  (42859, 42858); (42861, 42860); (42863, 42862); (42874, 42873); (42876, 42875); (42879, 42878); (42881, 42880); (42883, 42882);
  (42885, 42884); (42887, 42886); (42892, 42891); (42897, 42896); (42899, 42898); (42900, 42948); (42903, 42902); (42905, 42904);
  (42907, 42906); (42909, 42908); (42911, 42910); (42913, 42912); (42915, 42914); (42917, 42916); (42919, 42918); (42921, 42920);
  (42933, 42932); (42935, 42934); (42937, 42936); (42939, 42938); (42941, 42940); (42943, 42942); (42945, 42944); (42947, 42946);
  (42952, 42951); (42954, 42953); (42961, 42960); (42967, 42966); (42969, 42968); (42998, 42997); (43859, 42931); (43888, 5024);
  (43889, 5025); (43890, 5026); (43891, 5027); (43892, 5028); (43893, 5029); (43894, 5030); (43895, 5031); (43896, 5032);
  (43897, 5033); (43898, 5034); (43899, 5035); (43900, 5036); (43901, 5037); (43902, 5038); (43903, 5039); (43904, 5040);
  (43905, 5041); (43906, 5042); (43907, 5043); (43908, 5044); (43909, 5045); (43910, 5046); (43911, 5047); (43912, 5048);
  (43913, 5049); (43914, 5050); (43915, 5051); (43916, 5052); (43917, 5053); (43918, 5054); (43919, 5055); (43920, 5056);
  (43921, 5057); (43922, 5058); (43923, 5059); (43924, 5060); (43925, 5061); (43926, 5062); (43927, 5063); (43928, 5064);
  (43929, 5065); (43930, 5066); (43931, 5067); (43932, 5068); (43933, 5069); (43934, 5070); (43935, 5071); (43936, 5072);
  (43937, 5073); (43938, 5074); (43939, 5075); (43940, 5076); (43941, 5077); (43942, 5078); (43943, 5079); (43944, 5080);
  (43945, 5081); (43946, 5082); (43947, 5083); (43948, 5084); (43949, 5085); (43950, 5086); (43951, 5087); (43952, 5088);
  (43953, 5089); (43954, 5090); (43955, 5091); (43956, 5092); (43957, 5093); (43958, 5094); (43959, 5095); (43960, 5096);
  (43961, 5097); (43962, 5098); (43963, 5099); (43964, 5100); (43965, 5101); (43966, 5102); (43967, 5103); (65345, 65313);
  (65346, 65314); (65347, 65315); (65348, 65316); (65349, 65317); (65350, 65318); (65351, 65319); (65352, 65320); (65353, 65321);
  (65354, 65322); (65355, 65323); (65356, 65324); (65357, 65325); (65358, 65326); (65359, 65327); (65360, 65328); (65361, 65329);
  (65362, 65330); (65363, 65331); (65364, 65332); (65365, 65333); (65366, 65334); (65367, 65335); (65368, 65336); (65369, 65337);
  (65370, 65338)].

Definition decomposition_table : list (N * list N) := [
  (192, [65; 768]); (193, [65; 769]); (194, [65; 770]); (195, [65; 771]); (196, [65; 776]);
  (197, [65; 778]); (199, [67; 807]); (200, [69; 768]); (201, [69; 769]); (202, [69; 770]);
  (203, [69; 776]); (204, [73; 768]); (205, [73; 769]); (206, [73; 770]); (207, [73; 776]);
  (209, [78; 771]); (210, [79; 768]); (211, [79; 769]); (212, [79; 770]); (213, [79; 771]);
  (214, [79; 776]); (217, [85; 768]); (218, [85; 769]); (219, [85; 770]); (220, [85; 776]);
  (221, [89; 769]); (224, [97; 768]); (225, [97; 769]); (226, [97; 770]); (227, [97; 771]);
  (228, [97; 776]); (229, [97; 778]); (231, [99; 807]); (232, [101; 768]); (233, [101; 769]);
  (234, [101; 770]); (235, [101; 776]); (236, [105; 768]); (237, [105; 769]); (238, [105; 770]);
  (239, [105; 776]); (241, [110; 771]); (242, [111; 768]); (243, [111; 769]); (244, [111; 770]);
  (245, [111; 771]); (246, [111; 776]); (249, [117; 768]); (250, [117; 769]); (251, [117; 770]);
  (252, [117; 776]); (253, [121; 769]); (255, [121; 776]); (256, [65; 772]); (257, [97; 772]);
  (258, [65; 774]); (259, [97; 774]); (260, [65; 808]); (261, [97; 808]); (262, [67; 769]);
  (263, [99; 769]); (264, [67; 770]); (265, [99; 770]); (266, [67; 775]); (267, [99; 775]);
  (268, [67; 780]); (269, [99; 780]); (270, [68; 780]); (271, [100; 780]); (274, [69; 772]);
  (275, [101; 772]); (276, [69; 774]); (277, [101; 774]); (278, [69; 775]); (279, [101; 775]);
  (280, [69; 808]); (281, [101; 808]); (282, [69; 780]); (283, [101; 780]); (284, [71; 770]);
  (285, [103; 770]); (286, [71; 774]); (287, [103; 774]); (288, [71; 775]); (289, [103; 775]);
  (290, [71; 807]); (291, [103; 807]); (292, [72; 770]); (293, [104; 770]); (296, [73; 771]);
  (297, [105; 771]); (298, [73; 772]); (299, [105; 772]); (300, [73; 774]); (301, [105; 774]);
  (302, [73; 808]); (303, [105; 808]); (304, [73; 775]); (308, [74; 770]); (309, [106; 770]);
  (310, [75; 807]); (311, [107; 807]); (313, [76; 769]); (314, [108; 769]); (315, [76; 807]);
  (316, [108; 807]); (317, [76; 780]); (318, [108; 780]); (323, [78; 769]); (324, [110; 769]);
  (325, [78; 807]); (326, [110; 807]); (327, [78; 780]); (328, [110; 780]); (332, [79; 772]);
  (333, [111; 772]); (334, [79; 774]); (335, [111; 774]); (336, [79; 779]); (337, [111; 779]);
  (340, [82; 769]); (341, [114; 769]); (342, [82; 807]); (343, [114; 807]); (344, [82; 780]);
  (345, [114; 780]); (346, [83; 769]); (347, [115; 769]); (348, [83; 770]); (349, [115; 770]);
  (350, [83; 807]); (351, [115; 807]); (352, [83; 780]); (353, [115; 780]); (354, [84; 807]);
  (355, [116; 807]); (356, [84; 780]); (357, [116; 780]); (360, [85; 771]); (361, [117; 771]);
  (362, [85; 772]); (363, [117; 772]); (364, [85; 774]); (365, [117; 774]); (366, [85; 778]);
  (367, [117; 778]); (368, [85; 779]); (369, [117; 779]); (370, [85; 808]); (371, [117; 808]);
  (372, [87; 770]); (373, [119; 770]); (374, [89; 770]); (375, [121; 770]); (376, [89; 776]);
  (377, [90; 769]); (378, [122; 769]); (379, [90; 775]); (380, [122; 775]); (381, [90; 780]);
  (382, [122; 780]); (416, [79; 795]); (417, [111; 795]); (431, [85; 795]); (432, [117; 795]);
  (461, [65; 780]); (462, [97; 780]); (463, [73; 780]); (464, [105; 780]); (465, [79; 780]);
  (466, [111; 780]); (467, [85; 780]); (468, [117; 780]); (469, [85; 776; 772]); (470, [117; 776; 772]);
  (471, [85; 776; 769]); (472, [117; 776; 769]); (473, [85; 776; 780]); (474, [117; 776; 780]); (475, [85; 776; 768]);
  (476, [117; 776; 768]); (478, [65; 776; 772]); (479, [97; 776; 772]); (480, [65; 775; 772]); (481, [97; 775; 772]);
  (482, [198; 772]); (483, [230; 772]); (486, [71; 780]); (487, [103; 780]); (488, [75; 780]);
  (489, [107; 780]); (490, [79; 808]); (491, [111; 808]); (492, [79; 808; 772]); (493, [111; 808; 772]);
  (494, [439; 780]); (495, [658; 780]); (496, [106; 780]); (500, [71; 769]); (501, [103; 769]);
  (504, [78; 768]); (505, [110; 768]); (506, [65; 778; 769]); (507, [97; 778; 769]); (508, [198; 769]);
  (509, [230; 769]); (510, [216; 769]); (511, [248; 769]); (512, [65; 783]); (513, [97; 783]);
  (514, [65; 785]); (515, [97; 785]); (516, [69; 783]); (517, [101; 783]); (518, [69; 785]);
  (519, [101; 785]); (520, [73; 783]); (521, [105; 783]); (522, [73; 785]); (523, [105; 785]);
  (524, [79; 783]); (525, [111; 783]); (526, [79; 785]); (527, [111; 785]); (528, [82; 783]);
  (529, [114; 783]); (530, [82; 785]); (531, [114; 785]); (532, [85; 783]); (533, [117; 783]);
  (534, [85; 785]); (535, [117; 785]); (536, [83; 806]); (537, [115; 806]); (538, [84; 806]);
  (539, [116; 806]); (542, [72; 780]); (543, [104; 780]); (550, [65; 775]); (551, [97; 775]);
  (552, [69; 807]); (553, [101; 807]); (554, [79; 776; 772]); (555, [111; 776; 772]); (556, [79; 771; 772]);
  (557, [111; 771; 772]); (558, [79; 775]); (559, [111; 775]); (560, [79; 775; 772]); (561, [111; 775; 772]);
  (562, [89; 772]); (563, [121; 772]); (832, [768]); (833, [769]); (835, [787]);
  (836, [776; 769]); (884, [697]); (894, [59]); (901, [168; 769]); (902, [913; 769]);
  (903, [183]); (904, [917; 769]); (905, [919; 769]); (906, [921; 769]); (908, [927; 769]);
  (910, [933; 769]); (911, [937; 769]); (912, [953; 776; 769]); (938, [921; 776]); (939, [933; 776]);
  (940, [945; 769]); (941, [949; 769]); (942, [951; 769]); (943, [953; 769]); (944, [965; 776; 769]);
  (970, [953; 776]); (971, [965; 776]); (972, [959; 769]); (973, [965; 769]); (974, [969; 769]);
  (979, [978; 769]); (980, [978; 776]); (1024, [1045; 768]); (1025, [1045; 776]); (1027, [1043; 769]);
  (1031, [1030; 776]); (1036, [1050; 769]); (1037, [1048; 768]); (1038, [1059; 774]); (1049, [1048; 774]);
  (1081, [1080; 774]); (1104, [1077; 768]); (1105, [1077; 776]); (1107, [1075; 769]); (1111, [1110; 776]);
  (1116, [1082; 769]); (1117, [1080; 768]); (1118, [1091; 774]); (1142, [1140; 783]); (1143, [1141; 783]);
  (1217, [1046; 774]); (1218, [1078; 774]); (1232, [1040; 774]); (1233, [1072; 774]); (1234, [1040; 776]);
  (1235, [1072; 776]); (1238, [1045; 774]); (1239, [1077; 774]); (1242, [1240; 776]); (1243, [1241; 776]);
  (1244, [1046; 776]); (1245, [1078; 776]); (1246, [1047; 776]); (1247, [1079; 776]); (1250, [1048; 772]);
  (1251, [1080; 772]); (1252, [1048; 776]); (1253, [1080; 776]); (1254, [1054; 776]); (1255, [1086; 776]);
  (1258, [1256; 776]); (1259, [1257; 776]); (1260, [1069; 776]); (1261, [1101; 776]); (1262, [1059; 772]);
  (1263, [1091; 772]); (1264, [1059; 776]); (1265, [1091; 776]); (1266, [1059; 779]); (1267, [1091; 779]);
  (1268, [1063; 776]); (1269, [1095; 776]); (1272, [1067; 776]); (1273, [1099; 776]); (1570, [1575; 1619]);
  (1571, [1575; 1620]); (1572, [1608; 1620]); (1573, [1575; 1621]); (1574, [1610; 1620]); (1728, [1749; 1620]);
  (1730, [1729; 1620]); (1747, [1746; 1620]); (2345, [2344; 2364]); (2353, [2352; 2364]); (2356, [2355; 2364]);
  (2392, [2325; 2364]); (2393, [2326; 2364]); (2394, [2327; 2364]); (2395, [2332; 2364]); (2396, [2337; 2364]);
  (2397, [2338; 2364]); (2398, [2347; 2364]); (2399, [2351; 2364]); (2507, [2503; 2494]); (2508, [2503; 2519]);
  (2524, [2465; 2492]); (2525, [2466; 2492]); (2527, [2479; 2492]); (2611, [2610; 2620]); (2614, [2616; 2620]);
  (2649, [2582; 2620]); (2650, [2583; 2620]); (2651, [2588; 2620]); (2654, [2603; 2620]); (2888, [2887; 2902]);
  (2891, [2887; 2878]); (2892, [2887; 2903]); (2908, [2849; 2876]); (2909, [2850; 2876]); (2964, [2962; 3031]);
  (3018, [3014; 3006]); (3019, [3015; 3006]); (3020, [3014; 3031]); (3144, [3142; 3158]); (3264, [3263; 3285]);
  (3271, [3270; 3285]); (3272, [3270; 3286]); (3274, [3270; 3266]); (3275, [3270; 3266; 3285]); (3402, [3398; 3390]);
  (3403, [3399; 3390]); (3404, [3398; 3415]); (3546, [3545; 3530]); (3548, [3545; 3535]); (3549, [3545; 3535; 3530]);
  (3550, [3545; 3551]); (3907, [3906; 4023]); (3917, [3916; 4023]); (3922, [3921; 4023]); (3927, [3926; 4023]);
  (3932, [3931; 4023]); (3945, [3904; 4021]); (3955, [3953; 3954]); (3957, [3953; 3956]); (3958, [4018; 3968]);
  (3960, [4019; 3968]); (3969, [3953; 3968]); (3987, [3986; 4023]); (3997, [3996; 4023]); (4002, [4001; 4023]);
  (4007, [4006; 4023]); (4012, [4011; 4023]); (4025, [3984; 4021]); (4134, [4133; 4142]); (6918, [6917; 6965]);
  (6920, [6919; 6965]); (6922, [6921; 6965]); (6924, [6923; 6965]); (6926, [6925; 6965]); (6930, [6929; 6965]);
  (6971, [6970; 6965]); (6973, [6972; 6965]); (6976, [6974; 6965]); (6977, [6975; 6965]); (6979, [6978; 6965]);
  (7680, [65; 805]); (7681, [97; 805]); (7682, [66; 775]); (7683, [98; 775]); (7684, [66; 803]);
  (7685, [98; 803]); (7686, [66; 817]); (7687, [98; 817]); (7688, [67; 807; 769]); (7689, [99; 807; 769]);
  (7690, [68; 775]); (7691, [100; 775]); (7692, [68; 803]); (7693, [100; 803]); (7694, [68; 817]);
  (7695, [100; 817]); (7696, [68; 807]); (7697, [100; 807]); (7698, [68; 813]); (7699, [100; 813]);
  (7700, [69; 772; 768]); (7701, [101; 772; 768]); (7702, [69; 772; 769]); (7703, [101; 772; 769]); (7704, [69; 813]);
  (7705, [101; 813]); (7706, [69; 816]); (7707, [101; 816]); (7708, [69; 807; 774]); (7709, [101; 807; 774]);
  (7710, [70; 775]); (7711, [102; 775]); (7712, [71; 772]); (7713, [103; 772]); (7714, [72; 775]);
  (7715, [104; 775]); (7716, [72; 803]); (7717, [104; 803]); (7718, [72; 776]); (7719, [104; 776]);
  (7720, [72; 807]); (7721, [104; 807]); (7722, [72; 814]); (7723, [104; 814]); (7724, [73; 816]);
  (7725, [105; 816]); (7726, [73; 776; 769]); (7727, [105; 776; 769]); (7728, [75; 769]); (7729, [107; 769]);
  (7730, [75; 803]); (7731, [107; 803]); (7732, [75; 817]); (7733, [107; 817]); (7734, [76; 803]);
  (7735, [108; 803]); (7736, [76; 803; 772]); (7737, [108; 803; 772]); (7738, [76; 817]); (7739, [108; 817]);
  (7740, [76; 813]); (7741, [108; 813]); (7742, [77; 769]); (7743, [109; 769]); (7744, [77; 775]);
  (7745, [109; 775]); (7746, [77; 803]); (7747, [109; 803]); (7748, [78; 775]); (7749, [110; 775]);
  (7750, [78; 803]); (7751, [110; 803]); (7752, [78; 817]); (7753, [110; 817]); (7754, [78; 813]);
  (7755, [110; 813]); (7756, [79; 771; 769]); (7757, [111; 771; 769]); (7758, [79; 771; 776]); (7759, [111; 771; 776]);
  (7760, [79; 772; 768]); (7761, [111; 772; 768]); (7762, [79; 772; 769]); (7763, [111; 772; 769]); (7764, [80; 769]);
  (7765, [112; 769]); (7766, [80; 775]); (7767, [112; 775]); (7768, [82; 775]); (7769, [114; 775]);
  (7770, [82; 803]); (7771, [114; 803]); (7772, [82; 803; 772]); (7773, [114; 803; 772]); (7774, [82; 817]);
  (7775, [114; 817]); (7776, [83; 775]); (7777, [115; 775]); (7778, [83; 803]); (7779, [115; 803]);
  (7780, [83; 769; 775]); (7781, [115; 769; 775]); (7782, [83; 780; 775]); (7783, [115; 780; 775]); (7784, [83; 803; 775]);
  (7785, [115; 803; 775]); (7786, [84; 775]); (7787, [116; 775]); (7788, [84; 803]); (7789, [116; 803]);
  (7790, [84; 817]); (7791, [116; 817]); (7792, [84; 813]); (7793, [116; 813]); (7794, [85; 804]);
  (7795, [117; 804]); (7796, [85; 816]); (7797, [117; 816]); (7798, [85; 813]); (7799, [117; 813]);
  (7800, [85; 771; 769]); (7801, [117; 771; 769]); (7802, [85; 772; 776]); (7803, [117; 772; 776]); (7804, [86; 771]);
  (7805, [118; 771]); (7806, [86; 803]); (7807, [118; 803]); (7808, [87; 768]); (7809, [119; 768]);
  (7810, [87; 769]); (7811, [119; 769]); (7812, [87; 776]); (7813, [119; 776]); (7814, [87; 775]);
  (7815, [119; 775]); (7816, [87; 803]); (7817, [119; 803]); (7818, [88; 775]); (7819, [120; 775]);
  (7820, [88; 776]); (7821, [120; 776]); (7822, [89; 775]); (7823, [121; 775]); (7824, [90; 770]);
  (7825, [122; 770]); (7826, [90; 803]); (7827, [122; 803]); (7828, [90; 817]); (7829, [122; 817]);
  (7830, [104; 817]); (7831, [116; 776]); (7832, [119; 778]); (7833, [121; 778]); (7835, [383; 775]);
  (7840, [65; 803]); (7841, [97; 803]); (7842, [65; 777]); (7843, [97; 777]); (7844, [65; 770; 769]);
  (7845, [97; 770; 769]); (7846, [65; 770; 768]); (7847, [97; 770; 768]); (7848, [65; 770; 777]); (7849, [97; 770; 777]);
  (7850, [65; 770; 771]); (7851, [97; 770; 771]); (7852, [65; 803; 770]); (7853, [97; 803; 770]); (7854, [65; 774; 769]);
  (7855, [97; 774; 769]); (7856, [65; 774; 768]); (7857, [97; 774; 768]); (7858, [65; 774; 777]); (7859, [97; 774; 777]);
  (7860, [65; 774; 771]); (7861, [97; 774; 771]); (7862, [65; 803; 774]); (7863, [97; 803; 774]); (7864, [69; 803]);
  (7865, [101; 803]); (7866, [69; 777]); (7867, [101; 777]); (7868, [69; 771]); (7869, [101; 771]);
  (7870, [69; 770; 769]); (7871, [101; 770; 769]); (7872, [69; 770; 768]); (7873, [101; 770; 768]); (7874, [69; 770; 777]);
  (7875, [101; 770; 777]); (7876, [69; 770; 771]); (7877, [101; 770; 771]); (7878, [69; 803; 770]); (7879, [101; 803; 770]);
  (7880, [73; 777]); (7881, [105; 777]); (7882, [73; 803]); (7883, [105; 803]); (7884, [79; 803]);
  (7885, [111; 803]); (7886, [79; 777]); (7887, [111; 777]); (7888, [79; 770; 769]); (7889, [111; 770; 769]);
  (7890, [79; 770; 768]); (7891, [111; 770; 768]); (7892, [79; 770; 777]); (7893, [111; 770; 777]); (7894, [79; 770; 771]);
  (7895, [111; 770; 771]); (7896, [79; 803; 770]); (7897, [111; 803; 770]); (7898, [79; 795; 769]); (7899, [111; 795; 769]);
  (7900, [79; 795; 768]); (7901, [111; 795; 768]); (7902, [79; 795; 777]); (7903, [111; 795; 777]); (7904, [79; 795; 771]);
  (7905, [111; 795; 771]); (7906, [79; 795; 803]); (7907, [111; 795; 803]); (7908, [85; 803]); (7909, [117; 803]);
  (7910, [85; 777]); (7911, [117; 777]); (7912, [85; 795; 769]); (7913, [117; 795; 769]); (7914, [85; 795; 768]);
  (7915, [117; 795; 768]); (7916, [85; 795; 777]); (7917, [117; 795; 777]); (7918, [85; 795; 771]); (7919, [117; 795; 771]);
  (7920, [85; 795; 803]); (7921, [117; 795; 803]); (7922, [89; 768]); (7923, [121; 768]); (7924, [89; 803]);
  (7925, [121; 803]); (7926, [89; 777]); (7927, [121; 777]); (7928, [89; 771]); (7929, [121; 771]);
  (7936, [945; 787]); (7937, [945; 788]); (7938, [945; 787; 768]); (7939, [945; 788; 768]); (7940, [945; 787; 769]);
  (7941, [945; 788; 769]); (7942, [945; 787; 834]); (7943, [945; 788; 834]); (7944, [913; 787]); (7945, [913; 788]);
  (7946, [913; 787; 768]); (7947, [913; 788; 768]); (7948, [913; 787; 769]); (7949, [913; 788; 769]); (7950, [913; 787; 834]);
  (7951, [913; 788; 834]); (7952, [949; 787]); (7953, [949; 788]); (7954, [949; 787; 768]); (7955, [949; 788; 768]);
  (7956, [949; 787; 769]); (7957, [949; 788; 769]); (7960, [917; 787]); (7961, [917; 788]); (7962, [917; 787; 768]);
  (7963, [917; 788; 768]); (7964, [917; 787; 769]); (7965, [917; 788; 769]); (7968, [951; 787]); (7969, [951; 788]);
  (7970, [951; 787; 768]); (7971, [951; 788; 768]); (7972, [951; 787; 769]); (7973, [951; 788; 769]); (7974, [951; 787; 834]);
  (7975, [951; 788; 834]); (7976, [919; 787]); (7977, [919; 788]); (7978, [919; 787; 768]); (7979, [919; 788; 768]);
  (7980, [919; 787; 769]); (7981, [919; 788; 769]); (7982, [919; 787; 834]); (7983, [919; 788; 834]); (7984, [953; 787]);
  (7985, [953; 788]); (7986, [953; 787; 768]); (7987, [953; 788; 768]); (7988, [953; 787; 769]); (7989, [953; 788; 769]);
  (7990, [953; 787; 834]); (7991, [953; 788; 834]); (7992, [921; 787]); (7993, [921; 788]); (7994, [921; 787; 768]);
  (7995, [921; 788; 768]); (7996, [921; 787; 769]); (7997, [921; 788; 769]); (7998, [921; 787; 834]); (7999, [921; 788; 834]);
  (8000, [959; 787]); (8001, [959; 788]); (8002, [959; 787; 768]); (8003, [959; 788; 768]); (8004, [959; 787; 769]);
  (8005, [959; 788; 769]); (8008, [927; 787]); (8009, [927; 788]); (8010, [927; 787; 768]); (8011, [927; 788; 768]);
  (8012, [927; 787; 769]); (8013, [927; 788; 769]); (8016, [965; 787]); (8017, [965; 788]); (8018, [965; 787; 768]);
  (8019, [965; 788; 768]); (8020, [965; 787; 769]); (8021, [965; 788; 769]); (8022, [965; 787; 834]); (8023, [965; 788; 834]);
  (8025, [933; 788]); (8027, [933; 788; 768]); (8029, [933; 788; 769]); (8031, [933; 788; 834]); (8032, [969; 787]);
  (8033, [969; 788]); (8034, [969; 787; 768]); (8035, [969; 788; 768]); (8036, [969; 787; 769]); (8037, [969; 788; 769]);
  (8038, [969; 787; 834]); (8039, [969; 788; 834]); (8040, [937; 787]); (8041, [937; 788]); (8042, [937; 787; 768]);
  (8043, [937; 788; 768]); (8044, [937; 787; 769]); (8045, [937; 788; 769]); (8046, [937; 787; 834]); (8047, [937; 788; 834]);
  (8048, [945; 768]); (8049, [945; 769]); (8050, [949; 768]); (8051, [949; 769]); (8052, [951; 768]);
  (8053, [951; 769]); (8054, [953; 768]); (8055, [953; 769]); (8056, [959; 768]); (8057, [959; 769]);
  (8058, [965; 768]); (8059, [965; 769]); (8060, [969; 768]); (8061, [969; 769]); (8064, [945; 787; 837]);
  (8065, [945; 788; 837]); (8066, [945; 787; 768; 837]); (8067, [945; 788; 768; 837]); (8068, [945; 787; 769; 837]); (8069, [945; 788; 769; 837]);
  (8070, [945; 787; 834; 837]); (8071, [945; 788; 834; 837]); (8072, [913; 787; 837]); (8073, [913; 788; 837]); (8074, [913; 787; 768; 837]);
  (8075, [913; 788; 768; 837]); (8076, [913; 787; 769; 837]); (8077, [913; 788; 769; 837]); (8078, [913; 787; 834; 837]); (8079, [913; 788; 834; 837]);
  (8080, [951; 787; 837]); (8081, [951; 788; 837]); (8082, [951; 787; 768; 837]); (8083, [951; 788; 768; 837]); (8084, [951; 787; 769; 837]);
  (8085, [951; 788; 769; 837]); (8086, [951; 787; 834; 837]); (8087, [951; 788; 834; 837]); (8088, [919; 787; 837]); (8089, [919; 788; 837]);
  (8090, [919; 787; 768; 837]); (8091, [919; 788; 768; 837]); (8092, [919; 787; 769; 837]); (8093, [919; 788; 769; 837]); (8094, [919; 787; 834; 837]);
  (8095, [919; 788; 834; 837]); (8096, [969; 787; 837]); (8097, [969; 788; 837]); (8098, [969; 787; 768; 837]); (8099, [969; 788; 768; 837]);
  (8100, [969; 787; 769; 837]); (8101, [969; 788; 769; 837]); (8102, [969; 787; 834; 837]); (8103, [969; 788; 834; 837]); (8104, [937; 787; 837]);
  (8105, [937; 788; 837]); (8106, [937; 787; 768; 837]); (8107, [937; 788; 768; 837]); (8108, [937; 787; 769; 837]); (8109, [937; 788; 769; 837]);
  (8110, [937; 787; 834; 837]); (8111, [937; 788; 834; 837]); (8112, [945; 774]); (8113, [945; 772]); (8114, [945; 768; 837]);
  (8115, [945; 837]); (8116, [945; 769; 837]); (8118, [945; 834]); (8119, [945; 834; 837]); (8120, [913; 774]);
  (8121, [913; 772]); (8122, [913; 768]); (8123, [913; 769]); (8124, [913; 837]); (8126, [953]);
  (8129, [168; 834]); (8130, [951; 768; 837]); (8131, [951; 837]); (8132, [951; 769; 837]); (8134, [951; 834]);
  (8135, [951; 834; 837]); (8136, [917; 768]); (8137, [917; 769]); (8138, [919; 768]); (8139, [919; 769]);
  (8140, [919; 837]); (8141, [8127; 768]); (8142, [8127; 769]); (8143, [8127; 834]); (8144, [953; 774]);
  (8145, [953; 772]); (8146, [953; 776; 768]); (8147, [953; 776; 769]); (8150, [953; 834]); (8151, [953; 776; 834]);
  (8152, [921; 774]); (8153, [921; 772]); (8154, [921; 768]); (8155, [921; 769]); (8157, [8190; 768]);
  (8158, [8190; 769]); (8159, [8190; 834]); (8160, [965; 774]); (8161, [965; 772]); (8162, [965; 776; 768]);
  (8163, [965; 776; 769]); (8164, [961; 787]); (8165, [961; 788]); (8166, [965; 834]); (8167, [965; 776; 834]);
  (8168, [933; 774]); (8169, [933; 772]); (8170, [933; 768]); (8171, [933; 769]); (8172, [929; 788]);
  (8173, [168; 768]); (8174, [168; 769]); (8175, [96]); (8178, [969; 768; 837]); (8179, [969; 837]);
  (8180, [969; 769; 837]); (8182, [969; 834]); (8183, [969; 834; 837]); (8184, [927; 768]); (8185, [927; 769]);
  (8186, [937; 768]); (8187, [937; 769]); (8188, [937; 837]); (8189, [180]); (8192, [8194]);
  (8193, [8195]); (8486, [937]); (8490, [75]); (8491, [65; 778]); (8602, [8592; 824]);
  (8603, [8594; 824]); (8622, [8596; 824]); (8653, [8656; 824]); (8654, [8660; 824]); (8655, [8658; 824]);
  (8708, [8707; 824]); (8713, [8712; 824]); (8716, [8715; 824]); (8740, [8739; 824]); (8742, [8741; 824]);
  (8769, [8764; 824]); (8772, [8771; 824]); (8775, [8773; 824]); (8777, [8776; 824]); (8800, [61; 824]);
  (8802, [8801; 824]); (8813, [8781; 824]); (8814, [60; 824]); (8815, [62; 824]); (8816, [8804; 824]);
  (8817, [8805; 824]); (8820, [8818; 824]); (8821, [8819; 824]); (8824, [8822; 824]); (8825, [8823; 824]);
  (8832, [8826; 824]); (8833, [8827; 824]); (8836, [8834; 824]); (8837, [8835; 824]); (8840, [8838; 824]);
  (8841, [8839; 824]); (8876, [8866; 824]); (8877, [8872; 824]); (8878, [8873; 824]); (8879, [8875; 824]);
  (8928, [8828; 824]); (8929, [8829; 824]); (8930, [8849; 824]); (8931, [8850; 824]); (8938, [8882; 824]);
  (8939, [8883; 824]); (8940, [8884; 824]); (8941, [8885; 824]); (9001, [12296]); (9002, [12297]);
  (10972, [10973; 824]); (12364, [12363; 12441]); (12366, [12365; 12441]); (12368, [12367; 12441]); (12370, [12369; 12441]);
  (12372, [12371; 12441]); (12374, [12373; 12441]); (12376, [12375; 12441]); (12378, [12377; 12441]); (12380, [12379; 12441]);
  (12382, [12381; 12441]); (12384, [12383; 12441]); (12386, [12385; 12441]); (12389, [12388; 12441]); (12391, [12390; 12441]);
  (12393, [12392; 12441]); (12400, [12399; 12441]); (12401, [12399; 12442]); (12403, [12402; 12441]); (12404, [12402; 12442]);
  (12406, [12405; 12441]); (12407, [12405; 12442]); (12409, [12408; 12441]); (12410, [12408; 12442]); (12412, [12411; 12441]);
  (12413, [12411; 12442]); (12436, [12358; 12441]); (12446, [12445; 12441]); (12460, [12459; 12441]); (12462, [12461; 12441]);
  (12464, [12463; 12441]); (12466, [12465; 12441]); (12468, [12467; 12441]); (12470, [12469; 12441]); (12472, [12471; 12441]);
  (12474, [12473; 12441]); (12476, [12475; 12441]); (12478, [12477; 12441]); (12480, [12479; 12441]); (12482, [12481; 12441]);
  (12485, [12484; 12441]); (12487, [12486; 12441]); (12489, [12488; 12441]); (12496, [12495; 12441]); (12497, [12495; 12442]);
  (12499, [12498; 12441]); (12500, [12498; 12442]); (12502, [12501; 12441]); (12503, [12501; 12442]); (12505, [12504; 12441]);
  (12506, [12504; 12442]); (12508, [12507; 12441]); (12509, [12507; 12442]); (12532, [12454; 12441]); (12535, [12527; 12441]);
  (12536, [12528; 12441]); (12537, [12529; 12441]); (12538, [12530; 12441]); (12542, [12541; 12441]); (63744, [35912]);
  (63745, [26356]); (63746, [36554]); (63747, [36040]); (63748, [28369]); (63749, [20018]);
  (63750, [21477]); (63751, [40860]); (63752, [40860]); (63753, [22865]); (63754, [37329]);
  (63755, [21895]); (63756, [22856]); (63757, [25078]); (63758, [30313]); (63759, [32645]);
  (63760, [34367]); (63761, [34746]); (63762, [35064]); (63763, [37007]); (63764, [27138]);
  (63765, [27931]); (63766, [28889]); (63767, [29662]); (63768, [33853]); (63769, [37226]);
  (63770, [39409]); (63771, [20098]); (63772, [21365]); (63773, [27396]); (63774, [29211]);
  (63775, [34349]); (63776, [40478]); (63777, [23888]); (63778, [28651]); (63779, [34253]);
  (63780, [35172]); (63781, [25289]); (63782, [33240]); (63783, [34847]); (63784, [24266]);
  (63785, [26391]); (63786, [28010]); (63787, [29436]); (63788, [37070]); (63789, [20358]);
  (63790, [20919]); (63791, [21214]); (63792, [25796]); (63793, [27347]); (63794, [29200]);
  (63795, [30439]); (63796, [32769]); (63797, [34310]); (63798, [34396]); (63799, [36335]);
  (63800, [38706]); (63801, [39791]); (63802, [40442]); (63803, [30860]); (63804, [31103]);
  (63805, [32160]); (63806, [33737]); (63807, [37636]); (63808, [40575]); (63809, [35542]);
  (63810, [22751]); (63811, [24324]); (63812, [31840]); (63813, [32894]); (63814, [29282]);
  (63815, [30922]); (63816, [36034]); (63817, [38647]); (63818, [22744]); (63819, [23650]);
  (63820, [27155]); (63821, [28122]); (63822, [28431]); (63823, [32047]); (63824, [32311]);
  (63825, [38475]); (63826, [21202]); (63827, [32907]); (63828, [20956]); (63829, [20940]);
  (63830, [31260]); (63831, [32190]); (63832, [33777]); (63833, [38517]); (63834, [35712]);
  (63835, [25295]); (63836, [27138]); (63837, [35582]); (63838, [20025]); (63839, [23527]);
  (63840, [24594]); (63841, [29575]); (63842, [30064]); (63843, [21271]); (63844, [30971]);
  (63845, [20415]); (63846, [24489]); (63847, [19981]); (63848, [27852]); (63849, [25976]);
  (63850, [32034]); (63851, [21443]); (63852, [22622]); (63853, [30465]); (63854, [33865]);
  (63855, [35498]); (63856, [27578]); (63857, [36784]); (63858, [27784]); (63859, [25342]);
  (63860, [33509]); (63861, [25504]); (63862, [30053]); (63863, [20142]); (63864, [20841]);
  (63865, [20937]); (63866, [26753]); (63867, [31975]); (63868, [33391]); (63869, [35538]);
  (63870, [37327]); (63871, [21237]); (63872, [21570]); (63873, [22899]); (63874, [24300]);
  (63875, [26053]); (63876, [28670]); (63877, [31018]); (63878, [38317]); (63879, [39530]);
  (63880, [40599]); (63881, [40654]); (63882, [21147]); (63883, [26310]); (63884, [27511]);
  (63885, [36706]); (63886, [24180]); (63887, [24976]); (63888, [25088]); (63889, [25754]);
  (63890, [28451]); (63891, [29001]); (63892, [29833]); (63893, [31178]); (63894, [32244]);
  (63895, [32879]); (63896, [36646]); (63897, [34030]); (63898, [36899]); (63899, [37706]);
  (63900, [21015]); (63901, [21155]); (63902, [21693]); (63903, [28872]); (63904, [35010]);
  (63905, [35498]); (63906, [24265]); (63907, [24565]); (63908, [25467]); (63909, [27566]);
  (63910, [31806]); (63911, [29557]); (63912, [20196]); (63913, [22265]); (63914, [23527]);
  (63915, [23994]); (63916, [24604]); (63917, [29618]); (63918, [29801]); (63919, [32666]);
  (63920, [32838]); (63921, [37428]); (63922, [38646]); (63923, [38728]); (63924, [38936]);
  (63925, [20363]); (63926, [31150]); (63927, [37300]); (63928, [38584]); (63929, [24801]);
  (63930, [20102]); (63931, [20698]); (63932, [23534]); (63933, [23615]); (63934, [26009]);
  (63935, [27138]); (63936, [29134]); (63937, [30274]); (63938, [34044]); (63939, [36988]);
  (63940, [40845]); (63941, [26248]); (63942, [38446]); (63943, [21129]); (63944, [26491]);
  (63945, [26611]); (63946, [27969]); (63947, [28316]); (63948, [29705]); (63949, [30041]);
  (63950, [30827]); (63951, [32016]); (63952, [39006]); (63953, [20845]); (63954, [25134]);
  (63955, [38520]); (63956, [20523]); (63957, [23833]); (63958, [28138]); (63959, [36650]);
  (63960, [24459]); (63961, [24900]); (63962, [26647]); (63963, [29575]); (63964, [38534]);
  (63965, [21033]); (63966, [21519]); (63967, [23653]); (63968, [26131]); (63969, [26446]);
  (63970, [26792]); (63971, [27877]); (63972, [29702]); (63973, [30178]); (63974, [32633]);
  (63975, [35023]); (63976, [35041]); (63977, [37324]); (63978, [38626]); (63979, [21311]);
  (63980, [28346]); (63981, [21533]); (63982, [29136]); (63983, [29848]); (63984, [34298]);
  (63985, [38563]); (63986, [40023]); (63987, [40607]); (63988, [26519]); (63989, [28107]);
  (63990, [33256]); (63991, [31435]); (63992, [31520]); (63993, [31890]); (63994, [29376]);
  (63995, [28825]); (63996, [35672]); (63997, [20160]); (63998, [33590]); (63999, [21050]);
  (64000, [20999]); (64001, [24230]); (64002, [25299]); (64003, [31958]); (64004, [23429]);
  (64005, [27934]); (64006, [26292]); (64007, [36667]); (64008, [34892]); (64009, [38477]);
  (64010, [35211]); (64011, [24275]); (64012, [20800]); (64013, [21952]); (64016, [22618]);
  (64018, [26228]); (64021, [20958]); (64022, [29482]); (64023, [30410]); (64024, [31036]);
  (64025, [31070]); (64026, [31077]); (64027, [31119]); (64028, [38742]); (64029, [31934]);
  (64030, [32701]); (64032, [34322]); (64034, [35576]); (64037, [36920]); (64038, [37117]);
  (64042, [39151]); (64043, [39164]); (64044, [39208]); (64045, [40372]); (64046, [37086]);
  (64047, [38583]); (64048, [20398]); (64049, [20711]); (64050, [20813]); (64051, [21193]);
  (64052, [21220]); (64053, [21329]); (64054, [21917]); (64055, [22022]); (64056, [22120]);
  (64057, [22592]); (64058, [22696]); (64059, [23652]); (64060, [23662]); (64061, [24724]);
  (64062, [24936]); (64063, [24974]); (64064, [25074]); (64065, [25935]); (64066, [26082]);
  (64067, [26257]); (64068, [26757]); (64069, [28023]); (64070, [28186]); (64071, [28450]);
  (64072, [29038]); (64073, [29227]); (64074, [29730]); (64075, [30865]); (64076, [31038]);
  (64077, [31049]); (64078, [31048]); (64079, [31056]); (64080, [31062]); (64081, [31069]);
  (64082, [31117]); (64083, [31118]); (64084, [31296]); (64085, [31361]); (64086, [31680]);
  (64087, [32244]); (64088, [32265]); (64089, [32321]); (64090, [32626]); (64091, [32773]);
  (64092, [33261]); (64093, [33401]); (64094, [33401]); (64095, [33879]); (64096, [35088]);
  (64097, [35222]); (64098, [35585]); (64099, [35641]); (64100, [36051]); (64101, [36104]);
  (64102, [36790]); (64103, [36920]); (64104, [38627]); (64105, [38911]); (64106, [38971]);
  (64107, [24693]); (64108, [148206]); (64109, [33304]); (64112, [20006]); (64113, [20917]);
  (64114, [20840]); (64115, [20352]); (64116, [20805]); (64117, [20864]); (64118, [21191]);
  (64119, [21242]); (64120, [21917]); (64121, [21845]); (64122, [21913]); (64123, [21986]);
  (64124, [22618]); (64125, [22707]); (64126, [22852]); (64127, [22868]); (64128, [23138]);
  (64129, [23336]); (64130, [24274]); (64131, [24281]); (64132, [24425]); (64133, [24493]);
  (64134, [24792]); (64135, [24910]); (64136, [24840]); (64137, [24974]); (64138, [24928]);
  (64139, [25074]); (64140, [25140]); (64141, [25540]); (64142, [25628]); (64143, [25682]);
  (64144, [25942]); (64145, [26228]); (64146, [26391]); (64147, [26395]); (64148, [26454]);
  (64149, [27513]); (64150, [27578]); (64151, [27969]); (64152, [28379]); (64153, [28363]);
  (64154, [28450]); (64155, [28702]); (64156, [29038]); (64157, [30631]); (64158, [29237]);
  (64159, [29359]); (64160, [29482]); (64161, [29809]); (64162, [29958]); (64163, [30011]);
  (64164, [30237]); (64165, [30239]); (64166, [30410]); (64167, [30427]); (64168, [30452]);
  (64169, [30538]); (64170, [30528]); (64171, [30924]); (64172, [31409]); (64173, [31680]);
  (64174, [31867]); (64175, [32091]); (64176, [32244]); (64177, [32574]); (64178, [32773]);
  (64179, [33618]); (64180, [33775]); (64181, [34681]); (64182, [35137]); (64183, [35206]);
  (64184, [35222]); (64185, [35519]); (64186, [35576]); (64187, [35531]); (64188, [35585]);
  (64189, [35582]); (64190, [35565]); (64191, [35641]); (64192, [35722]); (64193, [36104]);
  (64194, [36664]); (64195, [36978]); (64196, [37273]); (64197, [37494]); (64198, [38524]);
  (64199, [38627]); (64200, [38742]); (64201, [38875]); (64202, [38911]); (64203, [38923]);
  (64204, [38971]); (64205, [39698]); (64206, [40860]); (64207, [141386]); (64208, [141380]);
  (64209, [144341]); (64210, [15261]); (64211, [16408]); (64212, [16441]); (64213, [152137]);
  (64214, [154832]); (64215, [163539]); (64216, [40771]); (64217, [40846]); (64285, [1497; 1460]);
  (64287, [1522; 1463]); (64298, [1513; 1473]); (64299, [1513; 1474]); (64300, [1513; 1468; 1473]); (64301, [1513; 1468; 1474]);
  (64302, [1488; 1463]); (64303, [1488; 1464]); (64304, [1488; 1468]); (64305, [1489; 1468]); (64306, [1490; 1468]);
  (64307, [1491; 1468]); (64308, [1492; 1468]); (64309, [1493; 1468]); (64310, [1494; 1468]); (64312, [1496; 1468]);
  (64313, [1497; 1468]); (64314, [1498; 1468]); (64315, [1499; 1468]); (64316, [1500; 1468]); (64318, [1502; 1468]);
  (64320, [1504; 1468]); (64321, [1505; 1468]); (64323, [1507; 1468]); (64324, [1508; 1468]); (64326, [1510; 1468]);
  (64327, [1511; 1468]); (64328, [1512; 1468]); (64329, [1513; 1468]); (64330, [1514; 1468]); (64331, [1493; 1465]);
  (64332, [1489; 1471]); (64333, [1499; 1471]); (64334, [1508; 1471]); (69786, [69785; 69818]); (69788, [69787; 69818]);
  (69803, [69797; 69818]); (69934, [69937; 69927]); (69935, [69938; 69927]); (70475, [70471; 70462]); (70476, [70471; 70487]);
  (70843, [70841; 70842]); (70844, [70841; 70832]); (70846, [70841; 70845]); (71098, [71096; 71087]); (71099, [71097; 71087]);
  (71992, [71989; 71984]); (119134, [119127; 119141]); (119135, [119128; 119141]); (119136, [119128; 119141; 119150]); (119137, [119128; 119141; 119151]);
  (119138, [119128; 119141; 119152]); (119139, [119128; 119141; 119153]); (119140, [119128; 119141; 119154]); (119227, [119225; 119141]); (119228, [119226; 119141]);
  (119229, [119225; 119141; 119150]); (119230, [119226; 119141; 119150]); (119231, [119225; 119141; 119151]); (119232, [119226; 119141; 119151]); (194560, [20029]);
  (194561, [20024]); (194562, [20033]); (194563, [131362]); (194564, [20320]); (194565, [20398]);
  (194566, [20411]); (194567, [20482]); (194568, [20602]); (194569, [20633]); (194570, [20711]);
  (194571, [20687]); (194572, [13470]); (194573, [132666]); (194574, [20813]); (194575, [20820]);
  (194576, [20836]); (194577, [20855]); (194578, [132380]); (194579, [13497]); (194580, [20839]);
  (194581, [20877]); (194582, [132427]); (194583, [20887]); (194584, [20900]); (194585, [20172]);
  (194586, [20908]); (194587, [20917]); (194588, [168415]); (194589, [20981]); (194590, [20995]);
  (194591, [13535]); (194592, [21051]); (194593, [21062]); (194594, [21106]); (194595, [21111]);
  (194596, [13589]); (194597, [21191]); (194598, [21193]); (194599, [21220]); (194600, [21242]);
  (194601, [21253]); (194602, [21254]); (194603, [21271]); (194604, [21321]); (194605, [21329]);
  (194606, [21338]); (194607, [21363]); (194608, [21373]); (194609, [21375]); (194610, [21375]);
  (194611, [21375]); (194612, [133676]); (194613, [28784]); (194614, [21450]); (194615, [21471]);
  (194616, [133987]); (194617, [21483]); (194618, [21489]); (194619, [21510]); (194620, [21662]);
  (194621, [21560]); (194622, [21576]); (194623, [21608]); (194624, [21666]); (194625, [21750]);
  (194626, [21776]); (194627, [21843]); (194628, [21859]); (194629, [21892]); (194630, [21892]);
  (194631, [21913]); (194632, [21931]); (194633, [21939]); (194634, [21954]); (194635, [22294]);
  (194636, [22022]); (194637, [22295]); (194638, [22097]); (194639, [22132]); (194640, [20999]);
  (194641, [22766]); (194642, [22478]); (194643, [22516]); (194644, [22541]); (194645, [22411]);
  (194646, [22578]); (194647, [22577]); (194648, [22700]); (194649, [136420]); (194650, [22770]);
  (194651, [22775]); (194652, [22790]); (194653, [22810]); (194654, [22818]); (194655, [22882]);
  (194656, [136872]); (194657, [136938]); (194658, [23020]); (194659, [23067]); (194660, [23079]);
  (194661, [23000]); (194662, [23142]); (194663, [14062]); (194664, [14076]); (194665, [23304]);
  (194666, [23358]); (194667, [23358]); (194668, [137672]); (194669, [23491]); (194670, [23512]);
  (194671, [23527]); (194672, [23539]); (194673, [138008]); (194674, [23551]); (194675, [23558]);
  (194676, [24403]); (194677, [23586]); (194678, [14209]); (194679, [23648]); (194680, [23662]);
  (194681, [23744]); (194682, [23693]); (194683, [138724]); (194684, [23875]); (194685, [138726]);
  (194686, [23918]); (194687, [23915]); (194688, [23932]); (194689, [24033]); (194690, [24034]);
  (194691, [14383]); (194692, [24061]); (194693, [24104]); (194694, [24125]); (194695, [24169]);
  (194696, [14434]); (194697, [139651]); (194698, [14460]); (194699, [24240]); (194700, [24243]);
  (194701, [24246]); (194702, [24266]); (194703, [172946]); (194704, [24318]); (194705, [140081]);
  (194706, [140081]); (194707, [33281]); (194708, [24354]); (194709, [24354]); (194710, [14535]);
  (194711, [144056]); (194712, [156122]); (194713, [24418]); (194714, [24427]); (194715, [14563]);
  (194716, [24474]); (194717, [24525]); (194718, [24535]); (194719, [24569]); (194720, [24705]);
  (194721, [14650]); (194722, [14620]); (194723, [24724]); (194724, [141012]); (194725, [24775]);
  (194726, [24904]); (194727, [24908]); (194728, [24910]); (194729, [24908]); (194730, [24954]);
  (194731, [24974]); (194732, [25010]); (194733, [24996]); (194734, [25007]); (194735, [25054]);
  (194736, [25074]); (194737, [25078]); (194738, [25104]); (194739, [25115]); (194740, [25181]);
  (194741, [25265]); (194742, [25300]); (194743, [25424]); (194744, [142092]); (194745, [25405]);
  (194746, [25340]); (194747, [25448]); (194748, [25475]); (194749, [25572]); (194750, [142321]);
  (194751, [25634]); (194752, [25541]); (194753, [25513]); (194754, [14894]); (194755, [25705]);
  (194756, [25726]); (194757, [25757]); (194758, [25719]); (194759, [14956]); (194760, [25935]);
  (194761, [25964]); (194762, [143370]); (194763, [26083]); (194764, [26360]); (194765, [26185]);
  (194766, [15129]); (194767, [26257]); (194768, [15112]); (194769, [15076]); (194770, [20882]);
  (194771, [20885]); (194772, [26368]); (194773, [26268]); (194774, [32941]); (194775, [17369]);
  (194776, [26391]); (194777, [26395]); (194778, [26401]); (194779, [26462]); (194780, [26451]);
  (194781, [144323]); (194782, [15177]); (194783, [26618]); (194784, [26501]); (194785, [26706]);
  (194786, [26757]); (194787, [144493]); (194788, [26766]); (194789, [26655]); (194790, [26900]);
  (194791, [15261]); (194792, [26946]); (194793, [27043]); (194794, [27114]); (194795, [27304]);
  (194796, [145059]); (194797, [27355]); (194798, [15384]); (194799, [27425]); (194800, [145575]);
  (194801, [27476]); (194802, [15438]); (194803, [27506]); (194804, [27551]); (194805, [27578]);
  (194806, [27579]); (194807, [146061]); (194808, [138507]); (194809, [146170]); (194810, [27726]);
  (194811, [146620]); (194812, [27839]); (194813, [27853]); (194814, [27751]); (194815, [27926]);
  (194816, [27966]); (194817, [28023]); (194818, [27969]); (194819, [28009]); (194820, [28024]);
  (194821, [28037]); (194822, [146718]); (194823, [27956]); (194824, [28207]); (194825, [28270]);
  (194826, [15667]); (194827, [28363]); (194828, [28359]); (194829, [147153]); (194830, [28153]);
  (194831, [28526]); (194832, [147294]); (194833, [147342]); (194834, [28614]); (194835, [28729]);
  (194836, [28702]); (194837, [28699]); (194838, [15766]); (194839, [28746]); (194840, [28797]);
  (194841, [28791]); (194842, [28845]); (194843, [132389]); (194844, [28997]); (194845, [148067]);
  (194846, [29084]); (194847, [148395]); (194848, [29224]); (194849, [29237]); (194850, [29264]);
  (194851, [149000]); (194852, [29312]); (194853, [29333]); (194854, [149301]); (194855, [149524]);
  (194856, [29562]); (194857, [29579]); (194858, [16044]); (194859, [29605]); (194860, [16056]);
  (194861, [16056]); (194862, [29767]); (194863, [29788]); (194864, [29809]); (194865, [29829]);
  (194866, [29898]); (194867, [16155]); (194868, [29988]); (194869, [150582]); (194870, [30014]);
  (194871, [150674]); (194872, [30064]); (194873, [139679]); (194874, [30224]); (194875, [151457]);
  (194876, [151480]); (194877, [151620]); (194878, [16380]); (194879, [16392]); (194880, [30452]);
  (194881, [151795]); (194882, [151794]); (194883, [151833]); (194884, [151859]); (194885, [30494]);
  (194886, [30495]); (194887, [30495]); (194888, [30538]); (194889, [16441]); (194890, [30603]);
  (194891, [16454]); (194892, [16534]); (194893, [152605]); (194894, [30798]); (194895, [30860]);
  (194896, [30924]); (194897, [16611]); (194898, [153126]); (194899, [31062]); (194900, [153242]);
  (194901, [153285]); (194902, [31119]); (194903, [31211]); (194904, [16687]); (194905, [31296]);
  (194906, [31306]); (194907, [31311]); (194908, [153980]); (194909, [154279]); (194910, [154279]);
  (194911, [31470]); (194912, [16898]); (194913, [154539]); (194914, [31686]); (194915, [31689]);
  (194916, [16935]); (194917, [154752]); (194918, [31954]); (194919, [17056]); (194920, [31976]);
  (194921, [31971]); (194922, [32000]); (194923, [155526]); (194924, [32099]); (194925, [17153]);
  (194926, [32199]); (194927, [32258]); (194928, [32325]); (194929, [17204]); (194930, [156200]);
  (194931, [156231]); (194932, [17241]); (194933, [156377]); (194934, [32634]); (194935, [156478]);
  (194936, [32661]); (194937, [32762]); (194938, [32773]); (194939, [156890]); (194940, [156963]);
  (194941, [32864]); (194942, [157096]); (194943, [32880]); (194944, [144223]); (194945, [17365]);
  (194946, [32946]); (194947, [33027]); (194948, [17419]); (194949, [33086]); (194950, [23221]);
  (194951, [157607]); (194952, [157621]); (194953, [144275]); (194954, [144284]); (194955, [33281]);
  (194956, [33284]); (194957, [36766]); (194958, [17515]); (194959, [33425]); (194960, [33419]);
  (194961, [33437]); (194962, [21171]); (194963, [33457]); (194964, [33459]); (194965, [33469]);
  (194966, [33510]); (194967, [158524]); (194968, [33509]); (194969, [33565]); (194970, [33635]);
  (194971, [33709]); (194972, [33571]); (194973, [33725]); (194974, [33767]); (194975, [33879]);
  (194976, [33619]); (194977, [33738]); (194978, [33740]); (194979, [33756]); (194980, [158774]);
  (194981, [159083]); (194982, [158933]); (194983, [17707]); (194984, [34033]); (194985, [34035]);
  (194986, [34070]); (194987, [160714]); (194988, [34148]); (194989, [159532]); (194990, [17757]);
  (194991, [17761]); (194992, [159665]); (194993, [159954]); (194994, [17771]); (194995, [34384]);
  (194996, [34396]); (194997, [34407]); (194998, [34409]); (194999, [34473]); (195000, [34440]);
  (195001, [34574]); (195002, [34530]); (195003, [34681]); (195004, [34600]); (195005, [34667]);
  (195006, [34694]); (195007, [17879]); (195008, [34785]); (195009, [34817]); (195010, [17913]);
  (195011, [34912]); (195012, [34915]); (195013, [161383]); (195014, [35031]); (195015, [35038]);
  (195016, [17973]); (195017, [35066]); (195018, [13499]); (195019, [161966]); (195020, [162150]);
  (195021, [18110]); (195022, [18119]); (195023, [35488]); (195024, [35565]); (195025, [35722]);
  (195026, [35925]); (195027, [162984]); (195028, [36011]); (195029, [36033]); (195030, [36123]);
  (195031, [36215]); (195032, [163631]); (195033, [133124]); (195034, [36299]); (195035, [36284]);
  (195036, [36336]); (195037, [133342]); (195038, [36564]); (195039, [36664]); (195040, [165330]);
  (195041, [165357]); (195042, [37012]); (195043, [37105]); (195044, [37137]); (195045, [165678]);
  (195046, [37147]); (195047, [37432]); (195048, [37591]); (195049, [37592]); (195050, [37500]);
  (195051, [37881]); (195052, [37909]); (195053, [166906]); (195054, [38283]); (195055, [18837]);
  (195056, [38327]); (195057, [167287]); (195058, [18918]); (195059, [38595]); (195060, [23986]);
  (195061, [38691]); (195062, [168261]); (195063, [168474]); (195064, [19054]); (195065, [19062]);
  (195066, [38880]); (195067, [168970]); (195068, [19122]); (195069, [169110]); (195070, [38923]);
  (195071, [38923]); (195072, [38953]); (195073, [169398]); (195074, [39138]); (195075, [19251]);
  (195076, [39209]); (195077, [39335]); (195078, [39362]); (195079, [39422]); (195080, [19406]);
  (195081, [170800]); (195082, [39698]); (195083, [40000]); (195084, [40189]); (195085, [19662]);
  (195086, [19693]); (195087, [40295]); (195088, [172238]); (195089, [19704]); (195090, [172293]);
  (195091, [172558]); (195092, [172689]); (195093, [40635]); (195094, [19798]); (195095, [40697]);
  (195096, [40702]); (195097, [40709]); (195098, [40719]); (195099, [40726]); (195100, [40763]);
  (195101, [173568])].

Definition ccc_ranges : list (N * N * N) := [
  (768, 788, 230); (789, 789, 232); (790, 793, 220); (794, 794, 232); (795, 795, 216); (796, 800, 220);
  (801, 802, 202); (803, 806, 220); (807, 808, 202); (809, 819, 220); (820, 824, 1); (825, 828, 220);
  (829, 836, 230); (837, 837, 240); (838, 838, 230); (839, 841, 220); (842, 844, 230); (845, 846, 220);
  (848, 850, 230); (851, 854, 220); (855, 855, 230); (856, 856, 232); (857, 858, 220); (859, 859, 230);
  (860, 860, 233); (861, 862, 234); (863, 863, 233); (864, 865, 234); (866, 866, 233); (867, 879, 230);
  (1155, 1159, 230); (1425, 1425, 220); (1426, 1429, 230); (1430, 1430, 220); (1431, 1433, 230); (1434, 1434, 222);
  (1435, 1435, 220); (1436, 1441, 230); (1442, 1447, 220); (1448, 1449, 230); (1450, 1450, 220); (1451, 1452, 230);
  (1453, 1453, 222); (1454, 1454, 228); (1455, 1455, 230); (1456, 1456, 10); (1457, 1457, 11); (1458, 1458, 12);
  (1459, 1459, 13); (1460, 1460, 14); (1461, 1461, 15); (1462, 1462, 16); (1463, 1463, 17); (1464, 1464, 18);
  (1465, 1466, 19); (1467, 1467, 20); (1468, 1468, 21); (1469, 1469, 22); (1471, 1471, 23); (1473, 1473, 24);
  (1474, 1474, 25); (1476, 1476, 230); (1477, 1477, 220); (1479, 1479, 18); (1552, 1559, 230); (1560, 1560, 30);
  (1561, 1561, 31); (1562, 1562, 32); (1611, 1611, 27); (1612, 1612, 28); (1613, 1613, 29); (1614, 1614, 30);
  (1615, 1615, 31); (1616, 1616, 32); (1617, 1617, 33); (1618, 1618, 34); (1619, 1620, 230); (1621, 1622, 220);
  (1623, 1627, 230); (1628, 1628, 220); (1629, 1630, 230); (1631, 1631, 220); (1648, 1648, 35); (1750, 1756, 230);
  (1759, 1762, 230); (1763, 1763, 220); (1764, 1764, 230); (1767, 1768, 230); (1770, 1770, 220); (1771, 1772, 230);
  (1773, 1773, 220); (1809, 1809, 36); (1840, 1840, 230); (1841, 1841, 220); (1842, 1843, 230); (1844, 1844, 220);
  (1845, 1846, 230); (1847, 1849, 220); (1850, 1850, 230); (1851, 1852, 220); (1853, 1853, 230); (1854, 1854, 220);
  (1855, 1857, 230); (1858, 1858, 220); (1859, 1859, 230); (1860, 1860, 220); (1861, 1861, 230); (1862, 1862, 220);
  (1863, 1863, 230); (1864, 1864, 220); (1865, 1866, 230); (2027, 2033, 230); (2034, 2034, 220); (2035, 2035, 230);
  (2045, 2045, 220); (2070, 2073, 230); (2075, 2083, 230); (2085, 2087, 230); (2089, 2093, 230); (2137, 2139, 220);
  (2200, 2200, 230); (2201, 2203, 220); (2204, 2207, 230); (2250, 2254, 230); (2255, 2259, 220); (2260, 2273, 230);
  (2275, 2275, 220); (2276, 2277, 230); (2278, 2278, 220); (2279, 2280, 230); (2281, 2281, 220); (2282, 2284, 230);
  (2285, 2287, 220); (2288, 2288, 27); (2289, 2289, 28); (2290, 2290, 29); (2291, 2293, 230); (2294, 2294, 220);
  (2295, 2296, 230); (2297, 2298, 220); (2299, 2303, 230); (2364, 2364, 7); (2381, 2381, 9); (2385, 2385, 230);
  (2386, 2386, 220); (2387, 2388, 230); (2492, 2492, 7); (2509, 2509, 9); (2558, 2558, 230); (2620, 2620, 7);
  (2637, 2637, 9); (2748, 2748, 7); (2765, 2765, 9); (2876, 2876, 7); (2893, 2893, 9); (3021, 3021, 9);
  (3132, 3132, 7); (3149, 3149, 9); (3157, 3157, 84); (3158, 3158, 91); (3260, 3260, 7); (3277, 3277, 9);
  (3387, 3388, 9); (3405, 3405, 9); (3530, 3530, 9); (3640, 3641, 103); (3642, 3642, 9); (3656, 3659, 107);
  (3768, 3769, 118); (3770, 3770, 9); (3784, 3787, 122); (3864, 3865, 220); (3893, 3893, 220); (3895, 3895, 220);
  (3897, 3897, 216); (3953, 3953, 129); (3954, 3954, 130); (3956, 3956, 132); (3962, 3965, 130); (3968, 3968, 130);
  (3970, 3971, 230); (3972, 3972, 9); (3974, 3975, 230); (4038, 4038, 220); (4151, 4151, 7); (4153, 4154, 9);
  (4237, 4237, 220); (4957, 4959, 230); (5908, 5909, 9); (5940, 5940, 9); (6098, 6098, 9); (6109, 6109, 230);
  (6313, 6313, 228); (6457, 6457, 222); (6458, 6458, 230); (6459, 6459, 220); (6679, 6679, 230); (6680, 6680, 220);
  (6752, 6752, 9); (6773, 6780, 230); (6783, 6783, 220); (6832, 6836, 230); (6837, 6842, 220); (6843, 6844, 230);
  (6845, 6845, 220); (6847, 6848, 220); (6849, 6850, 230); (6851, 6852, 220); (6853, 6857, 230); (6858, 6858, 220);
  (6859, 6862, 230); (6964, 6964, 7); (6980, 6980, 9); (7019, 7019, 230); (7020, 7020, 220); (7021, 7027, 230);
  (7082, 7083, 9); (7142, 7142, 7); (7154, 7155, 9); (7223, 7223, 7); (7376, 7378, 230); (7380, 7380, 1);
  (7381, 7385, 220); (7386, 7387, 230); (7388, 7391, 220); (7392, 7392, 230); (7394, 7400, 1); (7405, 7405, 220);
  (7412, 7412, 230); (7416, 7417, 230); (7616, 7617, 230); (7618, 7618, 220); (7619, 7625, 230); (7626, 7626, 220);
  (7627, 7628, 230); (7629, 7629, 234); (7630, 7630, 214); (7631, 7631, 220); (7632, 7632, 202); (7633, 7669, 230);
  (7670, 7670, 232); (7671, 7672, 228); (7673, 7673, 220); (7674, 7674, 218); (7675, 7675, 230); (7676, 7676, 233);
  (7677, 7677, 220); (7678, 7678, 230); (7679, 7679, 220); (8400, 8401, 230); (8402, 8403, 1); (8404, 8407, 230);
  (8408, 8410, 1); (8411, 8412, 230); (8417, 8417, 230); (8421, 8422, 1); (8423, 8423, 230); (8424, 8424, 220);
  (8425, 8425, 230); (8426, 8427, 1); (8428, 8431, 220); (8432, 8432, 230); (11503, 11505, 230); (11647, 11647, 9);
  (11744, 11775, 230); (12330, 12330, 218); (12331, 12331, 228); (12332, 12332, 232); (12333, 12333, 222); (12334, 12335, 224);
  (12441, 12442, 8); (42607, 42607, 230); (42612, 42621, 230); (42654, 42655, 230); (42736, 42737, 230); (43014, 43014, 9);
  (43052, 43052, 9); (43204, 43204, 9); (43232, 43249, 230); (43307, 43309, 220); (43347, 43347, 9); (43443, 43443, 7);
  (43456, 43456, 9); (43696, 43696, 230); (43698, 43699, 230); (43700, 43700, 220); (43703, 43704, 230); (43710, 43711, 230);
  (43713, 43713, 230); (43766, 43766, 9); (44013, 44013, 9); (64286, 64286, 26); (65056, 65062, 230); (65063, 65069, 220);
  (65070, 65071, 230); (66045, 66045, 220); (66272, 66272, 220); (66422, 66426, 230); (68109, 68109, 220); (68111, 68111, 230);
  (68152, 68152, 230); (68153, 68153, 1); (68154, 68154, 220); (68159, 68159, 9); (68325, 68325, 230); (68326, 68326, 220);
  (68900, 68903, 230); (69291, 69292, 230); (69446, 69447, 220); (69448, 69450, 230); (69451, 69451, 220); (69452, 69452, 230);
  (69453, 69456, 220); (69506, 69506, 230); (69507, 69507, 220); (69508, 69508, 230); (69509, 69509, 220); (69702, 69702, 9);
  (69744, 69744, 9); (69759, 69759, 9); (69817, 69817, 9); (69818, 69818, 7); (69888, 69890, 230); (69939, 69940, 9);
  (70003, 70003, 7); (70080, 70080, 9); (70090, 70090, 7); (70197, 70197, 9); (70198, 70198, 7); (70377, 70377, 7);
  (70378, 70378, 9); (70459, 70460, 7); (70477, 70477, 9); (70502, 70508, 230); (70512, 70516, 230); (70722, 70722, 9);
  (70726, 70726, 7); (70750, 70750, 230); (70850, 70850, 9); (70851, 70851, 7); (71103, 71103, 9); (71104, 71104, 7);
  (71231, 71231, 9); (71350, 71350, 9); (71351, 71351, 7); (71467, 71467, 9); (71737, 71737, 9); (71738, 71738, 7);
  (71997, 71998, 9); (72003, 72003, 7); (72160, 72160, 9); (72244, 72244, 9); (72263, 72263, 9); (72345, 72345, 9);
  (72767, 72767, 9); (73026, 73026, 7); (73028, 73029, 9); (73111, 73111, 9); (92912, 92916, 1); (92976, 92982, 230);
  (94192, 94193, 6); (113822, 113822, 1); (119141, 119142, 216); (119143, 119145, 1); (119149, 119149, 226); (119150, 119154, 216);
  (119163, 119170, 220); (119173, 119177, 230); (119178, 119179, 220); (119210, 119213, 230); (119362, 119364, 230); (122880, 122886, 230);
  (122888, 122904, 230); (122907, 122913, 230); (122915, 122916, 230); (122918, 122922, 230); (123184, 123190, 230); (123566, 123566, 230);
  (123628, 123631, 230); (125136, 125142, 220); (125252, 125257, 230); (125258, 125258, 7)].

(** The tables are sorted by code point: a lookup stops at the first entry
    beyond the code point it looks for. *)
Fixpoint assoc (A : Type) (c : N) (t : list (N * A)) : option A :=
  match t with
  | [] => None
  | (k, v) :: t' =>
      if c =? k then Some v else if c <? k then None else assoc c t'
  end.

Fixpoint in_ranges (c : N) (t : list (N * N)) : bool :=
  match t with
  | [] => false
  | (lo, hi) :: t' =>
      if c <? lo then false else (c <=? hi) || in_ranges c t'
  end.

Fixpoint range_value (c : N) (t : list (N * N * N)) : N :=
  match t with
  | [] => 0
  | (lo, hi, v) :: t' =>
      if c <? lo then 0 else if c <=? hi then v else range_value c t'
  end.

(** Full lower-case mapping of one code point, without context. *)
Definition lowercase (c : N) : list N :=
  match assoc c lowercase_table with
  | Some l => l
  | None => [c]
  end.

Definition case_ignorable (c : N) : bool := in_ranges c case_ignorable_ranges.

(** Cased and not case-ignorable. *)
Definition cased (c : N) : bool := in_ranges c cased_ranges.

(** Canonical combining class. *)
Definition ccc (c : N) : N := range_value c ccc_ranges.

(** Full canonical decomposition of one code point; Hangul syllables are
    decomposed arithmetically. *)
Definition decomposition (c : N) : list N :=
  if (44032 <=? c) && (c <? 44032 + 11172) then
    let s := c - 44032 in
    let l := 4352 + s / 588 in
    let v := 4449 + (s mod 588) / 28 in
    let t := s mod 28 in
    if t =? 0 then [l; v] else [l; v; 4519 + t]
  else
    match assoc c decomposition_table with
    | Some d => d
    | None => [c]
    end.

End Unicode.

(** ** ECMAScript strings *)
Module JS.
Local Open Scope N_scope.

(** A string value: a finite sequence of 16-bit code units. *)
Definition jsstring := list N.

(** *** Source text

    String literals of the source files are UTF-8; [js] reads a literal the
    way the engine does, as the UTF-16 encoding of its code points. *)

Definition utf16_encode_cp (c : N) : list N :=
  if c <? 65536 then [c]
  else [55296 + (c - 65536) / 1024; 56320 + (c - 65536) mod 1024].

Definition utf16_encode (l : list N) : jsstring := flat_map utf16_encode_cp l.

Definition is_high_surrogate (u : N) : bool := (55296 <=? u) && (u <=? 56319).
Definition is_low_surrogate (u : N) : bool := (56320 <=? u) && (u <=? 57343).

(** [StringToCodePoints]: a surrogate pair is one code point, any other code
    unit (a lone surrogate too) is the code point of the same value. *)
Fixpoint utf16_decode (s : jsstring) : list N :=
  match s with
  | [] => []
  | u :: s' =>
      match s' with
      | v :: s'' =>
          if is_high_surrogate u && is_low_surrogate v
          then (65536 + (u - 55296) * 1024 + (v - 56320)) :: utf16_decode s''
          else u :: utf16_decode s'
      | [] => [u]
      end
  end.

Fixpoint bytes_of_string (s : string) : list N :=
  match s with
  | EmptyString => []
  | String a s' => N_of_ascii a :: bytes_of_string s'
  end.

Fixpoint utf8_decode (bs : list N) : list N :=
  match bs with
  | [] => []
  | b0 :: r0 =>
      if b0 <? 192 then b0 :: utf8_decode r0
      else
        match r0 with
        | [] => [b0]
        | b1 :: r1 =>
            if b0 <? 224 then ((b0 - 192) * 64 + (b1 - 128)) :: utf8_decode r1
            else
              match r1 with
              | [] => [b0; b1]
              | b2 :: r2 =>
                  if b0 <? 240
                  then ((b0 - 224) * 4096 + (b1 - 128) * 64 + (b2 - 128)) :: utf8_decode r2
                  else
                    match r2 with
                    | [] => [b0; b1; b2]
                    | b3 :: r3 =>
                        ((b0 - 240) * 262144 + (b1 - 128) * 4096
                         + (b2 - 128) * 64 + (b3 - 128)) :: utf8_decode r3
                    end
              end
        end
  end.

Definition js (s : string) : jsstring :=
  utf16_encode (utf8_decode (bytes_of_string s)).

Definition eqb (a b : jsstring) : bool :=
  if list_eq_dec N.eq_dec a b then true else false.

(** *** Character classes of the language *)

(** [WhiteSpace] and [LineTerminator]: what [trim] removes and [\s] matches. *)
Definition is_space (u : N) : bool :=
  ((9 <=? u) && (u <=? 13)) || (u =? 32) || (u =? 160) || (u =? 5760)
  || ((8192 <=? u) && (u <=? 8202)) || (u =? 8232) || (u =? 8233)
  || (u =? 8239) || (u =? 8287) || (u =? 12288) || (u =? 65279).

(** [LineTerminator]: what [.] does not match. *)
Definition is_line_terminator (u : N) : bool :=
  (u =? 10) || (u =? 13) || (u =? 8232) || (u =? 8233).

(** [\d]. *)
Definition is_digit (u : N) : bool := (48 <=? u) && (u <=? 57).

(** [\w], without the [u] flag: the 63 basic word characters. *)
Definition is_word (u : N) : bool :=
  ((97 <=? u) && (u <=? 122)) || ((65 <=? u) && (u <=? 90))
  || is_digit u || (u =? 95).

(** *** [String.prototype] methods *)

Fixpoint drop_while (p : N -> bool) (s : jsstring) : jsstring :=
  match s with
  | [] => []
  | u :: s' => if p u then drop_while p s' else s
  end.

Definition drop_while_end (p : N -> bool) (s : jsstring) : jsstring :=
  rev (drop_while p (rev s)).

Definition trim (s : jsstring) : jsstring :=
  drop_while_end is_space (drop_while is_space s).

Fixpoint starts_with (s sub : jsstring) : bool :=
  match sub, s with
  | [], _ => true
  | _ :: _, [] => false
  | v :: sub', u :: s' => (u =? v) && starts_with s' sub'
  end.

(** [s.includes(sub)]. *)
Fixpoint includes (s sub : jsstring) : bool :=
  starts_with s sub ||
  match s with
  | [] => false
  | _ :: s' => includes s' sub
  end.

(** Final_Sigma: the sigma is preceded by a cased letter and not followed by
    one, case-ignorable characters skipped on both sides. *)
Definition cased_next (l : list N) : bool :=
  match drop_while Unicode.case_ignorable l with
  | c :: _ => Unicode.cased c
  | [] => false
  end.

Fixpoint lowercase_cps (before : list N) (l : list N) : list N :=
  match l with
  | [] => []
  | c :: r =>
      (if c =? 931
       then if cased_next before && negb (cased_next r) then [962] else [963]
       else Unicode.lowercase c)
      ++ lowercase_cps (c :: before) r
  end.

(** [s.toLowerCase()]; [before] above holds the preceding code points, nearest
    first. *)
Definition toLowerCase (s : jsstring) : jsstring :=
  utf16_encode (lowercase_cps [] (utf16_decode s)).

(** Canonical ordering: a mark moves left past the marks of a strictly
    greater class; a starter (class 0) never moves. *)
Fixpoint insert_mark (c : N) (l : list N) : list N :=
  match l with
  | [] => [c]
  | d :: r =>
      if negb (Unicode.ccc d =? 0) && (Unicode.ccc d <? Unicode.ccc c)
      then d :: insert_mark c r
      else c :: l
  end.

Fixpoint canonical_order (l : list N) : list N :=
  match l with
  | [] => []
  | c :: r =>
      if Unicode.ccc c =? 0 then c :: canonical_order r
      else insert_mark c (canonical_order r)
  end.

(** [s.normalize('NFD')]. *)
Definition normalizeNFD (s : jsstring) : jsstring :=
  utf16_encode (canonical_order (flat_map Unicode.decomposition (utf16_decode s))).

(** [parseInt(s, 10)] on a string of decimal digits.  The value is kept as an
    exact integer; the engine's Number agrees with it up to 2^53. *)
Definition parseInt (s : jsstring) : Z :=
  Z.of_N (fold_left (fun acc u => 10 * acc + (u - 48)) s 0).

End JS.

(** ** ECMAScript regular expressions

    The fragment the two source files use: character classes, greedy and lazy
    repetition of a class, an optional group, concatenation, alternation,
    capture groups, [^], [$] and [\b].  Matching is the backtracking search of
    the language: alternatives are tried left to right, a greedy repetition
    takes as much as it can first, and the first overall success is the
    match. *)
Module RegExp.
Import JS.
Local Open Scope N_scope.

Inductive regex : Type :=
| Eps
| Chr (p : N -> bool)
| Cat (r1 r2 : regex)
| Alt (r1 r2 : regex)
| Star (greedy : bool) (p : N -> bool)
| Opt (r : regex)
| Group (n : nat) (r : regex)
| Bol
| Eol
| WordB.

(** Captures of the groups that took part in the match. *)
Definition caps := list (nat * jsstring).

Definition set_cap (n : nat) (v : jsstring) (cs : caps) : caps :=
  (n, v) :: filter (fun e => negb (Nat.eqb (fst e) n)) cs.

Fixpoint get_cap (n : nat) (cs : caps) : option jsstring :=
  match cs with
  | [] => None
  | (k, v) :: cs' => if Nat.eqb k n then Some v else get_cap n cs'
  end.

(** A continuation receives the code unit before the current position (none
    at the start of the input), the rest of the input and the captures. *)
Definition cont := option N -> jsstring -> caps -> option (jsstring * caps).

Definition word_before (prev : option N) : bool :=
  match prev with Some u => is_word u | None => false end.

Definition word_after (s : jsstring) : bool :=
  match s with u :: _ => is_word u | [] => false end.

Fixpoint star_greedy (p : N -> bool) (k : cont) (prev : option N) (s : jsstring)
    (cs : caps) : option (jsstring * caps) :=
  match s with
  | u :: s' =>
      if p u then
        match star_greedy p k (Some u) s' cs with
        | Some r => Some r
        | None => k prev s cs
        end
      else k prev s cs
  | [] => k prev s cs
  end.

Fixpoint star_lazy (p : N -> bool) (k : cont) (prev : option N) (s : jsstring)
    (cs : caps) : option (jsstring * caps) :=
  match k prev s cs with
  | Some r => Some r
  | None =>
      match s with
      | u :: s' => if p u then star_lazy p k (Some u) s' cs else None
      | [] => None
      end
  end.

Fixpoint run (r : regex) (k : cont) (prev : option N) (s : jsstring) (cs : caps)
    : option (jsstring * caps) :=
  match r with
  | Eps => k prev s cs
  | Chr p =>
      match s with
      | u :: s' => if p u then k (Some u) s' cs else None
      | [] => None
      end
  | Cat r1 r2 => run r1 (run r2 k) prev s cs
  | Alt r1 r2 =>
      match run r1 k prev s cs with
      | Some x => Some x
      | None => run r2 k prev s cs
      end
  | Star g p => if g then star_greedy p k prev s cs else star_lazy p k prev s cs
  | Opt r1 =>
      match run r1 k prev s cs with
      | Some x => Some x
      | None => k prev s cs
      end
  | Group n r1 =>
      run r1
        (fun prev' s' cs' =>
           k prev' s' (set_cap n (firstn (length s - length s') s) cs'))
        prev s cs
  | Bol => match prev with None => k prev s cs | Some _ => None end
  | Eol => match s with [] => k prev s cs | _ :: _ => None end
  | WordB =>
      if xorb (word_before prev) (word_after s) then k prev s cs else None
  end.

(** The code unit before the position reached after reading [a]. *)
Definition after (prev : option N) (a : jsstring) : option N :=
  match rev a with
  | u :: _ => Some u
  | [] => prev
  end.

(** The result of a successful match. *)
Record rmatch : Type := {
  m_index : nat;          (* where the match starts *)
  m_text : jsstring;      (* the matched substring, [$&] and [m[0]] *)
  m_rest : jsstring;      (* the input after the match *)
  m_caps : caps
}.

(** A match starting exactly at the current position. *)
Definition match_at (r : regex) (idx : nat) (prev : option N) (s : jsstring)
    : option rmatch :=
  match run r (fun _ s' cs' => Some (s', cs')) prev s [] with
  | Some (s', cs') =>
      Some {| m_index := idx; m_text := firstn (length s - length s') s;
              m_rest := s'; m_caps := cs' |}
  | None => None
  end.

Fixpoint exec_from (r : regex) (idx : nat) (prev : option N) (s : jsstring)
    : option rmatch :=
  match match_at r idx prev s with
  | Some m => Some m
  | None =>
      match s with
      | [] => None
      | u :: s' => exec_from r (S idx) (Some u) s'
      end
  end.

(** [s.match(r)] and [r.exec(s)] for a regular expression without the [g]
    flag: the leftmost match. *)
Definition exec (r : regex) (s : jsstring) : option rmatch := exec_from r 0 None s.

(** [r.test(s)]. *)
Definition test (r : regex) (s : jsstring) : bool :=
  match exec r s with Some _ => true | None => false end.

(** [m[n]] for [n >= 1]: [None] is [undefined]. *)
Definition group (m : rmatch) (n : nat) : option jsstring := get_cap n (m_caps m).

(** [s.replace(r, f)] without the [g] flag. *)
Definition replace_first (r : regex) (f : rmatch -> jsstring) (s : jsstring)
    : jsstring :=
  match exec r s with
  | Some m => firstn (m_index m) s ++ f m ++ m_rest m
  | None => s
  end.

(** [s.replace(r, f)] with the [g] flag.  [skip] counts the code units of the
    current match still to be passed over. *)
Fixpoint replace_go (r : regex) (f : rmatch -> jsstring) (skip : nat)
    (prev : option N) (s : jsstring) : jsstring :=
  match skip with
  | S k =>
      match s with
      | [] => []
      | u :: s' => replace_go r f k (Some u) s'
      end
  | O =>
      match match_at r 0 prev s with
      | Some m =>
          f m ++
          match s with
          | [] => []
          | u :: s' =>
              match length (m_text m) with
              | O => u :: replace_go r f 0 (Some u) s'
              | S k => replace_go r f k (Some u) s'
              end
          end
      | None =>
          match s with
          | [] => []
          | u :: s' => u :: replace_go r f 0 (Some u) s'
          end
      end
  end.

Definition replace_all (r : regex) (f : rmatch -> jsstring) (s : jsstring)
    : jsstring := replace_go r f 0 None s.

(** [s.split(r)]: [acc] is the piece collected since the last separator. *)
Fixpoint split_go (r : regex) (skip : nat) (prev : option N) (acc : jsstring)
    (s : jsstring) : list jsstring :=
  match s with
  | [] => [acc]
  | u :: s' =>
      match skip with
      | S k => split_go r k (Some u) acc s'
      | O =>
          match match_at r 0 prev s with
          | Some m =>
              match length (m_text m) with
              | S k => acc :: split_go r k (Some u) [] s'
              | O =>
                  match acc with
                  | [] => split_go r 0 (Some u) [u] s'
                  | _ :: _ => acc :: split_go r 0 (Some u) [u] s'
                  end
              end
          | None => split_go r 0 (Some u) (acc ++ [u]) s'
          end
      end
  end.

Definition split (r : regex) (s : jsstring) : list jsstring :=
  match s with
  | [] => match match_at r 0 None [] with Some _ => [] | None => [[]] end
  | _ :: _ => split_go r 0 None [] s
  end.

(** *** Building patterns *)

(** [Canonicalize] of the [i] flag, without the [u] flag: the upper-case
    mapping when it is a single code unit and does not take a non-ASCII
    code unit into ASCII. *)
Definition canonicalize (u : N) : N :=
  match Unicode.assoc u Unicode.canonicalize_table with
  | Some v => v
  | None => u
  end.

(** One pattern character, case-sensitive or not. *)
Definition chr (ci : bool) (c : N) : regex :=
  Chr (fun u => if ci then canonicalize u =? canonicalize c else u =? c).

(** A class given by its members, [[...]]. *)
Definition class (ci : bool) (members : jsstring) : regex :=
  Chr (fun u =>
         existsb (fun c => if ci then canonicalize u =? canonicalize c
                           else u =? c) members).

Definition not_class (members : jsstring) : regex :=
  Chr (fun u => negb (existsb (N.eqb u) members)).

Fixpoint lit (ci : bool) (s : jsstring) : regex :=
  match s with
  | [] => Eps
  | c :: s' => Cat (chr ci c) (lit ci s')
  end.

(** The pattern characters of [s], then [rest]. *)
Fixpoint lits (ci : bool) (s : jsstring) (rest : regex) : regex :=
  match s with
  | [] => rest
  | c :: s' => Cat (chr ci c) (lits ci s' rest)
  end.

Fixpoint seq (rs : list regex) : regex :=
  match rs with
  | [] => Eps
  | r :: rs' => Cat r (seq rs')
  end.

Definition dot : N -> bool := fun u => negb (is_line_terminator u).

(** [p+] and [p+?]. *)
Definition plus (greedy : bool) (p : N -> bool) : regex :=
  Cat (Chr p) (Star greedy p).

(** *** The [RegExp] constructor

    [new RegExp(source, flags)] for the sources the code builds: pattern
    characters, [\b], identity escapes of syntax characters, [^] and [$].
    [None] is the SyntaxError of a source the pattern grammar rejects, or a
    source outside this fragment. *)

Definition is_syntax_char (u : N) : bool :=
  existsb (N.eqb u) (js "^$\.*+?()[]{}|").

Fixpoint parse (ci : bool) (src : jsstring) : option regex :=
  match src with
  | [] => Some Eps
  | u :: rest =>
      if u =? 92 then
        match rest with
        | [] => None
        | c :: rest' =>
            if c =? 98 then option_map (Cat WordB) (parse ci rest')
            else if is_syntax_char c then option_map (Cat (chr ci c)) (parse ci rest')
            else None
        end
      else if u =? 94 then option_map (Cat Bol) (parse ci rest)
      else if u =? 36 then option_map (Cat Eol) (parse ci rest)
      else if is_syntax_char u then None
      else option_map (Cat (chr ci u)) (parse ci rest)
  end.

(** A [RegExp] object: its [source], whether it has the [i] flag, and the
    pattern the constructor compiled. *)
Record RegExpObject : Type := {
  source : jsstring;
  ignoreCase : bool;
  pattern : regex
}.

Definition new_RegExp (src : jsstring) (ci : bool) : option RegExpObject :=
  option_map (fun r => {| source := src; ignoreCase := ci; pattern := r |})
             (parse ci src).

(** What the constructor compiles [\bw\b] to when no character of [w] is
    special, and the object of flag [i] it belongs to. *)
Definition palabra (w : jsstring) : regex :=
  Cat WordB (lits true w (Cat WordB Eps)).

(** What it compiles [^w$] to. *)
Definition exacta (w : jsstring) : regex :=
  Cat Bol (lits true w (Cat Eol Eps)).

End RegExp.

(** ** The document store

    The Mongoose models of [src/models]: the fields the pipeline reads.  A
    query is a read of a collection; for the time of one request a collection
    is either readable or not, and a read of an unreadable collection rejects
    with [StoreUnavailable]. *)
Module Store.
Import JS RegExp.
Local Open Scope N_scope.

Definition ObjectId := N.

(** What an [await]ed call ends in. *)
Inductive exn : Type := StoreUnavailable | SyntaxError.

Inductive promise (A : Type) : Type :=
| Resolved (a : A)
| Rejected (e : exn).
Arguments Resolved {A} a.
Arguments Rejected {A} e.

Definition bind (A B : Type) (c : promise A) (k : A -> promise B) : promise B :=
  match c with
  | Resolved a => k a
  | Rejected e => Rejected e
  end.

Notation "x <- c ;; k" := (bind c (fun x => k))
  (at level 61, c at next level, right associativity).

Fixpoint mapM (A B : Type) (f : A -> promise B) (l : list A) : promise (list B) :=
  match l with
  | [] => Resolved []
  | a :: l' => b <- f a ;; bs <- mapM f l' ;; Resolved (b :: bs)
  end.

Module Personaje.
Record t : Type := { _id : ObjectId; nombre : jsstring }.
End Personaje.

Module Lugar.
Record t : Type := { _id : ObjectId; nombre : jsstring }.
End Lugar.

Module Generacion.
Record t : Type := { _id : ObjectId; nombre : jsstring }.
End Generacion.

Module Objeto.
Record t : Type := {
  _id : ObjectId;
  nombre : jsstring;
  evento_relacionado : option ObjectId
}.
End Objeto.

Module Evento.
Record t : Type := {
  _id : ObjectId;
  nombre : jsstring;
  descripcion : option jsstring;
  personajes_involucrados : list ObjectId;
  lugar_relacionado : option ObjectId;
  generacion_relacionada : option ObjectId
}.
End Evento.

Module Capitulo.
Record t : Type := { numero : Z; eventos : list ObjectId }.
End Capitulo.

(** The collections as one request sees them: [None] is a collection whose
    reads fail. *)
Record store : Type := {
  personajes : option (list Personaje.t);
  lugares : option (list Lugar.t);
  objetos : option (list Objeto.t);
  eventos : option (list Evento.t);
  capitulos : option (list Capitulo.t);
  generaciones : option (list Generacion.t)
}.

(** The contents of a store whose reads all succeed. *)
Record database : Type := {
  db_personajes : list Personaje.t;
  db_lugares : list Lugar.t;
  db_objetos : list Objeto.t;
  db_eventos : list Evento.t;
  db_capitulos : list Capitulo.t;
  db_generaciones : list Generacion.t
}.

Definition available (db : database) : store :=
  {| personajes := Some (db_personajes db);
     lugares := Some (db_lugares db);
     objetos := Some (db_objetos db);
     eventos := Some (db_eventos db);
     capitulos := Some (db_capitulos db);
     generaciones := Some (db_generaciones db) |}.


Definition read (A : Type) (collection : option (list A)) : promise (list A) :=
  match collection with
  | Some docs => Resolved docs
  | None => Rejected StoreUnavailable
  end.

Definition mem (id : ObjectId) (ids : list ObjectId) : bool :=
  existsb (N.eqb id) ids.

(** An event with its references resolved by [populate]. *)
Record EventoPoblado : Type := {
  evento : Evento.t;
  personajes_poblados : list Personaje.t;
  lugar_poblado : option Lugar.t;
  generacion_poblada : option Generacion.t
}.

(** The query filters [src/routes/preguntas.js] builds on events. *)
Inductive campo : Type := campo_nombre | campo_descripcion.

#[local] Unset Elimination Schemes.
Inductive filtro : Type :=
| Todos                                              (* {} *)
| And (fs : list filtro)                             (* { $and: fs } *)
| Or (fs : list filtro)                              (* { $or: fs } *)
| Regex (c : campo) (src : jsstring) (options : jsstring)
| PersonajesIn (ids : list ObjectId)   (* personajes_involucrados: { $in } *)
| LugarIn (ids : list ObjectId)        (* lugar_relacionado: { $in } *)
| IdIn (ids : list ObjectId).          (* _id: { $in } *)
#[local] Set Elimination Schemes.

Section Queries.

(** The store's own regular-expression engine: does the string match the
    pattern of this source under these options? *)
Variable storeRegex : jsstring -> jsstring -> jsstring -> bool.

Variable st : store.

Definition campo_texto (c : campo) (e : Evento.t) : option jsstring :=
  match c with
  | campo_nombre => Some (Evento.nombre e)
  | campo_descripcion => Evento.descripcion e
  end.

Fixpoint cumple (f : filtro) (e : Evento.t) : bool :=
  match f with
  | Todos => true
  | And fs => forallb (fun g => cumple g e) fs
  | Or fs => existsb (fun g => cumple g e) fs
  | Regex c src options =>
      match campo_texto c e with
      | Some v => storeRegex src options v
      | None => false
      end
  | PersonajesIn ids =>
      existsb (fun p => mem p ids) (Evento.personajes_involucrados e)
  | LugarIn ids =>
      match Evento.lugar_relacionado e with
      | Some l => mem l ids
      | None => false
      end
  | IdIn ids => mem (Evento._id e) ids
  end.

(** [Evento.find(filtro)]. *)
Definition Evento_find (f : filtro) : promise (list Evento.t) :=
  docs <- read (eventos st) ;;
  Resolved (filter (cumple f) docs).

(** A value of a [$in] list of [RegExp] objects matches when one of them
    does. *)
Definition in_regexes (rs : list RegExpObject) (v : jsstring) : bool :=
  existsb
    (fun r => storeRegex (source r) (if ignoreCase r then js "i" else []) v) rs.

(** [Personaje.find({ nombre: { $in: rs } }, '_id')]. *)
Definition Personaje_find_nombre_in (rs : list RegExpObject)
    : promise (list Personaje.t) :=
  docs <- read (personajes st) ;;
  Resolved (filter (fun d => in_regexes rs (Personaje.nombre d)) docs).

Definition Lugar_find_nombre_in (rs : list RegExpObject)
    : promise (list Lugar.t) :=
  docs <- read (lugares st) ;;
  Resolved (filter (fun d => in_regexes rs (Lugar.nombre d)) docs).

Definition Objeto_find_nombre_in (rs : list RegExpObject)
    : promise (list Objeto.t) :=
  docs <- read (objetos st) ;;
  Resolved (filter (fun d => in_regexes rs (Objeto.nombre d)) docs).

(** [Capitulo.findOne({ numero: n })]: the first chapter of that number. *)
Definition Capitulo_findOne (n : Z) : promise (option Capitulo.t) :=
  docs <- read (capitulos st) ;;
  Resolved (find (fun c => Z.eqb (Capitulo.numero c) n) docs).

(** [populate]: references are looked up by [_id]; a reference to a missing
    document is dropped.  A path is queried only when there is something to
    resolve. *)
Definition join_personajes (ps : list Personaje.t) (ids : list ObjectId)
    : list Personaje.t :=
  flat_map
    (fun id =>
       match find (fun p => Personaje._id p =? id) ps with
       | Some p => [p]
       | None => []
       end) ids.

Definition join_lugar (ls : list Lugar.t) (id : option ObjectId)
    : option Lugar.t :=
  match id with
  | Some i => find (fun l => Lugar._id l =? i) ls
  | None => None
  end.

Definition join_generacion (gs : list Generacion.t) (id : option ObjectId)
    : option Generacion.t :=
  match id with
  | Some i => find (fun g => Generacion._id g =? i) gs
  | None => None
  end.

Definition is_some (A : Type) (o : option A) : bool :=
  match o with Some _ => true | None => false end.

(** [populate('personajes_involucrados lugar_relacionado
    generacion_relacionada')] on a list of events. *)
Definition populate_eventos (evs : list Evento.t) : promise (list EventoPoblado) :=
  ps <- (if existsb (fun e => negb (Nat.eqb (length (Evento.personajes_involucrados e)) 0)) evs
         then read (personajes st) else Resolved []) ;;
  ls <- (if existsb (fun e => is_some (Evento.lugar_relacionado e)) evs
         then read (lugares st) else Resolved []) ;;
  gs <- (if existsb (fun e => is_some (Evento.generacion_relacionada e)) evs
         then read (generaciones st) else Resolved []) ;;
  Resolved
    (map (fun e =>
            {| evento := e;
               personajes_poblados := join_personajes ps (Evento.personajes_involucrados e);
               lugar_poblado := join_lugar ls (Evento.lugar_relacionado e);
               generacion_poblada := join_generacion gs (Evento.generacion_relacionada e) |})
         evs).

(** [populate({ path: 'eventos', populate: [...] })] on a chapter. *)
Definition populate_capitulo (c : Capitulo.t) : promise (list EventoPoblado) :=
  match Capitulo.eventos c with
  | [] => Resolved []
  | ids =>
      docs <- read (eventos st) ;;
      populate_eventos
        (flat_map
           (fun id =>
              match find (fun e => Evento._id e =? id) docs with
              | Some e => [e]
              | None => []
              end) ids)
  end.

End Queries.

(** What [populate] makes of an event when every read succeeds. *)
Definition poblar (db : database) (e : Evento.t) : EventoPoblado :=
  {| evento := e;
     personajes_poblados :=
       join_personajes (db_personajes db) (Evento.personajes_involucrados e);
     lugar_poblado := join_lugar (db_lugares db) (Evento.lugar_relacionado e);
     generacion_poblada :=
       join_generacion (db_generaciones db) (Evento.generacion_relacionada e) |}.

(** The events a list of references resolves to. *)
Definition referidos (db : database) (ids : list ObjectId) : list Evento.t :=
  flat_map
    (fun id =>
       match find (fun e => Evento._id e =? id) (db_eventos db) with
       | Some e => [e]
       | None => []
       end) ids.

End Store.

(** ** [src/nlpProcessor.js] *)
Module NlpProcessor.
Import JS RegExp Store.
Local Open Scope N_scope.

(** An object literal defines its properties in order; defining a key again
    replaces its value and keeps the place of the first definition.
    [Object.entries] lists the result in that order. *)
Fixpoint define_property (V : Type) (k : jsstring) (v : V)
    (o : list (jsstring * V)) : list (jsstring * V) :=
  match o with
  | [] => [(k, v)]
  | (k', v') :: o' =>
      if JS.eqb k' k then (k', v) :: o' else (k', v') :: define_property k v o'
  end.

Definition object_literal (V : Type) (props : list (jsstring * V))
    : list (jsstring * V) :=
  fold_left (fun o kv => define_property (fst kv) (snd kv) o) props [].

(** The literal of [verbosClave], line by line. *)
Local Open Scope string_scope.
Definition verbosClave_literal : list (string * list string) := [
  ("morir", ["morir"; "murió"; "falleció"; "pereció"; "expiró";
     "dejó de existir"; "trascendió"; "se murió"]);
  ("fundar", ["fundar"; "fundó"; "crear"; "creó"; "establecer"; "estableció";
     "erigir"; "construyó"; "formó"]);
  ("nacer", ["nacer"; "nació"; "nacido"; "nacimiento"; "nacieron";
     "vino al mundo"; "nace"; "alumbramiento"]);
  ("casar", ["casarse"; "matrimonio"; "se casó"; "unió"; "contrajo nupcias";
     "boda"; "desposó"]);
  ("desaparecer", ["desaparecer"; "desapareció"; "se desvaneció";
     "se perdió"; "se esfumó"]);
  ("envejecer", ["envejecer"; "envejeció"; "se volvió viejo";
     "se hizo mayor"; "envejece"]);
  ("amar", ["amar"; "se enamoró"; "amor"; "amó"; "adoró"; "querer";
     "se quiso"]);
  ("partir", ["partir"; "salió"; "se fue"; "abandonó"; "marchó"; "huyó";
     "emigró"]);
  ("regresar", ["regresar"; "volvió"; "retornó"; "reapareció"; "regresó";
     "volvieron"]);
  ("escribir", ["escribir"; "escribió"; "redactó"; "documentó"; "anotó";
     "registró"]);
  ("revelar", ["revelar"; "contó"; "confesó"; "descubrió"; "admitió";
     "explicó"]);
  ("asesinar", ["matar"; "asesinar"; "fue asesinado"; "ejecutar";
     "ajustició"; "eliminó"]);
  ("leer", ["leer"; "leyó"; "consultó"; "revisó"; "estudió"]);
  ("profetizar", ["profetizar"; "profetizó"; "predijo"; "adivinó";
     "vaticinó"]);
  ("imponer", ["imponer"; "impuso"; "dominó"; "trajo disciplina"; "ordenó";
     "estableció normas"]);
  ("enriquecer", ["riqueza"; "hacerse rico"; "volverse rico";
     "obtener riqueza"; "rico"; "ser rico"; "volvió rico"; "hizo rico";
     "enriquecer"; "enriquecerse"; "enriqueció"; "enriquecido"]);
  ("perder", ["perder"; "perdió"; "perdido"; "pérdida"; "se le fue";
     "desapareció"; "se perdió"]);
  ("crecer", ["crecer"; "creció"; "crece"; "crecido"; "crecimiento";
     "crecieron"; "expansión"; "desarrollo"]);
  ("huir", ["huir"; "huyó"; "escapó"; "fugó"; "se escapó"; "se fugó"]);
  ("construir", ["construir"; "construyó"; "edificó"; "levantó";
     "edificaron"]);
  ("destruir", ["destruir"; "destruyó"; "arrasó"; "derribó";
     "se vino abajo"]);
  ("cambiar", ["cambiar"; "cambió"; "transformó"; "modificó"; "mutó";
     "variar"; "evolucionó"]);
  ("sufrir", ["sufrir"; "sufrió"; "padeció"; "dolor"; "penó"; "afligió"]);
  ("ganar", ["ganar"; "ganó"; "obtuvo"; "venció"; "triunfó"; "logró"]);
  ("perder", ["perder"; "perdió"; "derrota"; "fracasó"; "fue vencido";
     "cayó"]);
  ("aparecer", ["aparecer"; "apareció"; "surgió"; "se presentó"; "emergió"]);
  ("visitar", ["visitar"; "visitó"; "vino a ver"; "llegó a ver";
     "se apareció"]);
  ("recordar", ["recordar"; "recordó"; "memoria"; "rememoró"; "evocó"]);
  ("olvidar", ["olvidar"; "olvidó"; "se le olvidó"; "lo perdió de mente";
     "omitió"]);
  ("confesar", ["confesar"; "confesó"; "admitió"; "reveló"; "declaró"]);
  ("ver", ["ver"; "vio"; "observó"; "miró"; "contempló"; "presenció"]);
  ("oír", ["oír"; "oyó"; "escuchó"; "percibió"; "atendió"]);
  ("poseer", ["poseer"; "tuvo"; "tenía"; "era dueño de"; "obtuvo"; "poseyó"]);
  ("entregar", ["entregar"; "entregó"; "cedió"; "dio"; "regaló"]);
  ("recibir", ["recibir"; "recibió"; "obtuvo"; "aceptó"; "fue dado"]);
  ("haber", ["haber"; "hubo"; "hay"; "existió"; "existía"; "existieron";
     "ocurrió"; "aconteció"]);
  ("tener", ["tener"; "tenía"; "tuvo"; "han tenido"; "hubo"; "poseía";
     "contaba con"; "mantuvo"; "disponía de"]);
  ("comerciar", ["comerciar"; "comerció"; "vendió"; "intercambió"; "negoció";
     "transó"; "truequeó"; "traficó"; "hizo negocios"]);
  ("casar", ["casarse"; "se casó"; "contrajo matrimonio"; "contrajo nupcias";
     "matrimonio"; "boda"; "se unió"; "se desposó"; "desposó";
     "celebró su boda"]);
  ("existir", ["existir"; "existía"; "existió"; "hubo"; "hay";
     "se encontraba"; "se hallaba"; "estaba presente"; "permanecía";
     "subsistía"]);
  ("cambiar", ["cambiar"; "cambio"; "cambió"; "modificar"; "transformar";
     "modificó"; "transformó"; "fue modificado"; "variar"; "variación";
     "se transformó"])
].
Local Close Scope string_scope.

Definition verbosClave : list (jsstring * list jsstring) :=
  object_literal
    (map (fun kv => (js (fst kv), map js (snd kv))) verbosClave_literal).

(** [/[.*+?^${}()|[\]\\]/g] *)
Definition re_metachar : regex := class false (js ".*+?^${}()|[]\").

(** [text.replace(/[.*+?^${}()|[\]\\]/g, '\\$&')] *)
Definition escapeRegex (text : jsstring) : jsstring :=
  replace_all re_metachar (fun m => 92 :: m_text m) text.

(** [/\s+/] *)
Definition re_spaces : regex := plus true is_space.

(** What [s.split(/\s+/)] is, read off directly: the pieces between the runs
    of white space.  [en_espacio] tells that the previous code unit was white
    space, [acc] is the piece being read. *)
Fixpoint piezas (en_espacio : bool) (acc : jsstring) (s : jsstring)
    : list jsstring :=
  match s with
  | [] => [acc]
  | u :: s' =>
      if is_space u then
        if en_espacio then piezas true acc s' else acc :: piezas true [] s'
      else piezas false (acc ++ [u]) s'
  end.

(** The length of the run of white space at the head of [s]. *)
Fixpoint leading (s : jsstring) : nat :=
  match s with
  | [] => 0
  | u :: s' => if is_space u then S (leading s') else 0
  end.

(** The text is empty or its last code unit is not white space. *)
Definition sin_espacio_final (s : jsstring) : Prop :=
  match rev s with
  | [] => True
  | u :: _ => is_space u = false
  end.

Definition is_empty (s : jsstring) : bool :=
  match s with [] => true | _ :: _ => false end.

Definition matchFlexible (entidadNormal textoNormal : jsstring) : bool :=
  if is_empty entidadNormal || is_empty textoNormal then false
  else if includes textoNormal entidadNormal then true
  else
    let partes := split re_spaces entidadNormal in
    existsb (fun parte => includes textoNormal parte) partes.

(** [/[\u0300-\u036f]/g] *)
Definition re_marks : regex := Chr (fun u => (768 <=? u) && (u <=? 879)).

Definition limpiarTexto (str : jsstring) : jsstring :=
  replace_all re_marks (fun _ => []) (normalizeNFD (toLowerCase str)).

(** The fold, code unit by code unit: what is left of the decomposed
    lower-case form of one code unit once the marks U+0300 to U+036F are
    removed. *)
Definition es_marca (u : N) : bool := (768 <=? u) && (u <=? 879).

Definition limpiar_unidad (u : N) : list N :=
  filter (fun d => negb (es_marca d))
         (flat_map Unicode.decomposition (Unicode.lowercase u)).

(** A code unit the fold leaves alone: not a surrogate, not a mark, without
    lower-case form or decomposition of its own, of combining class 0. *)
Definition estable (d : N) : bool :=
  (d <? 55296) && negb (d =? 931) && negb (es_marca d)
  && (Unicode.ccc d =? 0)
  && JS.eqb (Unicode.lowercase d) [d]
  && JS.eqb (Unicode.decomposition d) [d].

(** A code unit whose fold does not depend on its neighbours: not a
    surrogate, not a capital sigma, and every mark its decomposed lower-case
    form contains is one of those the fold removes. *)
Definition simple (u : N) : bool :=
  (u <? 55296) && negb (u =? 931)
  && forallb
       (fun l =>
          (l <? 55296)
          && forallb (fun d => (d <? 55296)
                               && ((Unicode.ccc d =? 0) || es_marca d))
                     (Unicode.decomposition l))
       (Unicode.lowercase u).

(** The code units below U+0370. *)
Definition latinas : list N := map N.of_nat (List.seq 0%nat 880%nat).

(** The patterns of [detectarExistencia]. *)
Definition re_signos : regex :=
  Alt (Cat Bol (plus true (fun u => (u =? 191) || (u =? 63))))
      (Cat (plus true (fun u => (u =? 191) || (u =? 63))) Eol).

Definition patrones : list regex := [
  (* /^hubo alguna\s+(.+)$/ *)
  seq [Bol; lit false (js "hubo alguna"); plus true is_space;
       Group 1 (plus true dot); Eol];
  (* /^hubo\s+(.+)$/ *)
  seq [Bol; lit false (js "hubo"); plus true is_space;
       Group 1 (plus true dot); Eol];
  (* /^existe(n)? alguna\s+(.+)$/ *)
  seq [Bol; lit false (js "existe"); Opt (Group 1 (chr false 110));
       lit false (js " alguna"); plus true is_space;
       Group 2 (plus true dot); Eol];
  (* /^existe(n)?\s+(.+)$/ *)
  seq [Bol; lit false (js "existe"); Opt (Group 1 (chr false 110));
       plus true is_space; Group 2 (plus true dot); Eol];
  (* /^existió\s+(.+)$/ *)
  seq [Bol; lit false (js "existió"); plus true is_space;
       Group 1 (plus true dot); Eol];
  (* /^hay alguna\s+(.+)$/ *)
  seq [Bol; lit false (js "hay alguna"); plus true is_space;
       Group 1 (plus true dot); Eol];
  (* /^hay\s+(.+)$/ *)
  seq [Bol; lit false (js "hay"); plus true is_space;
       Group 1 (plus true dot); Eol]
].

(** [/[?\.!]+$/] *)
Definition re_puntuacion_final : regex :=
  Cat (plus true (fun u => (u =? 63) || (u =? 46) || (u =? 33))) Eol.

(** [a || b] on values that are a string or [undefined]. *)
Definition or_else (a b : option jsstring) : option jsstring :=
  match a with
  | Some (_ :: _) => a
  | _ => b
  end.

Definition truthy (a : option jsstring) : bool :=
  match a with
  | Some (_ :: _) => true
  | _ => false
  end.

(** The loop [for (const pat of patrones)]. *)
Fixpoint detectar_en (pats : list regex) (sinSignos : jsstring)
    : option jsstring :=
  match pats with
  | [] => None
  | pat :: pats' =>
      match exec pat sinSignos with
      | Some m =>
          match or_else (group m 1) (group m 2) with
          | Some (u :: termino') =>
              let t := trim (u :: termino') in
              let t := trim (replace_first re_puntuacion_final (fun _ => []) t) in
              Some (limpiarTexto t)
          | _ => detectar_en pats' sinSignos
          end
      | None => detectar_en pats' sinSignos
      end
  end.

Definition detectarExistencia (textoOriginal : jsstring) : option jsstring :=
  let txt := trim (toLowerCase textoOriginal) in
  let sinSignos := trim (replace_all re_signos (fun _ => []) txt) in
  detectar_en patrones sinSignos.

(** [new Set(l)], in insertion order. *)
Definition new_Set (l : list jsstring) : list jsstring :=
  fold_left (fun acc x => if existsb (JS.eqb x) acc then acc else acc ++ [x]) l [].

Definition has (set : list jsstring) (x : jsstring) : bool := existsb (JS.eqb x) set.

(** The quotient is kept as a rational; the double the engine computes
    orders and compares with [0.2] the same way as long as the word count
    stays below 2^52. *)
Definition calcularScore (a b : jsstring) : Q :=
  let palabrasA := new_Set (split re_spaces a) in
  let palabrasB := new_Set (split re_spaces b) in
  let interseccion := filter (fun p => has palabrasB p) palabrasA in
  Qmake (Z.of_nat (length interseccion))
        (Pos.of_nat (Nat.max (length palabrasA) 1)).

(** [e.descripcion || ''] *)
Definition descripcion_o_vacio (e : Evento.t) : jsstring :=
  match Evento.descripcion e with
  | Some d => d
  | None => []
  end.

(** [candidatos.sort((a, b) => b.score - a.score)]: the sort is stable. *)
Fixpoint insertar (x : Evento.t * Q) (l : list (Evento.t * Q))
    : list (Evento.t * Q) :=
  match l with
  | [] => [x]
  | y :: l' =>
      if Qlt_le_dec (snd x) (snd y) then y :: insertar x l' else x :: l
  end.

Definition ordenar (l : list (Evento.t * Q)) : list (Evento.t * Q) :=
  fold_right insertar [] l.

(** The projection ['nombre descripcion'] of [Evento.find]. *)
Definition proyectar (e : Evento.t) : Evento.t :=
  {| Evento._id := Evento._id e;
     Evento.nombre := Evento.nombre e;
     Evento.descripcion := Evento.descripcion e;
     Evento.personajes_involucrados := [];
     Evento.lugar_relacionado := None;
     Evento.generacion_relacionada := None |}.

(** [/\((.*?)\)/] *)
Definition re_alias : regex :=
  seq [chr false 40; Group 1 (Star false dot); chr false 41].

(** [/\s*\(.*?\)\s*/g] *)
Definition re_parentesis : regex :=
  seq [Star true is_space; chr false 40; Star false dot; chr false 41;
       Star true is_space].

Definition extraerAlias (nombreCompleto : jsstring)
    : jsstring * option jsstring :=
  let alias :=
    match exec re_alias nombreCompleto with
    | Some aliasMatch =>
        match group aliasMatch 1 with
        | Some a => Some (limpiarTexto a)
        | None => None
        end
    | None => None
    end in
  let limpio :=
    trim (limpiarTexto (replace_all re_parentesis (fun _ => []) nombreCompleto)) in
  (limpio, alias).

(** [/cap[ií]tulo\s*(\d+)/i] *)
Definition re_capitulo : regex :=
  seq [lit true (js "cap"); class true (js "ií"); lit true (js "tulo");
       Star true is_space; Group 1 (plus true is_digit)].

(** [new RegExp(`\\b${pat}\\b`, 'i')]; a SyntaxError rejects the call. *)
Definition regex_palabra (pat : jsstring) : promise RegExpObject :=
  match new_RegExp (js "\b" ++ pat ++ js "\b") true with
  | Some r => Resolved r
  | None => Rejected SyntaxError
  end.

(** The result of [analizarPregunta]. *)
Record Analisis : Type := {
  capitulo : option Z;
  terminoExistencia : option jsstring;
  regexVerbos : list RegExpObject;
  personajes : list jsstring;
  lugares : list jsstring;
  objetos : list jsstring;
  fuzzy : option Evento.t
}.

(** The entity matcher in the words of the specification: [sub] occurs in
    [s]; an entity, given by its folded name or alias, is mentioned by a
    normalized question. *)
Definition substring (sub s : jsstring) : Prop :=
  exists pre post, s = pre ++ sub ++ post.

Definition menciona (entidadNormal textoNormal : jsstring) : Prop :=
  entidadNormal <> [] /\ textoNormal <> []
  /\ (substring entidadNormal textoNormal
      \/ exists parte, In parte (split re_spaces entidadNormal)
                       /\ substring parte textoNormal).

(** Steps 4 to 6 of [analizarPregunta]: the entities a normalized question
    mentions. *)
Definition menciona_personaje (textoNorm : jsstring) (p : Personaje.t) : bool :=
  let '(nombre, alias) := extraerAlias (Personaje.nombre p) in
  matchFlexible nombre textoNorm
  || (truthy alias
      && match alias with
         | Some a => matchFlexible a textoNorm
         | None => false
         end).

Definition detectar_personajes (personajesBD : list Personaje.t)
    (textoNorm : jsstring) : list jsstring :=
  map (fun p => trim (Personaje.nombre p))
      (filter (menciona_personaje textoNorm) personajesBD).

Definition detectar_lugares (lugaresBD : list Lugar.t) (textoNorm : jsstring)
    : list jsstring :=
  map fst
      (filter (fun item => matchFlexible (snd item) textoNorm)
              (map (fun l => (Lugar.nombre l, limpiarTexto (Lugar.nombre l)))
                   lugaresBD)).

Definition detectar_objetos (objetosBD : list Objeto.t) (textoNorm : jsstring)
    : list jsstring :=
  map fst
      (filter (fun item => matchFlexible (snd item) textoNorm)
              (map (fun o => (Objeto.nombre o, limpiarTexto (Objeto.nombre o)))
                   objetosBD)).

(** Step 7: the inner loop over the forms of one intent, with its [break]. *)
Fixpoint detectar_formas (pendientes formas : list jsstring)
    (textoRawNorm : jsstring) : promise (list RegExpObject) :=
  match pendientes with
  | [] => Resolved []
  | forma :: pendientes' =>
      let formaNorm := limpiarTexto forma in
      reDetect <- regex_palabra (escapeRegex formaNorm) ;;
      if test (pattern reDetect) textoRawNorm
      then mapM (fun f => regex_palabra (escapeRegex (limpiarTexto f))) formas
      else detectar_formas pendientes' formas textoRawNorm
  end.

(** The outer loop over [Object.entries(verbosClave)]. *)
Fixpoint detectar_verbos (entries : list (jsstring * list jsstring))
    (textoRawNorm : jsstring) (regexVerbos : list RegExpObject)
    : promise (list RegExpObject) :=
  match entries with
  | [] => Resolved regexVerbos
  | (clave, formas) :: entries' =>
      nuevos <- detectar_formas formas formas textoRawNorm ;;
      detectar_verbos entries' textoRawNorm (regexVerbos ++ nuevos)
  end.

(** The verb matcher in the words of the specification: an intent is active
    when one of its forms, folded, occurs as a whole word in the folded
    question, and every active intent contributes, in taxonomy order, one
    whole-word pattern for each of its forms. *)
Definition objeto_palabra (w : jsstring) : RegExpObject :=
  {| source := js "\b" ++ escapeRegex w ++ js "\b";
     ignoreCase := true;
     pattern := palabra w |}.

Definition activa (textoRawNorm : jsstring) (formas : list jsstring) : bool :=
  existsb (fun forma => test (palabra (limpiarTexto forma)) textoRawNorm) formas.

Definition verbos_de (entries : list (jsstring * list jsstring))
    (textoRawNorm : jsstring) : list RegExpObject :=
  flat_map
    (fun kv =>
       if activa textoRawNorm (snd kv)
       then map (fun f => objeto_palabra (limpiarTexto f)) (snd kv)
       else [])
    entries.

(** [verbosClave[clave]] *)
Definition formas_de (clave : jsstring) : list jsstring :=
  match find (fun kv => JS.eqb (fst kv) clave) verbosClave with
  | Some kv => snd kv
  | None => []
  end.

(** The forms written in the literal whose folded text is the folded text of
    no form of the object: a duplicated key dropped them. *)
Definition formas_sin_efecto : list jsstring :=
  let vigentes := map limpiarTexto (flat_map snd verbosClave) in
  filter
    (fun f =>
       let t := limpiarTexto f in
       negb (existsb (JS.eqb t) vigentes))
    (flat_map (fun kv => map js (snd kv)) verbosClave_literal).

(** The ranking of [buscarEventoSimilar]: every event with its score, sorted,
    and the first of them when its score exceeds [0.2]. *)
Definition candidatos (texto : jsstring) (evs : list Evento.t)
    : list (Evento.t * Q) :=
  ordenar
    (map (fun e =>
            let combinado :=
              limpiarTexto (Evento.nombre e ++ js " " ++ descripcion_o_vacio e) in
            (e, calcularScore texto combinado))
         evs).

(** The score of one event for a normalized question. *)
Definition puntaje (texto : jsstring) (e : Evento.t) : Q :=
  calcularScore texto
    (limpiarTexto (Evento.nombre e ++ js " " ++ descripcion_o_vacio e)).

Definition elegir (texto : jsstring) (evs : list Evento.t) : option Evento.t :=
  match candidatos texto evs with
  | [] => None
  | top :: _ => if Qlt_le_dec (1 # 5) (snd top) then Some (fst top) else None
  end.

(** [textoNorm.match(/cap[ií]tulo\s*(\d+)/i)] and [parseInt(capMatch[1], 10)]. *)
Definition capitulo_explicito (textoNorm : jsstring) : option Z :=
  match exec re_capitulo textoNorm with
  | Some capMatch =>
      match group capMatch 1 with
      | Some d => Some (parseInt d)
      | None => None
      end
  | None => None
  end.

Section WithCompromise.

(** [nlp(texto).normalize({ punctuation: true, plurals: true }).out('text')]
    of the library [compromise]. *)
Variable compromise : jsstring -> jsstring.

Variable st : store.

Definition normalizar (texto : jsstring) : jsstring :=
  let textoNormalizado := compromise texto in
  limpiarTexto textoNormalizado.

Definition buscarEventoSimilar (pregunta : jsstring) : promise (option Evento.t) :=
  let texto := normalizar pregunta in
  match read (Store.eventos st) with
  | Rejected _ => Resolved None          (* catch: logged, [return null] *)
  | Resolved docs => Resolved (elegir texto (map proyectar docs))
  end.

Definition analizarPregunta (pregunta : jsstring) : promise Analisis :=
  let textoNorm := normalizar pregunta in
  (* 1) capítulo explícito *)
  let capitulo := capitulo_explicito textoNorm in
  (* 2) detectar existencia *)
  let terminoExistencia := detectarExistencia pregunta in
  (* 3) cargar entidades BD *)
  personajesBD <- read (Store.personajes st) ;;
  lugaresBD <- read (Store.lugares st) ;;
  objetosBD <- read (Store.objetos st) ;;
  (* 4) 5) 6) detectar personajes, lugares, objetos *)
  let personajes := detectar_personajes personajesBD textoNorm in
  let lugares := detectar_lugares lugaresBD textoNorm in
  let objetos := detectar_objetos objetosBD textoNorm in
  (* 7) detectar verbos clave *)
  let textoRawNorm := limpiarTexto pregunta in
  regexVerbos <- detectar_verbos verbosClave textoRawNorm [] ;;
  (* 8) fuzzy search: solo si no es pregunta de existencia *)
  fuzzy <- (if truthy terminoExistencia then Resolved None
            else buscarEventoSimilar pregunta) ;;
  Resolved
    {| capitulo := capitulo;
       terminoExistencia := terminoExistencia;
       regexVerbos := regexVerbos;
       personajes := personajes;
       lugares := lugares;
       objetos := objetos;
       fuzzy := fuzzy |}.

End WithCompromise.

End NlpProcessor.

(** ** [src/routes/preguntas.js] *)
Module Preguntas.
Import JS RegExp Store NlpProcessor.
Local Open Scope N_scope.

(** The route has its own copy of [escapeRegex]. *)
Definition escapeRegex (text : jsstring) : jsstring :=
  replace_all (class false (js ".*+?^${}()|[]\")) (fun m => 92 :: m_text m) text.

(** The [capitulo] field of a response: a chapter number or one of the tags
    ['similar'], ['existencia'], ['todos']. *)
Inductive etiqueta : Type :=
| Numero (n : Z)
| Texto (s : jsstring).

(** What [res.json] sends: a result body (status 200) or an error body with
    its status. *)
Inductive respuesta : Type :=
| Resultados (capitulo : etiqueta) (termino : option jsstring)
             (resultados : list EventoPoblado)
| Error (status : N) (error : jsstring).

(** The handler either responds or rejects: the exception leaves it. *)
Inductive outcome : Type :=
| Responde (r : respuesta)
| Rechaza (e : exn).

(** [new RegExp(`^${escapeRegex(p)}$`, 'i')] *)
Definition regex_exacta (p : jsstring) : promise RegExpObject :=
  match new_RegExp (js "^" ++ escapeRegex p ++ js "$") true with
  | Some r => Resolved r
  | None => Rejected SyntaxError
  end.

(** [str.toLowerCase().normalize('NFD').replace(/[\u0300-\u036f]/g, '')
       .replace(/[^\w\s]/g, '')] *)
Definition normalizarTexto (str : jsstring) : jsstring :=
  replace_all (Chr (fun u => negb (is_word u || is_space u))) (fun _ => [])
    (replace_all re_marks (fun _ => []) (normalizeNFD (toLowerCase str))).

Definition no_vacia (A : Type) (l : list A) : bool :=
  match l with [] => false | _ :: _ => true end.

Definition o_vacio (s : option jsstring) : jsstring :=
  match s with Some v => v | None => [] end.

Definition similar : jsstring := js "similar".
Definition existencia : jsstring := js "existencia".
Definition todos : jsstring := js "todos".
Definition error_interno : jsstring := js "Error interno del servidor".

Section Handler.

Variable compromise : jsstring -> jsstring.
Variable storeRegex : jsstring -> jsstring -> jsstring -> bool.
Variable st : store.

(** The three name-to-id resolutions. *)
Definition resolver_personajes (personajes : list jsstring)
    : promise (list ObjectId) :=
  if no_vacia personajes then
    rs <- mapM regex_exacta personajes ;;
    docsP <- Personaje_find_nombre_in storeRegex st rs ;;
    Resolved (map Personaje._id docsP)
  else Resolved [].

Definition resolver_lugares (lugares : list jsstring)
    : promise (list ObjectId) :=
  if no_vacia lugares then
    rs <- mapM regex_exacta lugares ;;
    docsL <- Lugar_find_nombre_in storeRegex st rs ;;
    Resolved (map Lugar._id docsL)
  else Resolved [].

Definition resolver_objetos (objetos : list jsstring)
    : promise (list ObjectId) :=
  if no_vacia objetos then
    rs <- mapM regex_exacta objetos ;;
    docsO <- Objeto_find_nombre_in storeRegex st rs ;;
    Resolved
      (flat_map
         (fun o =>
            match Objeto.evento_relacionado o with
            | Some eid => [eid]
            | None => []
            end) docsO)
  else Resolved [].

(** [Evento.find(f).populate(...)] *)
Definition buscar (f : filtro) : promise (list EventoPoblado) :=
  evs <- Evento_find storeRegex st f ;;
  populate_eventos st evs.

(** The branch [if (terminoExistencia)]. *)
Definition consultar_existencia (terminoExistencia : jsstring)
    : promise respuesta :=
  let termino := normalizarTexto terminoExistencia in
  todosEventos <- Evento_find storeRegex st Todos ;;
  let eventosCoincidentes :=
    filter
      (fun e =>
         let nombreNorm := normalizarTexto (Evento.nombre e) in
         let descNorm := normalizarTexto (o_vacio (Evento.descripcion e)) in
         includes nombreNorm termino || includes descNorm termino)
      todosEventos in
  eventosFinales <- buscar (IdIn (map Evento._id eventosCoincidentes)) ;;
  Resolved (Resultados (Texto existencia) (Some terminoExistencia) eventosFinales).

(** [Construir filtro avanzado]. *)
Definition construir_filtro (regexVerbos : list RegExpObject)
    (personajeIds lugarIds eventosDesdeObjetos : list ObjectId) : filtro :=
  let andConds :=
    (if no_vacia regexVerbos then
       [Or (flat_map
              (fun r => [Regex campo_descripcion (source r) (js "i");
                         Regex campo_nombre (source r) (js "i")])
              regexVerbos)]
     else [])
    ++ (if no_vacia personajeIds then [PersonajesIn personajeIds] else [])
    ++ (if no_vacia lugarIds then [LugarIn lugarIds] else [])
    ++ (if no_vacia eventosDesdeObjetos then [IdIn eventosDesdeObjetos] else []) in
  if no_vacia andConds then And andConds else Todos.

(** [Fallbacks en orden de prioridad]. *)
Definition fallbacks (resultados : list EventoPoblado)
    (personajeIds lugarIds eventosDesdeObjetos : list ObjectId)
    : promise (list EventoPoblado) :=
  if negb (no_vacia resultados) && no_vacia eventosDesdeObjetos then
    buscar (IdIn eventosDesdeObjetos)
  else if negb (no_vacia resultados) && no_vacia personajeIds then
    buscar (PersonajesIn personajeIds)
  else if negb (no_vacia resultados) && no_vacia lugarIds then
    buscar (LugarIn lugarIds)
  else Resolved resultados.

(** The body of the [try] block. *)
Definition consultar (analisis : Analisis) : promise respuesta :=
  match capitulo analisis with
  | Some (Zpos _ as cap) | Some (Zneg _ as cap) =>
      capDoc <- Capitulo_findOne st cap ;;
      match capDoc with
      | None => Resolved (Error 404 (js "Capítulo no existe"))
      | Some c =>
          evs <- populate_capitulo st c ;;
          Resolved (Resultados (Numero cap) None evs)
      end
  | _ =>
      match fuzzy analisis, truthy (terminoExistencia analisis) with
      | Some f, false =>
          poblado <- populate_eventos st [f] ;;
          Resolved (Resultados (Texto similar) None poblado)
      | _, _ =>
          personajeIds <- resolver_personajes (personajes analisis) ;;
          lugarIds <- resolver_lugares (lugares analisis) ;;
          eventosDesdeObjetos <- resolver_objetos (objetos analisis) ;;
          if truthy (terminoExistencia analisis) then
            consultar_existencia (o_vacio (terminoExistencia analisis))
          else if negb (no_vacia (regexVerbos analisis))
                  && negb (no_vacia personajeIds)
                  && negb (no_vacia lugarIds)
                  && negb (no_vacia eventosDesdeObjetos)
          then Resolved (Resultados (Texto todos) None [])
          else
            let filtro :=
              construir_filtro (regexVerbos analisis) personajeIds lugarIds
                               eventosDesdeObjetos in
            resultados <- buscar filtro ;;
            resultados <- fallbacks resultados personajeIds lugarIds
                                    eventosDesdeObjetos ;;
            Resolved (Resultados (Texto todos) None resultados)
      end
  end.

Definition falta_q : jsstring := js "Falta parámetro " ++ [34] ++ js "q" ++ [34].

(** [router.get('/', ...)]: [q] is [req.query.q]. *)
Definition get (q : option jsstring) : outcome :=
  match option_map trim q with
  | None | Some [] => Responde (Error 400 falta_q)
  | Some q =>
      match exec re_capitulo q with
      | Some matchCap =>
          (* Atajo directo: "capítulo N" *)
          let capNum := parseInt (o_vacio (group matchCap 1)) in
          match
            (capDoc <- Capitulo_findOne st capNum ;;
             match capDoc with
             | None => Resolved None
             | Some c => evs <- populate_capitulo st c ;; Resolved (Some evs)
             end)
          with
          | Rejected e => Rechaza e
          | Resolved None => Responde (Resultados (Numero capNum) None [])
          | Resolved (Some evs) => Responde (Resultados (Numero capNum) None evs)
          end
      | None =>
          (* Análisis semántico *)
          match analizarPregunta compromise st q with
          | Rejected e => Rechaza e
          | Resolved analisis =>
              match consultar analisis with
              | Resolved r => Responde r
              | Rejected _ => Responde (Error 500 error_interno)
              end
          end
      end
  end.

End Handler.

End Preguntas.

(** ** Sample data

    A small store and stand-ins for the two external collaborators, used to
    evaluate the pipeline on concrete questions. *)
Module Ejemplos.
Import JS RegExp Store NlpProcessor Preguntas.
Local Open Scope N_scope.

(** A [compromise] that leaves the text as it is. *)
Definition sin_cambios (texto : jsstring) : jsstring := texto.

(** A store engine that evaluates the two shapes of pattern the route sends,
    [^w$] and [\bw\b] with the [i] flag, the way the language does. *)
Definition motor (src options v : jsstring) : bool :=
  match parse (JS.eqb options (js "i")) src with
  | Some r => test r v
  | None => false
  end.

Definition ursula : Personaje.t :=
  {| Personaje._id := 1; Personaje.nombre := js "Úrsula Iguarán" |}.

Definition jose_arcadio : Personaje.t :=
  {| Personaje._id := 2; Personaje.nombre := js "José Arcadio (el Grande)" |}.

Definition macondo : Lugar.t :=
  {| Lugar._id := 10; Lugar.nombre := js "Macondo" |}.

Definition primera : Generacion.t :=
  {| Generacion._id := 20; Generacion.nombre := js "Primera" |}.

Definition pescaditos : Objeto.t :=
  {| Objeto._id := 30; Objeto.nombre := js "Pescaditos de oro";
     Objeto.evento_relacionado := Some 102 |}.

Definition fundacion : Evento.t :=
  {| Evento._id := 100;
     Evento.nombre := js "Fundación del pueblo";
     Evento.descripcion := Some (js "Los Buendía levantan las primeras casas");
     Evento.personajes_involucrados := [2];
     Evento.lugar_relacionado := Some 10;
     Evento.generacion_relacionada := Some 20 |}.

Definition guerra_civil : Evento.t :=
  {| Evento._id := 101;
     Evento.nombre := js "Guerra civil";
     Evento.descripcion := Some (js "El coronel promueve treinta y dos levantamientos");
     Evento.personajes_involucrados := [];
     Evento.lugar_relacionado := Some 10;
     Evento.generacion_relacionada := None |}.

Definition guerra : Evento.t :=
  {| Evento._id := 102;
     Evento.nombre := js "Guerra";
     Evento.descripcion := None;
     Evento.personajes_involucrados := [];
     Evento.lugar_relacionado := None;
     Evento.generacion_relacionada := None |}.

Definition capitulo_uno : Capitulo.t :=
  {| Capitulo.numero := 1; Capitulo.eventos := [100; 101] |}.

Definition novela : database :=
  {| db_personajes := [ursula; jose_arcadio];
     db_lugares := [macondo];
     db_objetos := [pescaditos];
     db_eventos := [fundacion; guerra_civil; guerra];
     db_capitulos := [capitulo_uno];
     db_generaciones := [primera] |}.

(** The same store without its objects. *)
Definition sin_objetos : database :=
  {| db_personajes := [ursula; jose_arcadio];
     db_lugares := [macondo];
     db_objetos := [];
     db_eventos := [fundacion; guerra_civil; guerra];
     db_capitulos := [capitulo_uno];
     db_generaciones := [primera] |}.

(** An analysis that found a character and a place and nothing else. *)
Definition ursula_en_macondo : Analisis :=
  {| capitulo := None;
     terminoExistencia := None;
     regexVerbos := [];
     NlpProcessor.personajes := [js "Úrsula Iguarán"];
     NlpProcessor.lugares := [js "Macondo"];
     NlpProcessor.objetos := [];
     fuzzy := None |}.

(** A place stored with a space before its name. *)
Definition macondo_con_espacio : Lugar.t :=
  {| Lugar._id := 11; Lugar.nombre := js " Macondo" |}.


End Ejemplos.

(** ** More sample data *)
Module Ejemplos2.
Import JS RegExp Store NlpProcessor Preguntas Ejemplos.
Local Open Scope N_scope.

(** The sample store while the chapters cannot be read. *)
Definition sin_capitulos : store :=
  {| Store.personajes := Some (db_personajes novela);
     Store.lugares := Some (db_lugares novela);
     Store.objetos := Some (db_objetos novela);
     Store.eventos := Some (db_eventos novela);
     Store.capitulos := None;
     Store.generaciones := Some (db_generaciones novela) |}.

(** The sample store while the characters cannot be read. *)
Definition sin_personajes : store :=
  {| Store.personajes := None;
     Store.lugares := Some (db_lugares novela);
     Store.objetos := Some (db_objetos novela);
     Store.eventos := Some (db_eventos novela);
     Store.capitulos := Some (db_capitulos novela);
     Store.generaciones := Some (db_generaciones novela) |}.

(** A store of which nothing can be read. *)
Definition caida : store :=
  {| Store.personajes := None;
     Store.lugares := None;
     Store.objetos := None;
     Store.eventos := None;
     Store.capitulos := None;
     Store.generaciones := None |}.

(** An analysis that found nothing. *)
Definition nada : Analisis :=
  {| capitulo := None;
     terminoExistencia := None;
     regexVerbos := [];
     NlpProcessor.personajes := [];
     NlpProcessor.lugares := [];
     NlpProcessor.objetos := [];
     fuzzy := None |}.

(** An analysis that read the chapter number 7 off the normalized text. *)
Definition capitulo_siete : Analisis :=
  {| capitulo := Some 7%Z;
     terminoExistencia := Some (js "guerra");
     regexVerbos := [];
     NlpProcessor.personajes := [];
     NlpProcessor.lugares := [];
     NlpProcessor.objetos := [];
     fuzzy := None |}.

(** An analysis that found José Arcadio and Macondo and nothing else. *)
Definition jose_en_macondo : Analisis :=
  {| capitulo := None;
     terminoExistencia := None;
     regexVerbos := [];
     NlpProcessor.personajes := [js "José Arcadio (el Grande)"];
     NlpProcessor.lugares := [js "Macondo"];
     NlpProcessor.objetos := [];
     fuzzy := None |}.

(** A place stored with a space after its name. *)
Definition macondo_espacio_final : Lugar.t :=
  {| Lugar._id := 12; Lugar.nombre := js "Macondo " |}.

End Ejemplos2.

(** ** Further notions used to state properties *)
Module Nociones.
Import JS RegExp Store NlpProcessor.
Local Open Scope N_scope.

(** Two texts equal up to the case-insensitivity of the [i] flag. *)
Definition igual_sin_caja (v w : jsstring) : Prop :=
  Forall2 (fun x y => canonicalize x = canonicalize y) v w.

(** [t] contains a copy of [w], up to case, with a word boundary on each
    side: exactly one of the two code units around the position is a word
    character, the ends of the text counting as none. *)
Definition palabra_en (w t : jsstring) : Prop :=
  exists a v b,
    t = a ++ v ++ b
    /\ igual_sin_caja v w
    /\ xorb (word_before (after None a)) (word_after (v ++ b)) = true
    /\ xorb (word_before (after None (a ++ v))) (word_after b) = true.

(** Texts joined by single spaces. *)
Fixpoint unir (ws : list jsstring) : jsstring :=
  match ws with
  | [] => []
  | [w] => w
  | w :: ws' => w ++ 32 :: unir ws'
  end.

(** Lower case of a code unit of ASCII. *)
Definition minuscula_ascii (u : N) : N :=
  if (65 <=? u) && (u <=? 90) then u + 32 else u.

(** The code units of ASCII. *)
Definition ascii : list N := map N.of_nat (List.seq 0%nat 128%nat).


(** A property of the first code unit of a text, if it has one. *)
Definition cabeza (P : N -> Prop) (s : jsstring) : Prop :=
  match s with
  | u :: _ => P u
  | [] => True
  end.

(** The text [detectarExistencia] gives to its patterns: lower case, without
    the question marks at its two ends and the white space around them. *)
Definition sinSignos (textoOriginal : jsstring) : jsstring :=
  trim (replace_all re_signos (fun _ => []) (trim (toLowerCase textoOriginal))).

(** The term [detectarExistencia] makes of a capture. *)
Definition termino_de (captura : jsstring) : jsstring :=
  limpiarTexto
    (trim (replace_first re_puntuacion_final (fun _ => []) (trim captura))).

End Nociones.


(** * Properties *)

(** ** Regular expressions over one class *)
Module RegExpFacts.
Import JS RegExp.
Local Open Scope N_scope.

Lemma firstn_one (A : Type) (u : A) (s : list A) :
  firstn (length (u :: s) - length s) (u :: s) = [u].
Proof.
  replace (length (u :: s) - length s)%nat with 1%nat by (cbn [length]; lia).
  reflexivity.
Qed.

(** A match of a one-class pattern at the current position. *)
Lemma match_at_Chr (p : N -> bool) (idx : nat) (prev : option N) (s : jsstring) :
  match_at (Chr p) idx prev s =
  match s with
  | u :: s' =>
      if p u then Some {| m_index := idx; m_text := [u]; m_rest := s'; m_caps := [] |}
      else None
  | [] => None
  end.
Proof.
  unfold match_at; destruct s as [|u s']; cbn [run]; [reflexivity|].
  destruct (p u); [|reflexivity].
  now rewrite firstn_one.
Qed.

(** Replacing every code unit of a class, one at a time. *)
Lemma replace_go_Chr (p : N -> bool) (f : rmatch -> jsstring) (g : N -> jsstring) :
  (forall idx u s', f {| m_index := idx; m_text := [u]; m_rest := s'; m_caps := [] |} = g u) ->
  forall s prev,
    replace_go (Chr p) f 0 prev s = flat_map (fun u => if p u then g u else [u]) s.
Proof.
  intros Hf s; induction s as [|u s' IH]; intros prev.
  - cbn [replace_go flat_map]. now rewrite match_at_Chr.
  - cbn [replace_go flat_map]. rewrite match_at_Chr.
    destruct (p u).
    + cbn [m_text length]. rewrite Hf, IH. reflexivity.
    + rewrite IH. reflexivity.
Qed.

Lemma replace_all_delete (p : N -> bool) (s : jsstring) :
  replace_all (Chr p) (fun _ => []) s = filter (fun u => negb (p u)) s.
Proof.
  unfold replace_all.
  rewrite (@replace_go_Chr p (fun _ => []) (fun _ => [])) by reflexivity.
  induction s as [|u s' IH]; simpl; [reflexivity|].
  destruct (p u); simpl; now rewrite IH.
Qed.

(** Equality of strings. *)
Lemma eqb_spec (a b : jsstring) : reflect (a = b) (JS.eqb a b).
Proof.
  unfold JS.eqb. destruct (list_eq_dec N.eq_dec a b); constructor; assumption.
Qed.

Lemma eqb_false (a b : jsstring) : JS.eqb a b = false -> a <> b.
Proof. now destruct (eqb_spec a b). Qed.

Lemma eqb_true (a b : jsstring) : JS.eqb a b = true -> a = b.
Proof. now destruct (eqb_spec a b). Qed.

Lemma eqb_refl (a : jsstring) : JS.eqb a a = true.
Proof. now destruct (eqb_spec a a). Qed.

End RegExpFacts.

(** ** Escaping and the [RegExp] constructor *)
Module EscapeFacts.
Import JS RegExp Store NlpProcessor RegExpFacts.
Local Open Scope N_scope.

Lemma existsb_incl (A : Type) (p : A -> bool) (l1 l2 : list A) :
  incl l1 l2 -> existsb p l1 = true -> existsb p l2 = true.
Proof.
  intros Hi H. apply existsb_exists in H as [x [Hx Hp]].
  apply existsb_exists. exists x. split; [now apply Hi|assumption].
Qed.

Lemma existsb_same (A : Type) (p : A -> bool) (l1 l2 : list A) :
  incl l1 l2 -> incl l2 l1 -> existsb p l1 = existsb p l2.
Proof.
  intros H12 H21.
  destruct (existsb p l1) eqn:E1.
  - symmetry. now apply (existsb_incl p H12).
  - destruct (existsb p l2) eqn:E2; [|reflexivity].
    apply (existsb_incl p H21) in E2. congruence.
Qed.

(** The class [escapeRegex] escapes is the set of syntax characters. *)
Lemma metachar_syntax (u : N) :
  existsb (fun c => u =? c) (js ".*+?^${}()|[]\") = is_syntax_char u.
Proof.
  unfold is_syntax_char.
  apply existsb_same; vm_compute; intros x H;
    repeat (destruct H as [H|H]; [subst x; auto 20|]); contradiction.
Qed.

Lemma escapeRegex_flat_map (text : jsstring) :
  NlpProcessor.escapeRegex text
  = flat_map (fun u => if is_syntax_char u then [92; u] else [u]) text.
Proof.
  unfold NlpProcessor.escapeRegex, replace_all, re_metachar, class.
  rewrite (@replace_go_Chr _ _ (fun u => [92; u])) by reflexivity.
  apply flat_map_ext. intros u. cbv beta. now rewrite metachar_syntax.
Qed.

Lemma escapeRegex_same (text : jsstring) :
  Preguntas.escapeRegex text = NlpProcessor.escapeRegex text.
Proof. reflexivity. Qed.

Lemma syntax_char_cases (u : N) :
  is_syntax_char u = false ->
  (u =? 92) = false /\ (u =? 94) = false /\ (u =? 36) = false.
Proof.
  intros H. repeat split;
    (destruct (N.eqb_spec u 92) as [->|]; [discriminate H|]);
    (destruct (N.eqb_spec u 94) as [->|]; [discriminate H|]);
    (destruct (N.eqb_spec u 36) as [->|]; [discriminate H|]); reflexivity.
Qed.

Lemma syntax_char_not_b (u : N) : is_syntax_char u = true -> (u =? 98) = false.
Proof.
  intros H. destruct (N.eqb_spec u 98) as [->|]; [discriminate H|reflexivity].
Qed.

(** Compiling an escaped text gives its characters, one by one. *)
Lemma parse_escaped (ci : bool) (w rest : jsstring) :
  parse ci (NlpProcessor.escapeRegex w ++ rest)
  = option_map (lits ci w) (parse ci rest).
Proof.
  rewrite escapeRegex_flat_map.
  induction w as [|u w IH]; cbn [flat_map lits app].
  - now destruct (parse ci rest).
  - destruct (is_syntax_char u) eqn:E.
    + cbn [app parse]. change (92 =? 92) with true. cbv iota.
      rewrite (syntax_char_not_b u E), E, IH.
      now destruct (parse ci rest).
    + destruct (syntax_char_cases u E) as (E1 & E2 & E3).
      cbn [app parse]. rewrite E1, E2, E3, E, IH.
      now destruct (parse ci rest).
Qed.

Lemma regex_palabra_escaped (w : jsstring) :
  regex_palabra (NlpProcessor.escapeRegex w)
  = Resolved {| source := js "\b" ++ NlpProcessor.escapeRegex w ++ js "\b";
                ignoreCase := true;
                pattern := palabra w |}.
Proof.
  unfold regex_palabra, new_RegExp.
  change (js "\b") with [92; 98].
  cbn [app parse]. change (92 =? 92) with true. change (98 =? 98) with true.
  cbv iota. rewrite parse_escaped.
  reflexivity.
Qed.

Lemma regex_exacta_escaped (p : jsstring) :
  Preguntas.regex_exacta p
  = Resolved {| source := js "^" ++ NlpProcessor.escapeRegex p ++ js "$";
                ignoreCase := true;
                pattern := exacta p |}.
Proof.
  unfold Preguntas.regex_exacta, new_RegExp. rewrite escapeRegex_same.
  change (js "^") with [94]. change (js "$") with [36].
  cbn [app parse]. change (94 =? 92) with false. change (94 =? 94) with true.
  cbv iota. rewrite parse_escaped.
  reflexivity.
Qed.

Lemma mapM_resolved (A B : Type) (f : A -> promise B) (g : A -> B) (l : list A) :
  (forall a, f a = Resolved (g a)) -> mapM f l = Resolved (map g l).
Proof.
  intros H. induction l as [|a l IH]; simpl; [reflexivity|].
  now rewrite H, IH.
Qed.

End EscapeFacts.

(** ** The store when every read succeeds *)
Module StoreFacts.
Import JS RegExp Store.
Local Open Scope N_scope.

Lemma existsb_false_forall (A : Type) (p : A -> bool) (l : list A) :
  existsb p l = false -> forall x, In x l -> p x = false.
Proof.
  intros H x Hx. destruct (p x) eqn:E; [|reflexivity].
  assert (existsb p l = true) by (apply existsb_exists; eauto). congruence.
Qed.

Lemma populate_eventos_available (db : database) (evs : list Evento.t) :
  populate_eventos (available db) evs = Resolved (map (poblar db) evs).
Proof.
  unfold populate_eventos.
  destruct (existsb _ evs) eqn:Ep;
  destruct (existsb (fun e => is_some (Evento.lugar_relacionado e)) evs) eqn:El;
  destruct (existsb (fun e => is_some (Evento.generacion_relacionada e)) evs) eqn:Eg;
  cbn [available personajes lugares generaciones read bind]; f_equal;
  apply map_ext_in; intros e He; unfold poblar; f_equal;
  try (pose proof (existsb_false_forall _ _ Ep e He) as Hp; cbv beta in Hp;
       destruct (Evento.personajes_involucrados e); [reflexivity|discriminate Hp]);
  try (pose proof (existsb_false_forall _ _ El e He) as Hl; cbv beta in Hl;
       destruct (Evento.lugar_relacionado e); [discriminate Hl|reflexivity]);
  try (pose proof (existsb_false_forall _ _ Eg e He) as Hg; cbv beta in Hg;
       destruct (Evento.generacion_relacionada e); [discriminate Hg|reflexivity]).
Qed.

Lemma populate_capitulo_available (db : database) (c : Capitulo.t) :
  populate_capitulo (available db) c
  = Resolved (map (poblar db) (referidos db (Capitulo.eventos c))).
Proof.
  unfold populate_capitulo, referidos.
  destruct (Capitulo.eventos c) as [|id ids]; [reflexivity|].
  cbn [available eventos read bind]. apply populate_eventos_available.
Qed.

Lemma Evento_find_available (engine : jsstring -> jsstring -> jsstring -> bool)
    (db : database) (f : filtro) :
  Evento_find engine (available db) f
  = Resolved (filter (cumple engine f) (db_eventos db)).
Proof. reflexivity. Qed.

End StoreFacts.


(** ** The verb matcher *)
Module Verbos.
Import JS RegExp Store NlpProcessor Ejemplos RegExpFacts EscapeFacts.
Local Open Scope N_scope.

#[local] Opaque verbosClave.

Lemma detectar_formas_spec (texto : jsstring) (formas pendientes : list jsstring) :
  detectar_formas pendientes formas texto
  = Resolved (if activa texto pendientes
              then map (fun f => objeto_palabra (limpiarTexto f)) formas
              else []).
Proof.
  induction pendientes as [|forma pendientes IH]; [reflexivity|].
  cbn [detectar_formas]. cbv zeta.
  rewrite regex_palabra_escaped. cbn [bind pattern].
  unfold activa. cbn [existsb].
  destruct (test (palabra (limpiarTexto forma)) texto); cbn [orb].
  - apply mapM_resolved. intros f. apply regex_palabra_escaped.
  - apply IH.
Qed.

Lemma detectar_verbos_spec (texto : jsstring)
    (entries : list (jsstring * list jsstring)) (acc : list RegExpObject) :
  detectar_verbos entries texto acc = Resolved (acc ++ verbos_de entries texto).
Proof.
  revert acc. induction entries as [|[clave formas] entries IH]; intros acc.
  - cbn. now rewrite app_nil_r.
  - cbn [detectar_verbos]. rewrite detectar_formas_spec. cbn [bind].
    rewrite IH. unfold verbos_de. cbn [flat_map snd].
    now rewrite app_assoc.
Qed.

(** *** Whole-word matches *)

Lemma after_cons (prev : option N) (u : N) (a : jsstring) :
  after prev (u :: a) = after (Some u) a.
Proof.
  unfold after. cbn [rev].
  destruct (rev a) as [|v r]; reflexivity.
Qed.

Lemma exec_from_app (r : regex) (a s : jsstring) :
  forall idx prev,
    (exists idx' m, match_at r idx' (after prev a) s = Some m) ->
    exists m, exec_from r idx prev (a ++ s) = Some m.
Proof.
  induction a as [|u a IH]; intros idx prev (idx' & m & Hm).
  - cbn [app]. unfold after in Hm. cbn [rev] in Hm.
    destruct s as [|v s']; cbn [exec_from].
    + unfold match_at in *. destruct (run r _ prev [] []) as [[s1 c1]|];
        [eauto|discriminate].
    + unfold match_at in *. destruct (run r _ prev (v :: s') []) as [[s1 c1]|];
        [eauto|discriminate].
  - cbn [app exec_from].
    destruct (match_at r idx prev (u :: a ++ s)) as [m'|]; [eauto|].
    apply IH. rewrite after_cons in Hm. eauto.
Qed.

Lemma canonicalize_refl (c : N) : (canonicalize c =? canonicalize c) = true.
Proof. apply N.eqb_refl. Qed.

(** Reading the characters of a word that is there. *)
Lemma run_lits_self (w : jsstring) (rest : regex) (k : cont) :
  forall prev b cs,
    run (lits true w rest) k prev (w ++ b) cs = run rest k (after prev w) b cs.
Proof.
  induction w as [|c w IH]; intros prev b cs; [reflexivity|].
  cbn [lits app]. unfold chr at 1. cbn [run].
  rewrite canonicalize_refl, after_cons. apply IH.
Qed.

(** A word between two non-word neighbours is found by its whole-word
    pattern. *)
Lemma test_palabra (w a b : jsstring) :
  word_after w = true ->
  word_before (after None w) = true ->
  word_before (after None a) = false ->
  word_after b = false ->
  test (palabra w) (a ++ w ++ b) = true.
Proof.
  intros Hfirst Hlast Ha Hb. unfold test, exec.
  destruct (@exec_from_app (palabra w) a (w ++ b) 0%nat None) as [m ->];
    [|reflexivity].
  exists 0%nat. unfold match_at, palabra. cbn [run].
  assert (Hw : word_after (w ++ b) = true)
    by (destruct w; [discriminate Hfirst|exact Hfirst]).
  rewrite Ha, Hw. cbn [xorb]. rewrite run_lits_self. cbn [run].
  assert (Hl : word_before (after (after None a) w) = true).
  { unfold after in *. destruct (rev w); [discriminate Hlast|exact Hlast]. }
  rewrite Hl, Hb. cbn [xorb]. eauto.
Qed.

Section Analysis.
Variable compromise : jsstring -> jsstring.

(** When the three collections of entities can be read the analysis
    resolves, and to this; the ranker turns an unreadable collection of
    events into [null]. *)
Lemma analizarPregunta_resolves (st : store) (q : jsstring)
    (ps : list Personaje.t) (ls : list Lugar.t) (os : list Objeto.t) :
  Store.personajes st = Some ps ->
  Store.lugares st = Some ls ->
  Store.objetos st = Some os ->
  analizarPregunta compromise st q
  = Resolved
      {| capitulo := capitulo_explicito (normalizar compromise q);
         terminoExistencia := detectarExistencia q;
         regexVerbos := verbos_de verbosClave (limpiarTexto q);
         personajes := detectar_personajes ps (normalizar compromise q);
         lugares := detectar_lugares ls (normalizar compromise q);
         objetos := detectar_objetos os (normalizar compromise q);
         fuzzy := if truthy (detectarExistencia q) then None
                  else match Store.eventos st with
                       | Some evs => elegir (normalizar compromise q)
                                            (map proyectar evs)
                       | None => None
                       end |}.
Proof.
  intros Hp Hl Ho. unfold analizarPregunta. rewrite Hp, Hl, Ho.
  cbn [read bind].
  rewrite detectar_verbos_spec. cbn [bind app].
  destruct (truthy (detectarExistencia q)); [reflexivity|].
  unfold buscarEventoSimilar. destruct (Store.eventos st); reflexivity.
Qed.

Lemma analizarPregunta_available (db : database) (q : jsstring) :
  analizarPregunta compromise (available db) q
  = Resolved
      {| capitulo := capitulo_explicito (normalizar compromise q);
         terminoExistencia := detectarExistencia q;
         regexVerbos := verbos_de verbosClave (limpiarTexto q);
         personajes := detectar_personajes (db_personajes db) (normalizar compromise q);
         lugares := detectar_lugares (db_lugares db) (normalizar compromise q);
         objetos := detectar_objetos (db_objetos db) (normalizar compromise q);
         fuzzy := if truthy (detectarExistencia q) then None
                  else elegir (normalizar compromise q)
                              (map proyectar (db_eventos db)) |}.
Proof.
  rewrite (@analizarPregunta_resolves (available db) q _ _ _ eq_refl eq_refl eq_refl).
  reflexivity.
Qed.

Lemma morir_entry : In (js "morir", formas_de (js "morir")) verbosClave.
Proof. vm_compute. auto. Qed.

Lemma murio_form : In (js "murió") (formas_de (js "morir")).
Proof. vm_compute. auto. Qed.

Lemma murio_folded : limpiarTexto (js "murió") = js "murio".
Proof. vm_compute. reflexivity. Qed.

(** C3. The patterns of the analysis are, for each intent in taxonomy order
    that has a form occurring as a whole word (case-insensitively) in the
    folded question, one whole-word case-insensitive pattern per form of the
    intent, once; an intent without such a form contributes nothing.  A
    question in which [murió] stands as a word of its own gets the patterns
    of all the forms of [morir], those of [falleció] and [pereció] among
    them. *)
Theorem verb_matcher (db : database) (q : jsstring) (a : Analisis) :
  analizarPregunta compromise (available db) q = Resolved a ->
  regexVerbos a = verbos_de verbosClave (limpiarTexto q)
  /\ (forall antes despues,
        limpiarTexto q = antes ++ js "murio" ++ despues ->
        word_before (after None antes) = false ->
        word_after despues = false ->
        regexVerbos a <> []
        /\ forall f, In f (formas_de (js "morir")) ->
                     In (objeto_palabra (limpiarTexto f)) (regexVerbos a))
  /\ In (js "falleció") (formas_de (js "morir"))
  /\ In (js "pereció") (formas_de (js "morir")).
Proof.
  intros Ha.
  assert (Hr : regexVerbos a = verbos_de verbosClave (limpiarTexto q)).
  { rewrite analizarPregunta_available in Ha.
    apply (f_equal (fun r => match r with
                             | Resolved x => regexVerbos x
                             | Rejected _ => []
                             end)) in Ha.
    exact (eq_sym Ha). }
  rewrite Hr.
  split; [reflexivity|].
  split; [|split; vm_compute; auto 10].
  intros antes despues Hq Hantes Hdespues.
  assert (Hact : activa (limpiarTexto q) (formas_de (js "morir")) = true).
  { apply existsb_exists. exists (js "murió"). split; [exact murio_form|].
    rewrite murio_folded, Hq.
    apply test_palabra; [reflexivity|reflexivity|assumption|assumption]. }
  assert (Hin : forall f, In f (formas_de (js "morir")) ->
                In (objeto_palabra (limpiarTexto f))
                   (verbos_de verbosClave (limpiarTexto q))).
  { intros f Hf. unfold verbos_de. apply in_flat_map.
    exists (js "morir", formas_de (js "morir")). split; [exact morir_entry|].
    cbn [snd]. rewrite Hact.
    apply (in_map (fun f => objeto_palabra (limpiarTexto f))). exact Hf. }
  split; [|exact Hin].
  intros Hnil. specialize (Hin _ murio_form). rewrite Hnil in Hin. exact Hin.
Qed.

End Analysis.

(** The question ["¿Cuándo murió Úrsula?"]. *)
Lemma verb_matcher_witness :
  exists a,
    analizarPregunta sin_cambios (available novela) (js "¿Cuándo murió Úrsula?")
    = Resolved a
    /\ limpiarTexto (js "¿Cuándo murió Úrsula?")
       = js "¿cuando " ++ js "murio" ++ js " ursula?"
    /\ In (objeto_palabra (limpiarTexto (js "falleció"))) (regexVerbos a)
    /\ In (objeto_palabra (limpiarTexto (js "pereció"))) (regexVerbos a).
Proof.
  eexists. split; [apply analizarPregunta_available|].
  assert (Hq : limpiarTexto (js "¿Cuándo murió Úrsula?")
               = js "¿cuando " ++ js "murio" ++ js " ursula?")
    by (vm_compute; reflexivity).
  split; [exact Hq|].
  destruct (@verb_matcher sin_cambios novela (js "¿Cuándo murió Úrsula?") _
              (analizarPregunta_available sin_cambios novela _))
    as (_ & H2 & H3 & H4).
  destruct (H2 (js "¿cuando ") (js " ursula?") Hq eq_refl eq_refl) as [_ Hall].
  split; apply Hall; assumption.
Defined.

(** *** The duplicated keys *)

Lemma Resolved_inj (A : Type) (x y : A) : Resolved x = Resolved y -> x = y.
Proof. intros H. now injection H. Qed.

(** Every emitted pattern is the pattern of a form of the object. *)
Lemma verbos_de_origin (entries : list (jsstring * list jsstring))
    (texto : jsstring) (r : RegExpObject) :
  In r (verbos_de entries texto) ->
  exists g, In g (flat_map snd entries) /\ r = objeto_palabra (limpiarTexto g).
Proof.
  unfold verbos_de. intros H. apply in_flat_map in H as (kv & Hkv & Hr).
  destruct (activa texto (snd kv)); [|contradiction].
  apply in_map_iff in Hr as (g & <- & Hg).
  exists g. split; [|reflexivity].
  apply in_flat_map. eauto.
Qed.

Lemma sources_differ :
  (let emitidas :=
     map (fun g => source (objeto_palabra (limpiarTexto g)))
         (flat_map snd verbosClave) in
   forallb
     (fun f =>
        let s := source (objeto_palabra (limpiarTexto f)) in
        forallb (fun e => negb (JS.eqb e s)) emitidas)
     formas_sin_efecto) = true.
Proof. vm_compute. reflexivity. Qed.

Lemma formas_sin_efecto_list :
  formas_sin_efecto
  = [js "unió"; js "perdido"; js "pérdida"; js "se le fue"; js "mutó";
     js "evolucionó"].
Proof. vm_compute. reflexivity. Qed.

Lemma sin_efecto_silent :
  forallb
    (fun f =>
       match verbos_de verbosClave (limpiarTexto f) with
       | [] => true
       | _ :: _ => false
       end)
    formas_sin_efecto = true.
Proof. vm_compute. reflexivity. Qed.

(** C10. The object keeps, for [casar], [perder] and [cambiar], the list
    written last.  Six forms of the literal are thereby dropped ([unió],
    [perdido], [pérdida], [se le fue], [mutó], [evolucionó]): whatever the
    question, no emitted pattern is the pattern of one of them, and a
    question that consists of one of them yields no pattern at all. *)
Theorem duplicate_keys :
  formas_de (js "casar")
  = [js "casarse"; js "se casó"; js "contrajo matrimonio"; js "contrajo nupcias";
     js "matrimonio"; js "boda"; js "se unió"; js "se desposó"; js "desposó";
     js "celebró su boda"]
  /\ formas_de (js "perder")
     = [js "perder"; js "perdió"; js "derrota"; js "fracasó"; js "fue vencido";
        js "cayó"]
  /\ formas_de (js "cambiar")
     = [js "cambiar"; js "cambio"; js "cambió"; js "modificar"; js "transformar";
        js "modificó"; js "transformó"; js "fue modificado"; js "variar";
        js "variación"; js "se transformó"]
  /\ formas_sin_efecto
     = [js "unió"; js "perdido"; js "pérdida"; js "se le fue"; js "mutó";
        js "evolucionó"]
  /\ (forall texto f r,
        In f formas_sin_efecto ->
        In r (verbos_de verbosClave texto) ->
        source r <> source (objeto_palabra (limpiarTexto f)))
  /\ (forall texto f rs,
        In f formas_sin_efecto ->
        detectar_verbos verbosClave texto [] = Resolved rs ->
        forall r, In r rs -> source r <> source (objeto_palabra (limpiarTexto f)))
  /\ (forall f,
        In f formas_sin_efecto ->
        detectar_verbos verbosClave (limpiarTexto f) [] = Resolved []).
Proof.
  assert (Hnever : forall texto f r,
             In f formas_sin_efecto ->
             In r (verbos_de verbosClave texto) ->
             source r <> source (objeto_palabra (limpiarTexto f))).
  { intros texto f r Hf Hr.
    apply verbos_de_origin in Hr as (g & Hg & ->).
    pose proof sources_differ as H. cbv zeta in H.
    rewrite forallb_forall in H. specialize (H f Hf). cbv beta zeta in H.
    rewrite forallb_forall in H.
    specialize (H (source (objeto_palabra (limpiarTexto g)))
                  (in_map (fun g => source (objeto_palabra (limpiarTexto g)))
                          _ g Hg)).
    cbv beta in H. apply eqb_false.
    destruct (JS.eqb (source (objeto_palabra (limpiarTexto g)))
                     (source (objeto_palabra (limpiarTexto f))));
      [discriminate H|reflexivity]. }
  split; [vm_compute; reflexivity|].
  split; [vm_compute; reflexivity|].
  split; [vm_compute; reflexivity|].
  split; [exact formas_sin_efecto_list|].
  split; [exact Hnever|].
  split.
  - intros texto f rs Hf Hrs r Hr.
    rewrite detectar_verbos_spec in Hrs.
    apply Resolved_inj in Hrs. subst rs.
    exact (Hnever texto f r Hf Hr).
  - intros f Hf. rewrite detectar_verbos_spec.
    pose proof sin_efecto_silent as H.
    rewrite forallb_forall in H. specialize (H f Hf). cbv beta in H.
    destruct (verbos_de verbosClave (limpiarTexto f)) as [|r rs];
      [reflexivity|discriminate H].
Qed.

End Verbos.

(** ** The query planner *)
Module Planner.
Import JS RegExp Store NlpProcessor Preguntas Ejemplos StoreFacts EscapeFacts Verbos.
Local Open Scope N_scope.

Section Externals.
Variable compromise : jsstring -> jsstring.
Variable engine : jsstring -> jsstring -> jsstring -> bool.

Lemma buscar_available (db : database) (f : filtro) :
  buscar engine (available db) f
  = Resolved (map (poblar db) (filter (cumple engine f) (db_eventos db))).
Proof.
  unfold buscar. rewrite Evento_find_available. cbn [bind].
  apply populate_eventos_available.
Qed.


(** C1, as the code has it.  When the primary filter finds no event, one
    fallback query is chosen by the first non-empty list of identifiers, in
    the order objects, characters, places, and its result is the answer,
    empty or not; with the three lists empty the answer is empty.  The tag is
    ["todos"] in every case. *)
Theorem fallback_cascade (db : database) (a : Analisis)
    (personajeIds lugarIds eventosDesdeObjetos : list ObjectId) :
  (capitulo a = None \/ capitulo a = Some 0%Z) ->
  fuzzy a = None ->
  truthy (terminoExistencia a) = false ->
  resolver_personajes engine (available db) (personajes a) = Resolved personajeIds ->
  resolver_lugares engine (available db) (lugares a) = Resolved lugarIds ->
  resolver_objetos engine (available db) (objetos a) = Resolved eventosDesdeObjetos ->
  no_vacia (regexVerbos a) || no_vacia personajeIds || no_vacia lugarIds
    || no_vacia eventosDesdeObjetos = true ->
  filter (cumple engine (construir_filtro (regexVerbos a) personajeIds lugarIds
                                          eventosDesdeObjetos))
         (db_eventos db) = [] ->
  consultar engine (available db) a
  = Resolved
      (Resultados (Texto todos) None
         (map (poblar db)
            (if no_vacia eventosDesdeObjetos then
               filter (fun e => mem (Evento._id e) eventosDesdeObjetos) (db_eventos db)
             else if no_vacia personajeIds then
               filter (fun e => existsb (fun p => mem p personajeIds)
                                        (Evento.personajes_involucrados e))
                      (db_eventos db)
             else if no_vacia lugarIds then
               filter (fun e => match Evento.lugar_relacionado e with
                                | Some l => mem l lugarIds
                                | None => false
                                end) (db_eventos db)
             else []))).
Proof.
  intros Hcap Hfuzzy Hex Hp Hl Ho Hsome Hprimary.
  unfold consultar.
  assert (Hbody :
    match fuzzy a, truthy (terminoExistencia a) with
    | Some f, false =>
        poblado <- populate_eventos (available db) [f] ;;
        Resolved (Resultados (Texto similar) None poblado)
    | _, _ =>
        personajeIds <- resolver_personajes engine (available db) (personajes a) ;;
        lugarIds <- resolver_lugares engine (available db) (lugares a) ;;
        eventosDesdeObjetos <- resolver_objetos engine (available db) (objetos a) ;;
        if truthy (terminoExistencia a) then
          consultar_existencia engine (available db) (o_vacio (terminoExistencia a))
        else if negb (no_vacia (regexVerbos a))
                && negb (no_vacia personajeIds)
                && negb (no_vacia lugarIds)
                && negb (no_vacia eventosDesdeObjetos)
        then Resolved (Resultados (Texto todos) None [])
        else
          let filtro :=
            construir_filtro (regexVerbos a) personajeIds lugarIds
                             eventosDesdeObjetos in
          resultados <- buscar engine (available db) filtro ;;
          resultados <- fallbacks engine (available db) resultados personajeIds
                                  lugarIds eventosDesdeObjetos ;;
          Resolved (Resultados (Texto todos) None resultados)
    end = Resolved
      (Resultados (Texto todos) None
         (map (poblar db)
            (if no_vacia eventosDesdeObjetos then
               filter (fun e => mem (Evento._id e) eventosDesdeObjetos) (db_eventos db)
             else if no_vacia personajeIds then
               filter (fun e => existsb (fun p => mem p personajeIds)
                                        (Evento.personajes_involucrados e))
                      (db_eventos db)
             else if no_vacia lugarIds then
               filter (fun e => match Evento.lugar_relacionado e with
                                | Some l => mem l lugarIds
                                | None => false
                                end) (db_eventos db)
             else [])))).
  { rewrite Hfuzzy, Hex, Hp, Hl, Ho. cbn [bind].
    replace (negb (no_vacia (regexVerbos a)) && negb (no_vacia personajeIds)
             && negb (no_vacia lugarIds) && negb (no_vacia eventosDesdeObjetos))
      with false
      by (destruct (no_vacia (regexVerbos a)), (no_vacia personajeIds),
                   (no_vacia lugarIds), (no_vacia eventosDesdeObjetos);
          discriminate Hsome || reflexivity).
    cbv zeta. rewrite buscar_available, Hprimary. cbn [map bind].
    unfold fallbacks. cbn [no_vacia negb andb].
    destruct (no_vacia eventosDesdeObjetos);
      [rewrite buscar_available; reflexivity|].
    destruct (no_vacia personajeIds);
      [rewrite buscar_available; reflexivity|].
    destruct (no_vacia lugarIds);
      [rewrite buscar_available; reflexivity|].
    reflexivity. }
  destruct Hcap as [-> | ->]; exact Hbody.
Qed.

(** *** Resolution of names and totality of the guarded block *)

Lemma resolver_personajes_available (db : database) (names : list jsstring) :
  exists ids, resolver_personajes engine (available db) names = Resolved ids.
Proof.
  unfold resolver_personajes. destruct (no_vacia names); [|eauto].
  rewrite (mapM_resolved _ _ names regex_exacta_escaped). cbn [bind].
  unfold Personaje_find_nombre_in. cbn [available Store.personajes read bind]. eauto.
Qed.

Lemma resolver_lugares_available (db : database) (names : list jsstring) :
  exists ids, resolver_lugares engine (available db) names = Resolved ids.
Proof.
  unfold resolver_lugares. destruct (no_vacia names); [|eauto].
  rewrite (mapM_resolved _ _ names regex_exacta_escaped). cbn [bind].
  unfold Lugar_find_nombre_in. cbn [available Store.lugares read bind]. eauto.
Qed.

Lemma resolver_objetos_available (db : database) (names : list jsstring) :
  exists ids, resolver_objetos engine (available db) names = Resolved ids.
Proof.
  unfold resolver_objetos. destruct (no_vacia names); [|eauto].
  rewrite (mapM_resolved _ _ names regex_exacta_escaped). cbn [bind].
  unfold Objeto_find_nombre_in. cbn [available Store.objetos read bind]. eauto.
Qed.

Lemma fallbacks_available (db : database) (rs : list EventoPoblado)
    (ps ls os : list ObjectId) :
  exists rs', fallbacks engine (available db) rs ps ls os = Resolved rs'.
Proof.
  unfold fallbacks.
  repeat match goal with
         | |- context [if ?b then _ else _] => destruct b
         end; rewrite ?buscar_available; eauto.
Qed.

Lemma filter_Todos (l : list Evento.t) : filter (cumple engine Todos) l = l.
Proof.
  induction l as [|e l IH]; [reflexivity|].
  change (filter (cumple engine Todos) (e :: l))
    with (e :: filter (cumple engine Todos) l).
  now rewrite IH.
Qed.

Lemma consultar_existencia_available (db : database) (t : jsstring) :
  consultar_existencia engine (available db) t
  = Resolved
      (Resultados (Texto existencia) (Some t)
         (map (poblar db)
            (filter
               (fun e =>
                  mem (Evento._id e)
                      (map Evento._id
                         (filter
                            (fun e =>
                               includes (normalizarTexto (Evento.nombre e))
                                        (normalizarTexto t)
                               || includes (normalizarTexto (o_vacio (Evento.descripcion e)))
                                           (normalizarTexto t))
                            (db_eventos db))))
               (db_eventos db)))).
Proof.
  unfold consultar_existencia. rewrite Evento_find_available. cbn [bind].
  rewrite buscar_available, filter_Todos. reflexivity.
Qed.

(** With every read succeeding the guarded block resolves. *)
Lemma consultar_available (db : database) (a : Analisis) :
  exists r, consultar engine (available db) a = Resolved r.
Proof.
  assert (Hbody : exists r,
    match fuzzy a, truthy (terminoExistencia a) with
    | Some f, false =>
        poblado <- populate_eventos (available db) [f] ;;
        Resolved (Resultados (Texto similar) None poblado)
    | _, _ =>
        personajeIds <- resolver_personajes engine (available db) (personajes a) ;;
        lugarIds <- resolver_lugares engine (available db) (lugares a) ;;
        eventosDesdeObjetos <- resolver_objetos engine (available db) (objetos a) ;;
        if truthy (terminoExistencia a) then
          consultar_existencia engine (available db) (o_vacio (terminoExistencia a))
        else if negb (no_vacia (regexVerbos a))
                && negb (no_vacia personajeIds)
                && negb (no_vacia lugarIds)
                && negb (no_vacia eventosDesdeObjetos)
        then Resolved (Resultados (Texto todos) None [])
        else
          let filtro :=
            construir_filtro (regexVerbos a) personajeIds lugarIds
                             eventosDesdeObjetos in
          resultados <- buscar engine (available db) filtro ;;
          resultados <- fallbacks engine (available db) resultados personajeIds
                                  lugarIds eventosDesdeObjetos ;;
          Resolved (Resultados (Texto todos) None resultados)
    end = Resolved r).
  { assert (Hrest : exists r,
      (personajeIds <- resolver_personajes engine (available db) (personajes a) ;;
       lugarIds <- resolver_lugares engine (available db) (lugares a) ;;
       eventosDesdeObjetos <- resolver_objetos engine (available db) (objetos a) ;;
       if truthy (terminoExistencia a) then
         consultar_existencia engine (available db) (o_vacio (terminoExistencia a))
       else if negb (no_vacia (regexVerbos a))
               && negb (no_vacia personajeIds)
               && negb (no_vacia lugarIds)
               && negb (no_vacia eventosDesdeObjetos)
       then Resolved (Resultados (Texto todos) None [])
       else
         let filtro :=
           construir_filtro (regexVerbos a) personajeIds lugarIds
                            eventosDesdeObjetos in
         resultados <- buscar engine (available db) filtro ;;
         resultados <- fallbacks engine (available db) resultados personajeIds
                                 lugarIds eventosDesdeObjetos ;;
         Resolved (Resultados (Texto todos) None resultados)) = Resolved r).
    { destruct (resolver_personajes_available db (personajes a)) as [ps ->].
      destruct (resolver_lugares_available db (lugares a)) as [ls ->].
      destruct (resolver_objetos_available db (objetos a)) as [os ->].
      cbn [bind].
      destruct (truthy (terminoExistencia a)).
      - rewrite consultar_existencia_available. eauto.
      - destruct (negb (no_vacia (regexVerbos a)) && negb (no_vacia ps)
                  && negb (no_vacia ls) && negb (no_vacia os)); [eauto|].
        cbv zeta. rewrite buscar_available. cbn [bind].
        destruct (fallbacks_available db
                    (map (poblar db)
                       (filter (cumple engine
                                  (construir_filtro (regexVerbos a) ps ls os))
                               (db_eventos db))) ps ls os) as [rs ->].
        cbn [bind]. eauto. }
    destruct (fuzzy a) as [f|]; [|exact Hrest].
    destruct (truthy (terminoExistencia a)); [exact Hrest|].
    rewrite populate_eventos_available. cbn [bind]. eauto. }
  unfold consultar.
  destruct (capitulo a) as [[|p|p]|]; try exact Hbody;
    unfold Capitulo_findOne; cbn [available Store.capitulos read bind];
    (destruct (find _ (db_capitulos db)) as [c|]; [|eauto]);
    rewrite populate_capitulo_available; cbn [bind]; eauto.
Qed.


Lemma bind_resolved (A B : Type) (c : promise A) (k : A -> promise B) (b : B) :
  bind c k = Resolved b -> exists x, c = Resolved x /\ k x = Resolved b.
Proof. destruct c; cbn; [eauto|discriminate]. Qed.

Ltac unbind H :=
  let x := fresh "x" in
  let Hx := fresh "Hx" in
  apply bind_resolved in H; destruct H as (x & Hx & H).

(** What the guarded block resolves to is never the internal error. *)
Lemma consultar_not_internal (st : store) (a : Analisis) (r : respuesta) :
  consultar engine st a = Resolved r -> r <> Error 500 error_interno.
Proof.
  unfold consultar. intros H.
  assert (Hbody : forall r,
    match fuzzy a, truthy (terminoExistencia a) with
    | Some f, false =>
        poblado <- populate_eventos st [f] ;;
        Resolved (Resultados (Texto similar) None poblado)
    | _, _ =>
        personajeIds <- resolver_personajes engine st (personajes a) ;;
        lugarIds <- resolver_lugares engine st (lugares a) ;;
        eventosDesdeObjetos <- resolver_objetos engine st (objetos a) ;;
        if truthy (terminoExistencia a) then
          consultar_existencia engine st (o_vacio (terminoExistencia a))
        else if negb (no_vacia (regexVerbos a))
                && negb (no_vacia personajeIds)
                && negb (no_vacia lugarIds)
                && negb (no_vacia eventosDesdeObjetos)
        then Resolved (Resultados (Texto todos) None [])
        else
          let filtro :=
            construir_filtro (regexVerbos a) personajeIds lugarIds
                             eventosDesdeObjetos in
          resultados <- buscar engine st filtro ;;
          resultados <- fallbacks engine st resultados personajeIds
                                  lugarIds eventosDesdeObjetos ;;
          Resolved (Resultados (Texto todos) None resultados)
    end = Resolved r -> r <> Error 500 error_interno).
  { clear H r. intros r H.
    assert (Hrest : forall r,
      (personajeIds <- resolver_personajes engine st (personajes a) ;;
       lugarIds <- resolver_lugares engine st (lugares a) ;;
       eventosDesdeObjetos <- resolver_objetos engine st (objetos a) ;;
       if truthy (terminoExistencia a) then
         consultar_existencia engine st (o_vacio (terminoExistencia a))
       else if negb (no_vacia (regexVerbos a))
               && negb (no_vacia personajeIds)
               && negb (no_vacia lugarIds)
               && negb (no_vacia eventosDesdeObjetos)
       then Resolved (Resultados (Texto todos) None [])
       else
         let filtro :=
           construir_filtro (regexVerbos a) personajeIds lugarIds
                            eventosDesdeObjetos in
         resultados <- buscar engine st filtro ;;
         resultados <- fallbacks engine st resultados personajeIds
                                 lugarIds eventosDesdeObjetos ;;
         Resolved (Resultados (Texto todos) None resultados)) = Resolved r ->
      r <> Error 500 error_interno).
    { clear H r. intros r H. unbind H. unbind H. unbind H.
      destruct (truthy (terminoExistencia a)).
      - unfold consultar_existencia in H. unbind H. unbind H.
        injection H as <-. discriminate.
      - destruct (_ && _) in H; [injection H as <-; discriminate|].
        cbv zeta in H. unbind H. unbind H. injection H as <-. discriminate. }
    destruct (fuzzy a) as [f|]; [|exact (Hrest r H)].
    destruct (truthy (terminoExistencia a)); [exact (Hrest r H)|].
    unbind H. injection H as <-. discriminate. }
  destruct (capitulo a) as [[|p|p]|]; try exact (Hbody r H);
    unbind H; (destruct x as [c|]; [unbind H|]); injection H as <-; discriminate.
Qed.


Lemma NoDup_map_injective (A B : Type) (f : A -> B) (l : list A) :
  NoDup (map f l) -> forall x y, In x l -> In y l -> f x = f y -> x = y.
Proof.
  induction l as [|z l IH]; intros Hnd x y Hx Hy Hf; [contradiction|].
  cbn [map] in Hnd. inversion Hnd as [|? ? Hnotin Hnd']; subst.
  destruct Hx as [<-|Hx], Hy as [<-|Hy].
  - reflexivity.
  - exfalso. apply Hnotin. rewrite Hf. now apply in_map.
  - exfalso. apply Hnotin. rewrite <- Hf. now apply in_map.
  - now apply IH.
Qed.

(** Selecting by the identifiers of the selected documents selects the same
    documents when identifiers are unique. *)
Lemma filter_by_ids (p : Evento.t -> bool) (l : list Evento.t) :
  NoDup (map Evento._id l) ->
  filter (fun e => mem (Evento._id e) (map Evento._id (filter p l))) l
  = filter p l.
Proof.
  intros Hnd. apply filter_ext_in. intros e He.
  destruct (p e) eqn:Ep.
  - unfold mem. apply existsb_exists. exists (Evento._id e). split.
    + apply in_map, filter_In. auto.
    + apply N.eqb_refl.
  - destruct (mem _ _) eqn:Em; [|reflexivity]. exfalso.
    unfold mem in Em. apply existsb_exists in Em as (i & Hi & Heq).
    apply N.eqb_eq in Heq. subst i.
    apply in_map_iff in Hi as (e' & Hid & He').
    apply filter_In in He' as [He' Hp'].
    rewrite (NoDup_map_injective _ _ Hnd e' e He' He Hid) in Hp'. congruence.
Qed.


End Externals.





(** A question that mentions Úrsula, who takes part in no event, and Macondo,
    where two events happen. *)
Lemma fallback_cascade_witness :
  consultar motor (available sin_objetos) ursula_en_macondo
  = Resolved (Resultados (Texto todos) None []).
Proof.
  exact (@fallback_cascade motor sin_objetos ursula_en_macondo [1] [10] []
           (or_introl eq_refl) eq_refl eq_refl
           ltac:(vm_compute; reflexivity) ltac:(vm_compute; reflexivity)
           ltac:(vm_compute; reflexivity) eq_refl
           ltac:(vm_compute; reflexivity)).
Defined.

(** C1 as stated fails: the fallback by characters is chosen because a
    character was resolved, it finds nothing, and the fallback by places,
    which would find two events, is not tried. *)
Lemma fallback_not_first_nonempty :
  get sin_cambios motor (available sin_objetos)
      (Some (js "¿Dónde vivió Úrsula en Macondo?"))
  = Responde (Resultados (Texto todos) None [])
  /\ (forall engine,
        fallbacks engine (available sin_objetos) [] [1] [10] [] = Resolved [])
  /\ (forall engine,
        buscar engine (available sin_objetos) (LugarIn [10])
        = Resolved [poblar sin_objetos fundacion; poblar sin_objetos guerra_civil]).
Proof.
  split; [vm_compute; reflexivity|].
  split; intros engine; reflexivity.
Qed.


End Planner.

(** ** The existence detector *)
Module Existencia.
Import JS RegExp Store NlpProcessor.
Local Open Scope N_scope.

(** C4.  The code at the failing input: for ["¿Existen dragones?"] the
    optional group [(n)?] takes part in the match, [m[1] || m[2]] picks its
    ["n"], and the detector returns ["n"], not the term ["dragones"]. *)
Theorem existen_returns_n :
  detectarExistencia (js "¿Existen dragones?") = Some (js "n").
Proof. vm_compute. reflexivity. Qed.

(** The two examples of the specification hold. *)
Lemma hubo_alguna_guerra :
  detectarExistencia (js "¿Hubo alguna guerra?") = Some (js "guerra").
Proof. vm_compute. reflexivity. Qed.

Lemma que_paso : detectarExistencia (js "¿Qué pasó?") = None.
Proof. vm_compute. reflexivity. Qed.

(** Without the [n] the same templates return the term. *)
Lemma existe_returns_term :
  detectarExistencia (js "¿Existe alguna peste?") = Some (js "peste")
  /\ detectarExistencia (js "¿Existe Macondo?") = Some (js "macondo").
Proof. split; vm_compute; reflexivity. Qed.

End Existencia.

(** ** The entity matcher *)
Module Entidades.
Import JS RegExp Store NlpProcessor Ejemplos.
Local Open Scope N_scope.

Lemma starts_with_prefix (sub s : jsstring) :
  starts_with s sub = true <-> exists post, s = sub ++ post.
Proof.
  revert s. induction sub as [|v sub IH]; intros s.
  - destruct s; cbn; split; eauto.
  - destruct s as [|u s]; cbn [starts_with].
    + split; [discriminate|]. intros [post H]. discriminate H.
    + rewrite andb_true_iff, N.eqb_eq, IH. split.
      * intros [-> [post ->]]. exists post. reflexivity.
      * intros [post H]. cbn [app] in H. injection H as -> ->.
        split; [reflexivity|]. exists post. reflexivity.
Qed.

(** [includes] decides the occurrence of a substring. *)
Lemma includes_substring (sub s : jsstring) :
  includes s sub = true <-> substring sub s.
Proof.
  unfold substring. induction s as [|u s IH].
  - cbn [includes]. rewrite orb_false_r, starts_with_prefix. split.
    + intros [post H]. exists [], post. exact H.
    + intros (pre & post & H). destruct pre; [eauto|discriminate H].
  - cbn [includes]. rewrite orb_true_iff, starts_with_prefix, IH. split.
    + intros [[post H] | (pre & post & H)].
      * exists [], post. exact H.
      * exists (u :: pre), post. cbn [app]. now rewrite H.
    + intros (pre & post & H). destruct pre as [|v pre].
      * left. eauto.
      * right. cbn [app] in H. injection H as _ H. eauto.
Qed.

Lemma is_empty_false (s : jsstring) : is_empty s = false <-> s <> [].
Proof. destruct s; cbn; split; congruence. Qed.

(** [matchFlexible] decides [menciona]. *)
Lemma matchFlexible_menciona (entidadNormal textoNormal : jsstring) :
  matchFlexible entidadNormal textoNormal = true
  <-> menciona entidadNormal textoNormal.
Proof.
  unfold matchFlexible, menciona.
  destruct (is_empty entidadNormal) eqn:Ee.
  { cbn [orb]. destruct entidadNormal; [|discriminate Ee].
    split; [discriminate|]. intros [H _]. congruence. }
  destruct (is_empty textoNormal) eqn:Et.
  { cbn [orb]. destruct textoNormal; [|discriminate Et].
    split; [discriminate|]. intros (_ & H & _). congruence. }
  cbn [orb]. apply is_empty_false in Ee, Et.
  destruct (includes textoNormal entidadNormal) eqn:Ei.
  - apply includes_substring in Ei. tauto.
  - cbv zeta. rewrite existsb_exists. split.
    + intros (parte & Hin & Hinc). apply includes_substring in Hinc. eauto 10.
    + intros (_ & _ & [H | (parte & Hin & Hsub)]).
      * apply includes_substring in H. congruence.
      * exists parte. split; [exact Hin|]. now apply includes_substring.
Qed.

(** C6, as the code has it.  A character is reported when its folded name
    without the parentheticals is mentioned by the question, or when its
    folded alias is: in both cases by occurring in it as a whole or through
    one of its white-space-delimited pieces, the entity and the question being
    non-empty.  What is reported is the stored name, trimmed.  A place or an
    object is reported when its folded name is mentioned in the same sense;
    what is reported is the stored name as it is. *)
Theorem entity_matcher (personajesBD : list Personaje.t)
    (lugaresBD : list Lugar.t) (objetosBD : list Objeto.t)
    (textoNorm x : jsstring) :
  (In x (detectar_personajes personajesBD textoNorm)
   <-> exists p, In p personajesBD
                 /\ x = trim (Personaje.nombre p)
                 /\ (menciona (fst (extraerAlias (Personaje.nombre p))) textoNorm
                     \/ exists a, snd (extraerAlias (Personaje.nombre p)) = Some a
                                  /\ menciona a textoNorm))
  /\ (In x (detectar_lugares lugaresBD textoNorm)
      <-> exists l, In l lugaresBD
                    /\ x = Lugar.nombre l
                    /\ menciona (limpiarTexto (Lugar.nombre l)) textoNorm)
  /\ (In x (detectar_objetos objetosBD textoNorm)
      <-> exists o, In o objetosBD
                    /\ x = Objeto.nombre o
                    /\ menciona (limpiarTexto (Objeto.nombre o)) textoNorm).
Proof.
  split; [|split].
  - unfold detectar_personajes. rewrite in_map_iff.
    assert (Hm : forall p,
               menciona_personaje textoNorm p = true
               <-> (menciona (fst (extraerAlias (Personaje.nombre p))) textoNorm
                    \/ exists a, snd (extraerAlias (Personaje.nombre p)) = Some a
                                 /\ menciona a textoNorm)).
    { intros p. unfold menciona_personaje.
      destruct (extraerAlias (Personaje.nombre p)) as [nombre alias].
      cbn [fst snd]. rewrite orb_true_iff, andb_true_iff, matchFlexible_menciona.
      split.
      - intros [H | [Ht H]]; [now left|]. right.
        destruct alias as [a|]; [|discriminate H].
        exists a. split; [reflexivity|]. now apply matchFlexible_menciona.
      - intros [H | (a & -> & H)]; [now left|]. right.
        split; [|now apply matchFlexible_menciona].
        destruct H as (Ha & _). destruct a; [congruence|reflexivity]. }
    split.
    + intros (p & <- & Hp). apply filter_In in Hp as [Hin Hp].
      exists p. split; [exact Hin|]. split; [reflexivity|]. now apply Hm.
    + intros (p & Hin & -> & Hp). exists p. split; [reflexivity|].
      apply filter_In. split; [exact Hin|]. now apply Hm.
  - unfold detectar_lugares. rewrite in_map_iff. split.
    + intros ([orig normal] & <- & H). apply filter_In in H as [Hin Hm].
      apply in_map_iff in Hin as (l & Heq & Hl). injection Heq as <- <-.
      cbn [fst snd] in *. exists l. split; [exact Hl|]. split; [reflexivity|].
      now apply matchFlexible_menciona.
    + intros (l & Hl & -> & Hm).
      exists (Lugar.nombre l, limpiarTexto (Lugar.nombre l)).
      split; [reflexivity|]. apply filter_In. split.
      * apply in_map_iff. eauto.
      * cbn [snd]. now apply matchFlexible_menciona.
  - unfold detectar_objetos. rewrite in_map_iff. split.
    + intros ([orig normal] & <- & H). apply filter_In in H as [Hin Hm].
      apply in_map_iff in Hin as (o & Heq & Ho). injection Heq as <- <-.
      cbn [fst snd] in *. exists o. split; [exact Ho|]. split; [reflexivity|].
      now apply matchFlexible_menciona.
    + intros (o & Ho & -> & Hm).
      exists (Objeto.nombre o, limpiarTexto (Objeto.nombre o)).
      split; [reflexivity|]. apply filter_In. split.
      * apply in_map_iff. eauto.
      * cbn [snd]. now apply matchFlexible_menciona.
Qed.

(** C6 as stated fails twice.  José Arcadio is reported for a question that
    contains neither his folded name, nor his folded alias, nor a piece of his
    name: the piece ["el"] of the alias is enough.  And a place stored with a
    leading space is reported with that space. *)
Lemma alias_piece_and_untrimmed_place :
  detectar_personajes [jose_arcadio] (js "quien fundo el pueblo")
  = [js "José Arcadio (el Grande)"]
  /\ extraerAlias (Personaje.nombre jose_arcadio)
     = (js "jose arcadio", Some (js "el grande"))
  /\ includes (js "quien fundo el pueblo") (js "jose arcadio") = false
  /\ includes (js "quien fundo el pueblo") (js "el grande") = false
  /\ existsb (includes (js "quien fundo el pueblo"))
             (split re_spaces (js "jose arcadio")) = false
  /\ detectar_lugares [macondo_con_espacio] (js "donde queda macondo")
     = [js " Macondo"]
  /\ trim (js " Macondo") <> js " Macondo".
Proof.
  repeat split; try (vm_compute; reflexivity).
  vm_compute. discriminate.
Qed.

End Entidades.

(** ** Splitting on white space *)
Module Piezas.
Import JS RegExp Store NlpProcessor RegExpFacts.
Local Open Scope N_scope.

(** A greedy repetition before a continuation that always succeeds takes the
    whole run. *)
Lemma star_greedy_all (p : N -> bool) (s : jsstring) (prev : option N) (cs : caps) :
  star_greedy p (fun _ s' cs' => Some (s', cs')) prev s cs
  = Some (drop_while p s, cs).
Proof.
  revert prev. induction s as [|u s IH]; intros prev; cbn [star_greedy drop_while];
    [reflexivity|].
  destruct (p u); [|reflexivity]. now rewrite IH.
Qed.

Lemma drop_while_length (s : jsstring) :
  (length s - length (drop_while is_space s) = leading s)%nat.
Proof.
  induction s as [|u s IH]; cbn [drop_while leading length]; [reflexivity|].
  destruct (is_space u).
  - assert (length (drop_while is_space s) <= length s)%nat.
    { clear. induction s as [|v s IH]; cbn [drop_while length]; [lia|].
      destruct (is_space v); cbn [length]; lia. }
    lia.
  - cbn [length]. lia.
Qed.

Lemma match_at_spaces (idx : nat) (prev : option N) (s : jsstring) :
  match_at re_spaces idx prev s =
  match s with
  | u :: s' =>
      if is_space u then
        Some {| m_index := idx;
                m_text := firstn (S (leading s')) (u :: s');
                m_rest := drop_while is_space s';
                m_caps := [] |}
      else None
  | [] => None
  end.
Proof.
  unfold match_at, re_spaces, plus. cbn [run].
  destruct s as [|u s']; [reflexivity|].
  destruct (is_space u); [|reflexivity].
  rewrite star_greedy_all.
  replace (length (u :: s') - length (drop_while is_space s'))%nat
    with (S (leading s')); [reflexivity|].
  rewrite <- drop_while_length. cbn [length].
  assert (length (drop_while is_space s') <= length s')%nat.
  { clear. induction s' as [|v s IH]; cbn [drop_while length]; [lia|].
    destruct (is_space v); cbn [length]; lia. }
  lia.
Qed.

Lemma leading_le (s : jsstring) : (leading s <= length s)%nat.
Proof.
  induction s as [|u s IH]; cbn [leading length]; [lia|].
  destruct (is_space u); lia.
Qed.

Lemma split_go_piezas (s : jsstring) :
  (forall prev acc, split_go re_spaces 0 prev acc s = piezas false acc s)
  /\ (forall prev, split_go re_spaces (leading s) prev [] s = piezas true [] s).
Proof.
  induction s as [|u s [IH0 IHk]].
  - split; reflexivity.
  - assert (H0 : forall prev acc,
               split_go re_spaces 0 prev acc (u :: s) = piezas false acc (u :: s)).
    { intros prev acc. cbn [split_go piezas]. rewrite match_at_spaces.
      destruct (is_space u).
      - cbn [m_text]. rewrite length_firstn.
        replace (Nat.min (S (leading s)) (length (u :: s))) with (S (leading s))
          by (pose proof (leading_le s); cbn [length]; lia).
        now rewrite IHk.
      - apply IH0. }
    split; [exact H0|].
    intros prev. cbn [leading]. destruct (is_space u) eqn:E.
    + cbn [split_go piezas]. rewrite E. apply IHk.
    + rewrite H0. cbn [piezas]. rewrite E. reflexivity.
Qed.

(** [split] on runs of white space is [piezas]. *)
Lemma split_spaces (s : jsstring) : split re_spaces s = piezas false [] s.
Proof.
  unfold split. destruct s as [|u s].
  - now rewrite match_at_spaces.
  - apply split_go_piezas.
Qed.

Lemma piezas_not_nil (b : bool) (acc s : jsstring) : piezas b acc s <> [].
Proof.
  revert b acc. induction s as [|u s IH]; intros b acc; cbn [piezas];
    [discriminate|].
  destruct (is_space u); [destruct b; [apply IH|discriminate]|apply IH].
Qed.

Lemma split_not_nil (s : jsstring) : split re_spaces s <> [].
Proof. rewrite split_spaces. apply piezas_not_nil. Qed.

Lemma space_32 : is_space 32 = true.
Proof. reflexivity. Qed.

(** After a text that does not end in white space, a space closes the last
    piece: the pieces of the text are the first pieces of the longer text. *)
Lemma piezas_app_space (t d : jsstring) :
  sin_espacio_final t ->
  forall b acc,
    (t = [] -> b = false) ->
    piezas b acc (t ++ 32 :: d) = piezas b acc t ++ piezas true [] d.
Proof.
  induction t as [|u t IH]; intros Hend b acc Hb.
  - rewrite (Hb eq_refl). reflexivity.
  - cbn [app piezas].
    assert (Hend' : sin_espacio_final t).
    { unfold sin_espacio_final in *. cbn [rev] in Hend.
      destruct (rev t) as [|v r]; [exact I|exact Hend]. }
    destruct (is_space u) eqn:E.
    + assert (Ht : t <> []).
      { intros ->. unfold sin_espacio_final in Hend. cbn in Hend. congruence. }
      destruct b.
      * apply IH; [exact Hend'|]. intros ->. congruence.
      * cbn [app]. f_equal. apply IH; [exact Hend'|]. intros ->. congruence.
    + apply IH; [exact Hend'|reflexivity].
Qed.

Lemma split_app_space (t d : jsstring) :
  sin_espacio_final t ->
  incl (split re_spaces t) (split re_spaces (t ++ 32 :: d)).
Proof.
  intros Hend. rewrite !split_spaces.
  rewrite (@piezas_app_space t d Hend false [] (fun _ => eq_refl)).
  apply incl_appl, incl_refl.
Qed.

End Piezas.

(** ** The fold *)
Module Fold.
Import JS RegExp Store NlpProcessor RegExpFacts.
Local Open Scope N_scope.

Lemma limpiarTexto_filter (s : jsstring) :
  limpiarTexto s
  = filter (fun d => negb (es_marca d)) (normalizeNFD (toLowerCase s)).
Proof. unfold limpiarTexto, re_marks. apply replace_all_delete. Qed.

(** *** A space separates *)

Lemma decode_app_space_n (n : nat) :
  forall a b, (length a <= n)%nat ->
    utf16_decode (a ++ 32 :: b) = utf16_decode a ++ 32 :: utf16_decode b.
Proof.
  induction n as [|n IH]; intros a b Hlen.
  - destruct a; [|cbn in Hlen; lia]. cbn [app utf16_decode].
    destruct b; reflexivity.
  - destruct a as [|u [|v a]].
    + cbn [app utf16_decode]. destruct b; reflexivity.
    + cbn [app utf16_decode].
      change (is_low_surrogate 32) with false. rewrite andb_false_r.
      f_equal. destruct b; reflexivity.
    + cbn [length] in Hlen.
      change (utf16_decode ((u :: v :: a) ++ 32 :: b))
        with (if is_high_surrogate u && is_low_surrogate v
              then (65536 + (u - 55296) * 1024 + (v - 56320))
                     :: utf16_decode (a ++ 32 :: b)
              else u :: utf16_decode ((v :: a) ++ 32 :: b)).
      change (utf16_decode (u :: v :: a))
        with (if is_high_surrogate u && is_low_surrogate v
              then (65536 + (u - 55296) * 1024 + (v - 56320)) :: utf16_decode a
              else u :: utf16_decode (v :: a)).
      destruct (is_high_surrogate u && is_low_surrogate v).
      * rewrite IH by lia. reflexivity.
      * rewrite IH by (cbn [length]; lia). reflexivity.
Qed.

Lemma decode_app_space (a b : jsstring) :
  utf16_decode (a ++ 32 :: b) = utf16_decode a ++ 32 :: utf16_decode b.
Proof. exact (@decode_app_space_n (length a) a b (Nat.le_refl _)). Qed.

Lemma encode_app_space (x y : list N) :
  utf16_encode (x ++ 32 :: y) = utf16_encode x ++ 32 :: utf16_encode y.
Proof. unfold utf16_encode. rewrite flat_map_app. reflexivity. Qed.

(** The Final_Sigma context does not see past a space. *)
Lemma cased_next_space (l r : list N) :
  cased_next (l ++ 32 :: r) = cased_next l.
Proof.
  unfold cased_next. induction l as [|c l IH]; [reflexivity|].
  cbn [app drop_while]. destruct (Unicode.case_ignorable c); [exact IH|reflexivity].
Qed.

Lemma lowercase_cps_before (y w r : list N) :
  lowercase_cps (w ++ 32 :: r) y = lowercase_cps w y.
Proof.
  revert w. induction y as [|c y IH]; intros w; [reflexivity|].
  cbn [lowercase_cps]. rewrite cased_next_space.
  change (c :: w ++ 32 :: r) with ((c :: w) ++ 32 :: r).
  now rewrite (IH (c :: w)).
Qed.

Lemma lowercase_cps_app_space (x y before : list N) :
  lowercase_cps before (x ++ 32 :: y)
  = lowercase_cps before x ++ 32 :: lowercase_cps [] y.
Proof.
  revert before. induction x as [|c x IH]; intros before.
  - cbn [app lowercase_cps]. change (32 =? 931) with false.
    change (Unicode.lowercase 32) with [32]. cbn [app]. f_equal.
    exact (lowercase_cps_before y [] before).
  - cbn [app lowercase_cps]. rewrite cased_next_space, IH.
    now rewrite <- app_assoc.
Qed.

Lemma toLowerCase_app_space (a b : jsstring) :
  toLowerCase (a ++ 32 :: b) = toLowerCase a ++ 32 :: toLowerCase b.
Proof.
  unfold toLowerCase.
  now rewrite decode_app_space, lowercase_cps_app_space, encode_app_space.
Qed.

Lemma insert_mark_app_space (c : N) (l r : list N) :
  insert_mark c (l ++ 32 :: r) = insert_mark c l ++ 32 :: r.
Proof.
  induction l as [|d l IH]; [reflexivity|].
  cbn [app insert_mark].
  destruct (negb (Unicode.ccc d =? 0) && (Unicode.ccc d <? Unicode.ccc c));
    [now rewrite IH|reflexivity].
Qed.

Lemma canonical_order_app_space (x y : list N) :
  canonical_order (x ++ 32 :: y) = canonical_order x ++ 32 :: canonical_order y.
Proof.
  induction x as [|c x IH]; [reflexivity|].
  cbn [app canonical_order]. rewrite IH.
  destruct (Unicode.ccc c =? 0); [reflexivity|apply insert_mark_app_space].
Qed.

Lemma normalizeNFD_app_space (a b : jsstring) :
  normalizeNFD (a ++ 32 :: b) = normalizeNFD a ++ 32 :: normalizeNFD b.
Proof.
  unfold normalizeNFD.
  rewrite decode_app_space, flat_map_app.
  change (flat_map Unicode.decomposition (32 :: utf16_decode b))
    with (32 :: flat_map Unicode.decomposition (utf16_decode b)).
  now rewrite canonical_order_app_space, encode_app_space.
Qed.

(** The fold works on each side of a space separately. *)
Lemma limpiarTexto_app_space (a b : jsstring) :
  limpiarTexto (a ++ 32 :: b) = limpiarTexto a ++ 32 :: limpiarTexto b.
Proof.
  rewrite !limpiarTexto_filter, toLowerCase_app_space, normalizeNFD_app_space.
  rewrite filter_app. reflexivity.
Qed.

(** *** Code units the fold treats one by one *)

Lemma decode_plain (x : jsstring) :
  Forall (fun u => (u <? 55296) = true) x -> utf16_decode x = x.
Proof.
  induction x as [|u x IH]; intros H; [reflexivity|].
  inversion H as [|? ? Hu Hx]; subst. cbn [utf16_decode].
  assert (Hh : is_high_surrogate u = false).
  { unfold is_high_surrogate. apply N.ltb_lt in Hu.
    destruct (N.leb_spec 55296 u); [lia|reflexivity]. }
  rewrite Hh. cbn [andb]. destruct x as [|v x]; [reflexivity|].
  now rewrite (IH Hx).
Qed.

Lemma encode_plain (l : list N) :
  Forall (fun u => (u <? 55296) = true) l -> utf16_encode l = l.
Proof.
  unfold utf16_encode. induction l as [|c l IH]; intros H; [reflexivity|].
  inversion H as [|? ? Hc Hl]; subst. cbn [flat_map].
  unfold utf16_encode_cp at 1.
  assert (Hb : (c <? 65536) = true)
    by (apply N.ltb_lt in Hc; apply N.ltb_lt; lia).
  rewrite Hb. cbn [app]. now rewrite (IH Hl).
Qed.

Lemma lowercase_cps_plain (x before : list N) :
  Forall (fun u => (u =? 931) = false) x ->
  lowercase_cps before x = flat_map Unicode.lowercase x.
Proof.
  revert before. induction x as [|c x IH]; intros before H; [reflexivity|].
  inversion H as [|? ? Hc Hx]; subst. cbn [lowercase_cps flat_map].
  now rewrite Hc, (IH _ Hx).
Qed.

Lemma filter_insert_mark (c : N) (l : list N) :
  es_marca c = true ->
  filter (fun d => negb (es_marca d)) (insert_mark c l)
  = filter (fun d => negb (es_marca d)) l.
Proof.
  intros Hc. induction l as [|d l IH]; cbn [insert_mark filter].
  - now rewrite Hc.
  - destruct (negb (Unicode.ccc d =? 0) && (Unicode.ccc d <? Unicode.ccc c)).
    + cbn [filter]. now rewrite IH.
    + cbn [filter]. now rewrite Hc.
Qed.

(** Reordering the marks does not show once the marks are removed, when
    every mark of the text is one of those removed. *)
Lemma filter_canonical_order (l : list N) :
  Forall (fun d => ((Unicode.ccc d =? 0) || es_marca d) = true) l ->
  filter (fun d => negb (es_marca d)) (canonical_order l)
  = filter (fun d => negb (es_marca d)) l.
Proof.
  induction l as [|c l IH]; intros H; [reflexivity|].
  inversion H as [|? ? Hc Hl]; subst. cbn [canonical_order].
  destruct (Unicode.ccc c =? 0) eqn:E.
  - cbn [filter]. now rewrite (IH Hl).
  - cbn [orb] in Hc. rewrite (@filter_insert_mark c (canonical_order l) Hc), (IH Hl).
    cbn [filter]. now rewrite Hc.
Qed.

Lemma Forall_insert_mark (P : N -> Prop) (c : N) (l : list N) :
  P c -> Forall P l -> Forall P (insert_mark c l).
Proof.
  intros Hc. induction l as [|d l IH]; intros H; cbn [insert_mark].
  - now constructor.
  - inversion H; subst.
    destruct (negb (Unicode.ccc d =? 0) && (Unicode.ccc d <? Unicode.ccc c));
      constructor; auto.
Qed.

Lemma Forall_canonical_order (P : N -> Prop) (l : list N) :
  Forall P l -> Forall P (canonical_order l).
Proof.
  induction l as [|c l IH]; intros H; [constructor|].
  inversion H; subst. cbn [canonical_order].
  destruct (Unicode.ccc c =? 0); [constructor; auto|].
  apply Forall_insert_mark; auto.
Qed.

Lemma filter_flat_map (A B : Type) (p : B -> bool) (f : A -> list B) (l : list A) :
  filter p (flat_map f l) = flat_map (fun a => filter p (f a)) l.
Proof.
  induction l as [|a l IH]; [reflexivity|].
  cbn [flat_map]. now rewrite filter_app, IH.
Qed.

Lemma simple_facts (u : N) :
  simple u = true ->
  (u <? 55296) = true /\ (u =? 931) = false
  /\ Forall (fun l => (l <? 55296) = true) (Unicode.lowercase u)
  /\ Forall (fun d => (d <? 55296) = true
                      /\ ((Unicode.ccc d =? 0) || es_marca d) = true)
            (flat_map Unicode.decomposition (Unicode.lowercase u)).
Proof.
  unfold simple. rewrite !andb_true_iff, negb_true_iff, forallb_forall.
  intros [[H1 H2] H3]. repeat split; [exact H1|exact H2| |].
  - apply Forall_forall. intros l Hl.
    specialize (H3 l Hl). now apply andb_true_iff in H3.
  - apply Forall_forall. intros d Hd.
    apply in_flat_map in Hd as (l & Hl & Hd).
    specialize (H3 l Hl). apply andb_true_iff in H3 as [_ H3].
    rewrite forallb_forall in H3. specialize (H3 d Hd).
    now apply andb_true_iff in H3.
Qed.

(** On a text of simple code units the fold is the fold of each code unit. *)
Lemma limpiarTexto_simple (x : jsstring) :
  Forall (fun u => simple u = true) x ->
  limpiarTexto x = flat_map limpiar_unidad x.
Proof.
  intros H.
  assert (H1 : Forall (fun u => (u <? 55296) = true) x).
  { eapply Forall_impl; [|exact H]. intros u Hu. apply (simple_facts u Hu). }
  assert (H2 : Forall (fun u => (u =? 931) = false) x).
  { eapply Forall_impl; [|exact H]. intros u Hu. apply (simple_facts u Hu). }
  assert (H3 : Forall (fun l => (l <? 55296) = true) (flat_map Unicode.lowercase x)).
  { apply Forall_flat_map. eapply Forall_impl; [|exact H].
    intros u Hu. apply (simple_facts u Hu). }
  assert (H4 : Forall (fun d => (d <? 55296) = true
                               /\ ((Unicode.ccc d =? 0) || es_marca d) = true)
                      (flat_map Unicode.decomposition (flat_map Unicode.lowercase x))).
  { clear H1 H2 H3. induction H as [|u x Hu Hx IH]; [constructor|].
    cbn [flat_map]. rewrite flat_map_app. apply Forall_app. split; [|exact IH].
    apply (simple_facts u Hu). }
  rewrite limpiarTexto_filter. unfold toLowerCase, normalizeNFD.
  rewrite (@decode_plain x H1), (@lowercase_cps_plain x [] H2),
          (@encode_plain _ H3), (@decode_plain _ H3).
  rewrite encode_plain.
  2:{ apply Forall_canonical_order. eapply Forall_impl; [|exact H4]. now intros d [Hd _]. }
  rewrite filter_canonical_order.
  2:{ eapply Forall_impl; [|exact H4]. now intros d [_ Hd]. }
  unfold limpiar_unidad. clear.
  induction x as [|u x IHx]; [reflexivity|].
  cbn [flat_map]. now rewrite flat_map_app, filter_app, IHx.
Qed.


Lemma latinas_check :
  forallb (fun u => simple u && forallb estable (limpiar_unidad u)) latinas = true.
Proof. vm_compute. reflexivity. Qed.

Lemma latinas_In (u : N) : u < 880 -> In u latinas.
Proof.
  intros H. unfold latinas. rewrite <- (N2Nat.id u). apply in_map.
  apply in_seq. lia.
Qed.




End Fold.

(** ** The fuzzy ranker *)
Module Ranker.
Import JS RegExp Store NlpProcessor Preguntas Ejemplos RegExpFacts Piezas Fold.
Local Open Scope N_scope.

Lemma has_In (set : list jsstring) (x : jsstring) : has set x = true <-> In x set.
Proof.
  unfold has. rewrite existsb_exists. split.
  - intros (y & Hy & E). destruct (eqb_spec x y); [now subst|discriminate].
  - intros H. exists x. split; [exact H|]. now destruct (eqb_spec x x).
Qed.

(** [new Set(l)] has the elements of [l], each once. *)
Lemma new_Set_acc (l acc : list jsstring) :
  NoDup acc ->
  NoDup (fold_left (fun acc x => if existsb (JS.eqb x) acc then acc else acc ++ [x]) l acc)
  /\ forall x,
       In x (fold_left (fun acc x => if existsb (JS.eqb x) acc then acc else acc ++ [x]) l acc)
       <-> In x acc \/ In x l.
Proof.
  revert acc. induction l as [|y l IH]; intros acc Hnd; cbn [fold_left].
  - split; [exact Hnd|]. intros x. cbn. tauto.
  - destruct (existsb (JS.eqb y) acc) eqn:E.
    + destruct (IH acc Hnd) as [H1 H2]. split; [exact H1|].
      intros x. rewrite H2. cbn [In]. split; [tauto|].
      intros [H | [<- | H]]; auto. left. now apply has_In.
    + assert (Hy : ~ In y acc).
      { intros H. apply has_In in H. unfold has in H. congruence. }
      assert (Hnd' : NoDup (acc ++ [y])).
      { apply NoDup_app; [exact Hnd|repeat constructor; intros []|].
        intros x Hx [<- | []]. contradiction. }
      destruct (IH (acc ++ [y]) Hnd') as [H1 H2]. split; [exact H1|].
      intros x. rewrite H2, in_app_iff. cbn [In]. tauto.
Qed.

Lemma new_Set_NoDup (l : list jsstring) : NoDup (new_Set l).
Proof. apply (@new_Set_acc l [] (NoDup_nil jsstring)). Qed.

Lemma new_Set_In (l : list jsstring) (x : jsstring) : In x (new_Set l) <-> In x l.
Proof.
  unfold new_Set. rewrite (proj2 (@new_Set_acc l [] (NoDup_nil jsstring))).
  cbn. tauto.
Qed.

Lemma Zpos_of_nat (n : nat) : (n <> 0)%nat -> Zpos (Pos.of_nat n) = Z.of_nat n.
Proof.
  intros H. rewrite <- positive_nat_Z. now rewrite Nat2Pos.id.
Qed.

(** The score is a fraction of the distinct pieces of the question. *)
Lemma score_le_1 (a b : jsstring) : (calcularScore a b <= 1)%Q.
Proof.
  unfold calcularScore, Qle. cbn [Qnum Qden]. rewrite Z.mul_1_r, Z.mul_1_l.
  rewrite Zpos_of_nat by lia.
  apply Nat2Z.inj_le.
  pose proof (filter_length_le (fun p => has (new_Set (split re_spaces b)) p)
                               (new_Set (split re_spaces a))).
  lia.
Qed.

Lemma score_1 (a b : jsstring) :
  split re_spaces a <> [] ->
  incl (split re_spaces a) (split re_spaces b) ->
  (calcularScore a b == 1)%Q.
Proof.
  intros Hne Hincl. unfold calcularScore, Qeq. cbn [Qnum Qden].
  rewrite Z.mul_1_r, Z.mul_1_l, Zpos_of_nat by lia.
  assert (Hall : filter (fun p => has (new_Set (split re_spaces b)) p)
                        (new_Set (split re_spaces a))
                 = new_Set (split re_spaces a)).
  { apply forallb_filter_id. apply forallb_forall. intros x Hx.
    apply (proj2 (has_In _ _)), (proj2 (new_Set_In _ _)), Hincl,
          (proj1 (new_Set_In _ _)), Hx. }
  rewrite Hall.
  assert (Hpos : (length (new_Set (split re_spaces a)) <> 0)%nat).
  { destruct (split re_spaces a) as [|p ps] eqn:E; [congruence|].
    assert (Hin : In p (new_Set (p :: ps))) by (apply new_Set_In; now left).
    destruct (new_Set (p :: ps)); [contradiction|discriminate]. }
  f_equal. lia.
Qed.

(** *** The stable sort and its first element *)

Lemma insertar_not_nil (x : Evento.t * Q) (l : list (Evento.t * Q)) :
  insertar x l <> [].
Proof.
  destruct l as [|y l]; cbn; [discriminate|].
  destruct (Qlt_le_dec (snd x) (snd y)); discriminate.
Qed.

(** The first element after sorting is the first of the elements of
    greatest score. *)
Lemma ordenar_head (l : list (Evento.t * Q)) (top : Evento.t * Q)
    (rest : list (Evento.t * Q)) :
  ordenar l = top :: rest ->
  exists l1 l2,
    l = l1 ++ top :: l2
    /\ (forall x, In x l1 -> (snd x < snd top)%Q)
    /\ (forall x, In x l2 -> (snd x <= snd top)%Q).
Proof.
  revert top rest. induction l as [|x l IH]; intros top rest H; [discriminate|].
  change (ordenar (x :: l)) with (insertar x (ordenar l)) in H.
  destruct (ordenar l) as [|y r] eqn:E.
  - destruct l as [|z l].
    + cbn in H. injection H as <- <-. exists [], []. repeat split; intros ? [].
    + change (ordenar (z :: l)) with (insertar z (ordenar l)) in E.
      now apply insertar_not_nil in E.
  - destruct (IH y r eq_refl) as (l1 & l2 & -> & H1 & H2).
    cbn [insertar] in H. destruct (Qlt_le_dec (snd x) (snd y)) as [Hlt | Hle].
    + injection H as <- <-. exists (x :: l1), l2. repeat split.
      * intros z [<- | Hz]; auto.
      * exact H2.
    + injection H as <- <-. exists [], (l1 ++ y :: l2). repeat split.
      * intros ? [].
      * intros z Hz. apply in_app_iff in Hz as [Hz | [<- | Hz]].
        -- apply Qlt_le_weak. apply Qlt_le_trans with (snd y); auto.
        -- exact Hle.
        -- apply Qle_trans with (snd y); auto.
Qed.

Lemma candidatos_map (texto : jsstring) (evs : list Evento.t) :
  candidatos texto evs = ordenar (map (fun e => (e, puntaje texto e)) evs).
Proof. reflexivity. Qed.

Lemma map_split_at (A B : Type) (f : A -> B) (l : list A) (l1 l2 : list B) (b : B) :
  map f l = l1 ++ b :: l2 ->
  exists k1 a k2, l = k1 ++ a :: k2 /\ map f k1 = l1 /\ f a = b /\ map f k2 = l2.
Proof.
  revert l. induction l1 as [|c l1 IH]; intros l H.
  - destruct l as [|a l]; [discriminate|]. injection H as H1 H2.
    exists [], a, l. auto.
  - destruct l as [|a l]; [discriminate|]. injection H as H1 H2.
    destruct (IH l H2) as (k1 & a' & k2 & -> & <- & <- & <-).
    exists (a :: k1), a', k2. cbn. rewrite H1. auto.
Qed.

(** What [elegir] answers: the first event of greatest score when that
    score exceeds one fifth. *)
Lemma elegir_some (texto : jsstring) (evs : list Evento.t) (e : Evento.t) :
  elegir texto evs = Some e ->
  exists l1 l2,
    evs = l1 ++ e :: l2
    /\ (forall x, In x l1 -> (puntaje texto x < puntaje texto e)%Q)
    /\ (forall x, In x l2 -> (puntaje texto x <= puntaje texto e)%Q)
    /\ (1 # 5 < puntaje texto e)%Q.
Proof.
  unfold elegir. rewrite candidatos_map.
  destruct (ordenar _) as [|top rest] eqn:E; [discriminate|].
  destruct (Qlt_le_dec (1 # 5) (snd top)) as [Hgt|]; [|discriminate].
  intros H. injection H as <-.
  apply ordenar_head in E as (l1 & l2 & Hl & H1 & H2).
  apply map_split_at in Hl as (k1 & a & k2 & -> & <- & <- & <-).
  cbn [fst snd] in *. exists k1, k2. repeat split.
  - intros x Hx.
    exact (H1 (x, puntaje texto x) (in_map (fun e => (e, puntaje texto e)) _ _ Hx)).
  - intros x Hx.
    exact (H2 (x, puntaje texto x) (in_map (fun e => (e, puntaje texto e)) _ _ Hx)).
  - exact Hgt.
Qed.

Lemma elegir_none (texto : jsstring) (evs : list Evento.t) :
  elegir texto evs = None ->
  forall e, In e evs -> (puntaje texto e <= 1 # 5)%Q.
Proof.
  unfold elegir. rewrite candidatos_map.
  destruct (ordenar _) as [|top rest] eqn:E.
  - intros _ e He. destruct evs as [|x evs]; [contradiction|].
    cbn [map] in E.
    change (ordenar ((x, puntaje texto x) :: map (fun e => (e, puntaje texto e)) evs))
      with (insertar (x, puntaje texto x)
                     (ordenar (map (fun e => (e, puntaje texto e)) evs))) in E.
    now apply insertar_not_nil in E.
  - destruct (Qlt_le_dec (1 # 5) (snd top)) as [|Hle]; [discriminate|].
    intros _ e He.
    apply ordenar_head in E as (l1 & l2 & Hl & H1 & H2).
    assert (Hin : In (e, puntaje texto e) (l1 ++ top :: l2)).
    { rewrite <- Hl. exact (in_map (fun e => (e, puntaje texto e)) _ _ He). }
    apply in_app_iff in Hin as [Hin | [Heq | Hin]].
    + apply Qlt_le_weak, Qlt_le_trans with (snd top); [exact (H1 _ Hin)|exact Hle].
    + rewrite Heq in Hle. exact Hle.
    + apply Qle_trans with (snd top); [exact (H2 _ Hin)|exact Hle].
Qed.

Lemma has_new_Set (l : list jsstring) (x : jsstring) :
  has (new_Set l) x = has l x.
Proof.
  destruct (has l x) eqn:E.
  - apply (proj2 (has_In _ _)), (proj2 (new_Set_In _ _)), (proj1 (has_In _ _)), E.
  - destruct (has (new_Set l) x) eqn:E'; [|reflexivity].
    apply (proj1 (has_In _ _)) in E'. apply (proj1 (new_Set_In _ _)) in E'.
    apply (proj2 (has_In _ _)) in E'. rewrite E in E'. discriminate E'.
Qed.

(** A question that is the folded name of an event has all its pieces among
    those of the event. *)
Lemma puntaje_nombre (e : Evento.t) :
  sin_espacio_final (limpiarTexto (Evento.nombre e)) ->
  (puntaje (limpiarTexto (Evento.nombre e)) e == 1)%Q.
Proof.
  intros Hend. unfold puntaje. apply score_1; [apply split_not_nil|].
  change (js " ") with [32].
  change (Evento.nombre e ++ [32] ++ descripcion_o_vacio e)
    with (Evento.nombre e ++ 32 :: descripcion_o_vacio e).
  rewrite limpiarTexto_app_space. now apply split_app_space.
Qed.

(** C5, as the code has it.  The pieces of a text form a set.  The score of
    an event is the number of distinct pieces of the question that are
    pieces of the folded text [name, space, description], over the number of
    distinct pieces of the question; a piece is what lies between two runs of
    white space, the empty piece before a leading or after a trailing run
    included.  The ranker answers the first event, in the order of the store,
    among those of greatest score when that score exceeds one fifth, and
    nothing when no score does.  When the question is the folded name of an
    event and does not end in white space, that event scores 1 and the ranker
    answers an event that scores 1. *)
Theorem fuzzy_ranker (texto : jsstring) (evs : list Evento.t) :
  (forall l, NoDup (new_Set l) /\ forall x, In x (new_Set l) <-> In x l)
  /\ (forall e,
        puntaje texto e
        = Qmake
            (Z.of_nat
               (length
                  (filter
                     (fun p =>
                        has (split re_spaces
                               (limpiarTexto (Evento.nombre e ++ js " "
                                              ++ descripcion_o_vacio e))) p)
                     (new_Set (split re_spaces texto)))))
            (Pos.of_nat (Nat.max (length (new_Set (split re_spaces texto))) 1)))
  /\ (forall e,
        elegir texto evs = Some e ->
        exists l1 l2,
          evs = l1 ++ e :: l2
          /\ (forall x, In x l1 -> (puntaje texto x < puntaje texto e)%Q)
          /\ (forall x, In x l2 -> (puntaje texto x <= puntaje texto e)%Q)
          /\ (1 # 5 < puntaje texto e)%Q)
  /\ (elegir texto evs = None ->
      forall e, In e evs -> (puntaje texto e <= 1 # 5)%Q)
  /\ (forall e,
        In e evs ->
        texto = limpiarTexto (Evento.nombre e) ->
        sin_espacio_final texto ->
        (puntaje texto e == 1)%Q
        /\ exists e', elegir texto evs = Some e' /\ (puntaje texto e' == 1)%Q)
  /\ (forall compromise db q,
        buscarEventoSimilar compromise (available db) q
        = Resolved (elegir (normalizar compromise q)
                           (map proyectar (db_eventos db)))).
Proof.
  split; [intros l; split; [apply new_Set_NoDup|apply new_Set_In]|].
  split.
  { intros e. unfold puntaje, calcularScore. f_equal. f_equal. f_equal.
    apply filter_ext. intros p. apply has_new_Set. }
  split; [intros e; apply elegir_some|].
  split; [apply elegir_none|].
  split; [|reflexivity].
  intros e He -> Hend.
  pose proof (puntaje_nombre e Hend) as H1.
  split; [exact H1|].
  destruct (elegir (limpiarTexto (Evento.nombre e)) evs) as [e'|] eqn:E.
  - exists e'. split; [reflexivity|].
    apply elegir_some in E as (l1 & l2 & -> & Hl1 & Hl2 & _).
    apply Qle_antisym; [apply score_le_1|].
    apply in_app_iff in He as [He | [<- | He]].
    + apply Hl1 in He. rewrite H1 in He. now apply Qlt_le_weak.
    + rewrite H1. apply Qle_refl.
    + apply Hl2 in He. now rewrite H1 in He.
  - exfalso. pose proof (elegir_none _ _ E e He) as Hle.
    rewrite H1 in Hle. unfold Qle in Hle. cbn in Hle. lia.
Qed.

(** The question ["guerra"], the folded name of the third event of the
    sample store. *)
Lemma fuzzy_ranker_witness :
  In (proyectar guerra) (map proyectar (db_eventos novela))
  /\ js "guerra" = limpiarTexto (Evento.nombre (proyectar guerra))
  /\ sin_espacio_final (js "guerra")
  /\ (puntaje (js "guerra") (proyectar guerra) == 1)%Q
  /\ exists e', elegir (js "guerra") (map proyectar (db_eventos novela)) = Some e'
                /\ (puntaje (js "guerra") e' == 1)%Q.
Proof.
  assert (H1 : In (proyectar guerra) (map proyectar (db_eventos novela)))
    by (cbn; auto).
  assert (H2 : js "guerra" = limpiarTexto (Evento.nombre (proyectar guerra)))
    by (vm_compute; reflexivity).
  assert (H3 : sin_espacio_final (js "guerra")) by (vm_compute; reflexivity).
  split; [exact H1|]. split; [exact H2|]. split; [exact H3|].
  exact (proj1 (proj2 (proj2 (proj2 (proj2
           (fuzzy_ranker (js "guerra") (map proyectar (db_eventos novela)))))))
           (proyectar guerra) H1 H2 H3).
Defined.

(** C5 as stated fails: for the question ["Guerra"], the name of the third
    event, the ranker answers the second event, ["Guerra civil"], which also
    scores 1 and comes first in the store. *)
Lemma identical_name_not_selected :
  Evento.nombre guerra = js "Guerra"
  /\ elegir (limpiarTexto (js "Guerra")) (map proyectar (db_eventos novela))
     = Some (proyectar guerra_civil)
  /\ Evento._id (proyectar guerra_civil) <> Evento._id (proyectar guerra)
  /\ get sin_cambios motor (available novela) (Some (js "Guerra"))
     = Responde (Resultados (Texto similar) None
                   [poblar novela (proyectar guerra_civil)]).
Proof.
  split; [reflexivity|].
  split; [vm_compute; reflexivity|].
  split; [vm_compute; discriminate|].
  vm_compute. reflexivity.
Qed.

End Ranker.

(** ** The route, branch by branch *)
Module Ruta.
Import JS RegExp Store NlpProcessor Preguntas Ejemplos Ejemplos2.
Import StoreFacts EscapeFacts Verbos Planner.
Local Open Scope N_scope.

Lemma bind_cases (A B : Type) (c : promise A) (k : A -> promise B) (b : B) :
  bind c k = Resolved b -> exists x, c = Resolved x /\ k x = Resolved b.
Proof. destruct c; cbn; [eauto|discriminate]. Qed.

Ltac open_bind H :=
  let x := fresh "x" in
  let Hx := fresh "Hx" in
  apply bind_cases in H; destruct H as (x & Hx & H).

Section Externals.
Variable compromise : jsstring -> jsstring.
Variable engine : jsstring -> jsstring -> jsstring -> bool.

(** What the guarded block resolves to is a result body or the 404 of the
    second chapter lookup. *)
Lemma consultar_shape (st : store) (a : Analisis) (r : respuesta) :
  consultar engine st a = Resolved r ->
  (exists c t rs, r = Resultados c t rs)
  \/ r = Error 404 (js "Capítulo no existe").
Proof.
  unfold consultar. intros H.
  assert (Hrest : forall r,
    (personajeIds <- resolver_personajes engine st (personajes a) ;;
     lugarIds <- resolver_lugares engine st (lugares a) ;;
     eventosDesdeObjetos <- resolver_objetos engine st (objetos a) ;;
     if truthy (terminoExistencia a) then
       consultar_existencia engine st (o_vacio (terminoExistencia a))
     else if negb (no_vacia (regexVerbos a))
             && negb (no_vacia personajeIds)
             && negb (no_vacia lugarIds)
             && negb (no_vacia eventosDesdeObjetos)
     then Resolved (Resultados (Texto todos) None [])
     else
       let filtro :=
         construir_filtro (regexVerbos a) personajeIds lugarIds
                          eventosDesdeObjetos in
       resultados <- buscar engine st filtro ;;
       resultados <- fallbacks engine st resultados personajeIds
                               lugarIds eventosDesdeObjetos ;;
       Resolved (Resultados (Texto todos) None resultados)) = Resolved r ->
    exists c t rs, r = Resultados c t rs).
  { clear H r. intros r H. open_bind H. open_bind H. open_bind H.
    destruct (truthy (terminoExistencia a)).
    - unfold consultar_existencia in H. open_bind H. open_bind H.
      apply Resolved_inj in H. subst r. eauto.
    - destruct (_ && _) in H; [apply Resolved_inj in H; subst r; eauto|].
      cbv zeta in H. open_bind H. open_bind H.
      apply Resolved_inj in H. subst r. eauto. }
  assert (Hbody : forall r,
    match fuzzy a, truthy (terminoExistencia a) with
    | Some f, false =>
        poblado <- populate_eventos st [f] ;;
        Resolved (Resultados (Texto similar) None poblado)
    | _, _ =>
        personajeIds <- resolver_personajes engine st (personajes a) ;;
        lugarIds <- resolver_lugares engine st (lugares a) ;;
        eventosDesdeObjetos <- resolver_objetos engine st (objetos a) ;;
        if truthy (terminoExistencia a) then
          consultar_existencia engine st (o_vacio (terminoExistencia a))
        else if negb (no_vacia (regexVerbos a))
                && negb (no_vacia personajeIds)
                && negb (no_vacia lugarIds)
                && negb (no_vacia eventosDesdeObjetos)
        then Resolved (Resultados (Texto todos) None [])
        else
          let filtro :=
            construir_filtro (regexVerbos a) personajeIds lugarIds
                             eventosDesdeObjetos in
          resultados <- buscar engine st filtro ;;
          resultados <- fallbacks engine st resultados personajeIds
                                  lugarIds eventosDesdeObjetos ;;
          Resolved (Resultados (Texto todos) None resultados)
    end = Resolved r -> exists c t rs, r = Resultados c t rs).
  { clear H r. intros r H.
    destruct (fuzzy a) as [f|]; [|exact (Hrest r H)].
    destruct (truthy (terminoExistencia a)); [exact (Hrest r H)|].
    open_bind H. apply Resolved_inj in H. subst r. eauto. }
  destruct (capitulo a) as [[|p|p]|]; try (left; exact (Hbody r H));
    open_bind H; (destruct x as [c|]; [open_bind H|]);
    apply Resolved_inj in H; subst r; eauto 10.
Qed.

(** X1.  With a store whose reads all succeed the handler always responds,
    and never with the internal error: no name of a character, place or
    object and no form of the taxonomy makes a [RegExp] constructor throw. *)
Theorem readable_store_always_answers (db : database) (q : option jsstring) :
  exists r,
    get compromise engine (available db) q = Responde r
    /\ r <> Error 500 error_interno.
Proof.
  unfold get. destruct (option_map trim q) as [[|u q']|].
  - eexists. split; [reflexivity|discriminate].
  - destruct (exec re_capitulo (u :: q')) as [m|].
    + unfold Capitulo_findOne. cbn [available Store.capitulos read bind].
      destruct (find _ (db_capitulos db)) as [c|].
      * rewrite populate_capitulo_available. cbn [bind].
        eexists. split; [reflexivity|discriminate].
      * eexists. split; [reflexivity|discriminate].
    + rewrite analizarPregunta_available.
      match goal with
      | |- context [consultar engine (available db) ?a] =>
          destruct (consultar_available engine db a) as [r Hr];
          rewrite Hr; exists r; split; [reflexivity|];
          exact (consultar_not_internal engine (available db) a Hr)
      end.
  - eexists. split; [reflexivity|discriminate].
Qed.

Lemma drop_while_nil (p : N -> bool) (s : jsstring) :
  drop_while p s = [] <-> forallb p s = true.
Proof.
  induction s as [|u s IH]; cbn [drop_while forallb]; [tauto|].
  destruct (p u); cbn [andb]; [exact IH|]. split; discriminate.
Qed.

Lemma forallb_drop_while (p : N -> bool) (s : jsstring) :
  forallb p (drop_while p s) = true -> drop_while p s = [].
Proof.
  induction s as [|u s IH]; cbn [drop_while]; [reflexivity|].
  destruct (p u) eqn:E; [exact IH|]. cbn [forallb]. rewrite E. discriminate.
Qed.

Lemma forallb_rev (p : N -> bool) (s : jsstring) :
  forallb p (rev s) = forallb p s.
Proof.
  induction s as [|u s IH]; [reflexivity|].
  cbn [rev forallb]. rewrite forallb_app, IH. cbn [forallb].
  rewrite andb_true_r. apply andb_comm.
Qed.

(** [trim] leaves nothing exactly of the texts made of white space. *)
Lemma trim_nil (s : jsstring) : trim s = [] <-> forallb is_space s = true.
Proof.
  unfold trim, drop_while_end. split.
  - intros H. apply (f_equal (@rev N)) in H. rewrite rev_involutive in H.
    cbn [rev] in H. apply drop_while_nil in H. rewrite forallb_rev in H.
    apply forallb_drop_while in H. now apply drop_while_nil.
  - intros H. apply drop_while_nil in H. rewrite H. reflexivity.
Qed.

(** X2.  The handler answers "Falta parámetro q" with status 400, whatever
    the store, exactly when the parameter is missing or made of white space
    only. *)
Theorem missing_question (st : store) (q : option jsstring) :
  get compromise engine st q = Responde (Error 400 falta_q)
  <-> match q with
      | None => True
      | Some s => forallb is_space s = true
      end.
Proof.
  destruct q as [s|]; [|split; [trivial|reflexivity]].
  split.
  - intros H. apply trim_nil. unfold get in H. cbn [option_map] in H.
    destruct (trim s) as [|u s'] eqn:E; [reflexivity|]. exfalso.
    destruct (exec re_capitulo (u :: s')) as [m|].
    + destruct (bind _ _) as [[evs|]|e] in H; discriminate H.
    + destruct (analizarPregunta compromise st (u :: s')) as [a|e];
        [|discriminate H].
      destruct (consultar engine st a) as [r|e] eqn:Er; [|discriminate H].
      apply consultar_shape in Er as [(c & t & rs & ->) | ->]; discriminate H.
  - intros H. apply trim_nil in H. unfold get. cbn [option_map].
    now rewrite H.
Qed.

(** X3.  The reads made before the [try] block are not answered: when the
    chapters cannot be read a question that takes the chapter shortcut makes
    the handler reject, and so does any other question when the characters,
    the places or the objects cannot be read. *)
Theorem unguarded_reads_reject (st : store) (q : jsstring) :
  trim q <> [] ->
  (exec re_capitulo (trim q) <> None -> Store.capitulos st = None ->
   get compromise engine st (Some q) = Rechaza StoreUnavailable)
  /\ (exec re_capitulo (trim q) = None ->
      Store.personajes st = None \/ Store.lugares st = None
      \/ Store.objetos st = None ->
      get compromise engine st (Some q) = Rechaza StoreUnavailable).
Proof.
  intros Hq. unfold get. cbn [option_map].
  destruct (trim q) as [|u q'] eqn:E; [congruence|]. split.
  - intros Hm Hc. destruct (exec re_capitulo (u :: q')) as [m|]; [|congruence].
    unfold Capitulo_findOne. rewrite Hc. reflexivity.
  - intros -> H. unfold analizarPregunta.
    destruct (Store.personajes st) as [ps|]; [|reflexivity].
    destruct (Store.lugares st) as [ls|]; [|reflexivity].
    destruct (Store.objetos st) as [os|]; [|reflexivity].
    destruct H as [H | [H | H]]; discriminate H.
Qed.

(** X4.  When the analysis found no chapter, no similar event, no existence
    term, no verb and no entity, the answer is the empty result tagged
    ["todos"] and the store is not queried: the answer is the same when
    nothing of the store can be read. *)
Theorem nothing_detected (st : store) (a : Analisis) :
  (capitulo a = None \/ capitulo a = Some 0%Z) ->
  fuzzy a = None ->
  truthy (terminoExistencia a) = false ->
  regexVerbos a = [] ->
  personajes a = [] ->
  lugares a = [] ->
  objetos a = [] ->
  consultar engine st a = Resolved (Resultados (Texto todos) None []).
Proof.
  intros Hc Hf He Hv Hp Hl Ho. unfold consultar.
  rewrite Hf, He, Hv, Hp, Hl, Ho.
  destruct Hc as [-> | ->]; reflexivity.
Qed.

(** X5.  A chapter number read off the normalized text, other than 0, comes
    before everything else the analysis found: the answer is the events of
    the first chapter of that number, or the error 404 "Capítulo no existe"
    when there is none. *)
Theorem second_chapter_lookup (db : database) (a : Analisis) (n : Z) :
  capitulo a = Some n ->
  n <> 0%Z ->
  consultar engine (available db) a
  = Resolved
      match find (fun c => Z.eqb (Capitulo.numero c) n) (db_capitulos db) with
      | Some c =>
          Resultados (Numero n) None
            (map (poblar db) (referidos db (Capitulo.eventos c)))
      | None => Error 404 (js "Capítulo no existe")
      end.
Proof.
  intros Hc Hn. unfold consultar. rewrite Hc.
  destruct n as [|p|p]; [congruence| |];
    unfold Capitulo_findOne; cbn [available Store.capitulos read bind];
    (destruct (find _ (db_capitulos db)) as [c|]; [|reflexivity]);
    rewrite populate_capitulo_available; reflexivity.
Qed.

Lemma existsb_flat_map_pair (A B : Type) (p : B -> bool) (f g : A -> B)
    (l : list A) :
  existsb p (flat_map (fun a => [f a; g a]) l)
  = existsb (fun a => p (f a) || p (g a)) l.
Proof.
  induction l as [|a l IH]; [reflexivity|].
  cbn [flat_map app existsb]. rewrite IH. now rewrite orb_assoc.
Qed.

(** X6.  The advanced filter selects an event when each part of the
    analysis that is present accepts it: one of the verb patterns matches its
    description or its name, one of the characters takes part in it, its
    place is one of the places, its identifier is one of those the objects
    refer to.  A part that is absent accepts every event. *)
Theorem advanced_filter (regexVerbos : list RegExpObject)
    (personajeIds lugarIds eventosDesdeObjetos : list ObjectId) (e : Evento.t) :
  cumple engine
    (construir_filtro regexVerbos personajeIds lugarIds eventosDesdeObjetos) e
  = (negb (no_vacia regexVerbos)
     || existsb
          (fun r =>
             match Evento.descripcion e with
             | Some d => engine (source r) (js "i") d
             | None => false
             end
             || engine (source r) (js "i") (Evento.nombre e))
          regexVerbos)
    && (negb (no_vacia personajeIds)
        || existsb (fun p => mem p personajeIds) (Evento.personajes_involucrados e))
    && (negb (no_vacia lugarIds)
        || match Evento.lugar_relacionado e with
           | Some l => mem l lugarIds
           | None => false
           end)
    && (negb (no_vacia eventosDesdeObjetos)
        || mem (Evento._id e) eventosDesdeObjetos).
Proof.
  unfold construir_filtro.
  assert (Hv : cumple engine
                 (Or (flat_map
                        (fun r => [Regex campo_descripcion (source r) (js "i");
                                   Regex campo_nombre (source r) (js "i")])
                        regexVerbos)) e
               = existsb
                   (fun r =>
                      match Evento.descripcion e with
                      | Some d => engine (source r) (js "i") d
                      | None => false
                      end
                      || engine (source r) (js "i") (Evento.nombre e))
                   regexVerbos).
  { cbn [cumple].
    exact (existsb_flat_map_pair (fun g => cumple engine g e)
             (fun r => Regex campo_descripcion (source r) (js "i"))
             (fun r => Regex campo_nombre (source r) (js "i")) regexVerbos). }
  assert (HAnd : forall fs, cumple engine (And fs) e
                            = forallb (fun g => cumple engine g e) fs)
    by reflexivity.
  destruct regexVerbos as [|r rs], personajeIds as [|p ps],
           lugarIds as [|l ls], eventosDesdeObjetos as [|o os];
    cbn [no_vacia app negb orb andb];
    try reflexivity;
    rewrite HAnd; cbn [forallb]; rewrite ?Hv, ?andb_true_r;
    cbn [cumple]; rewrite ?andb_assoc; reflexivity.
Qed.

(** X7.  An existence term without any word character or white space (only
    punctuation) is contained in every text once normalized: the existence
    branch then answers with all the events of the store. *)
Theorem punctuation_term_selects_all (db : database) (t : jsstring) :
  normalizarTexto t = [] ->
  NoDup (map Evento._id (db_eventos db)) ->
  consultar_existencia engine (available db) t
  = Resolved (Resultados (Texto existencia) (Some t)
                (map (poblar db) (db_eventos db))).
Proof.
  intros Ht Hnd. rewrite consultar_existencia_available, Ht.
  rewrite (filter_by_ids _ _ Hnd). do 3 f_equal.
  apply forallb_filter_id. apply forallb_forall. intros e _.
  destruct (normalizarTexto (Evento.nombre e)); reflexivity.
Qed.

End Externals.

Lemma unguarded_reads_reject_witness :
  get sin_cambios motor sin_capitulos (Some (js "capítulo 3"))
  = Rechaza StoreUnavailable
  /\ get sin_cambios motor sin_personajes (Some (js "¿Quién murió?"))
     = Rechaza StoreUnavailable.
Proof.
  split.
  - apply (proj1 (@unguarded_reads_reject sin_cambios motor sin_capitulos
                    (js "capítulo 3") ltac:(vm_compute; discriminate)));
      [vm_compute; discriminate|reflexivity].
  - apply (proj2 (@unguarded_reads_reject sin_cambios motor sin_personajes
                    (js "¿Quién murió?") ltac:(vm_compute; discriminate)));
      [vm_compute; reflexivity|left; reflexivity].
Defined.

Lemma nothing_detected_witness :
  consultar motor caida nada = Resolved (Resultados (Texto todos) None []).
Proof.
  exact (@nothing_detected motor caida nada (or_introl eq_refl)
           eq_refl eq_refl eq_refl eq_refl eq_refl eq_refl).
Defined.

Lemma second_chapter_lookup_witness :
  consultar motor (available novela) capitulo_siete
  = Resolved (Error 404 (js "Capítulo no existe")).
Proof.
  exact (@second_chapter_lookup motor novela capitulo_siete 7%Z eq_refl
           ltac:(discriminate)).
Defined.

Lemma punctuation_term_selects_all_witness :
  normalizarTexto (js "--") = []
  /\ consultar_existencia motor (available novela) (js "--")
     = Resolved (Resultados (Texto existencia) (Some (js "--"))
                   (map (poblar novela) (db_eventos novela)))
  /\ get sin_cambios motor (available novela) (Some (js "¿Hay --?"))
     = Responde (Resultados (Texto existencia) (Some (js "--"))
                   (map (poblar novela) (db_eventos novela))).
Proof.
  assert (H1 : normalizarTexto (js "--") = []) by (vm_compute; reflexivity).
  assert (H2 : NoDup (map Evento._id (db_eventos novela))).
  { repeat constructor; cbn; intuition discriminate. }
  split; [exact H1|]. split.
  - exact (@punctuation_term_selects_all motor novela (js "--") H1 H2).
  - vm_compute. reflexivity.
Defined.

End Ruta.

(** ** More on the cascade, the pieces, the matcher and the score *)
Module Cascada.
Import JS RegExp Store NlpProcessor Preguntas Ejemplos Ejemplos2.
Import StoreFacts EscapeFacts Verbos Planner.
Local Open Scope N_scope.

Section Externals.
Variable engine : jsstring -> jsstring -> jsstring -> bool.

(** X8.  When the primary filter finds events they are the answer, populated
    and tagged ["todos"]: no fallback query is made, whatever was detected. *)
Theorem primary_result_returned (db : database) (a : Analisis)
    (personajeIds lugarIds eventosDesdeObjetos : list ObjectId) :
  (capitulo a = None \/ capitulo a = Some 0%Z) ->
  fuzzy a = None ->
  truthy (terminoExistencia a) = false ->
  resolver_personajes engine (available db) (personajes a) = Resolved personajeIds ->
  resolver_lugares engine (available db) (lugares a) = Resolved lugarIds ->
  resolver_objetos engine (available db) (objetos a) = Resolved eventosDesdeObjetos ->
  filter (cumple engine (construir_filtro (regexVerbos a) personajeIds lugarIds
                                          eventosDesdeObjetos))
         (db_eventos db) <> [] ->
  no_vacia (regexVerbos a) || no_vacia personajeIds || no_vacia lugarIds
    || no_vacia eventosDesdeObjetos = true ->
  consultar engine (available db) a
  = Resolved
      (Resultados (Texto todos) None
         (map (poblar db)
            (filter (cumple engine (construir_filtro (regexVerbos a) personajeIds
                                                     lugarIds eventosDesdeObjetos))
                    (db_eventos db)))).
Proof.
  intros Hcap Hfuzzy Hex Hp Hl Ho Hprimary Hsome.
  unfold consultar. rewrite Hfuzzy, Hex, Hp, Hl, Ho.
  assert (Hbody :
    (personajeIds0 <- Resolved personajeIds ;;
     lugarIds0 <- Resolved lugarIds ;;
     eventosDesdeObjetos0 <- Resolved eventosDesdeObjetos ;;
     if false then
       consultar_existencia engine (available db) (o_vacio (terminoExistencia a))
     else if negb (no_vacia (regexVerbos a))
             && negb (no_vacia personajeIds0)
             && negb (no_vacia lugarIds0)
             && negb (no_vacia eventosDesdeObjetos0)
     then Resolved (Resultados (Texto todos) None [])
     else
       let filtro :=
         construir_filtro (regexVerbos a) personajeIds0 lugarIds0
                          eventosDesdeObjetos0 in
       resultados <- buscar engine (available db) filtro ;;
       resultados <- fallbacks engine (available db) resultados personajeIds0
                               lugarIds0 eventosDesdeObjetos0 ;;
       Resolved (Resultados (Texto todos) None resultados))
    = Resolved
        (Resultados (Texto todos) None
           (map (poblar db)
              (filter (cumple engine (construir_filtro (regexVerbos a) personajeIds
                                                       lugarIds eventosDesdeObjetos))
                      (db_eventos db))))).
  { cbn [bind].
    replace (negb (no_vacia (regexVerbos a)) && negb (no_vacia personajeIds)
             && negb (no_vacia lugarIds) && negb (no_vacia eventosDesdeObjetos))
      with false
      by (destruct (no_vacia (regexVerbos a)), (no_vacia personajeIds),
                   (no_vacia lugarIds), (no_vacia eventosDesdeObjetos);
          discriminate Hsome || reflexivity).
    cbv zeta. rewrite buscar_available. cbn [bind].
    destruct (filter _ (db_eventos db)) as [|e es]; [congruence|].
    reflexivity. }
  destruct Hcap as [-> | ->]; exact Hbody.
Qed.

End Externals.

(** A question that mentions José Arcadio and Macondo: the founding of the
    town involves him and happens there. *)
Lemma primary_result_returned_witness :
  consultar motor (available sin_objetos) jose_en_macondo
  = Resolved (Resultados (Texto todos) None [poblar sin_objetos fundacion]).
Proof.
  refine (eq_trans
            (@primary_result_returned motor sin_objetos jose_en_macondo [2] [10] []
               (or_introl eq_refl) eq_refl eq_refl
               ltac:(vm_compute; reflexivity) ltac:(vm_compute; reflexivity)
               ltac:(vm_compute; reflexivity)
               ltac:(vm_compute; discriminate) eq_refl) _).
  vm_compute. reflexivity.
Defined.

End Cascada.

Module Piezas2.
Import JS RegExp Store NlpProcessor RegExpFacts Piezas.
Local Open Scope N_scope.

Lemma piezas_facts (s : jsstring) :
  forall b acc,
    forallb (fun u => negb (is_space u)) acc = true ->
    Forall (fun p => forallb (fun u => negb (is_space u)) p = true) (piezas b acc s)
    /\ concat (piezas b acc s) = acc ++ filter (fun u => negb (is_space u)) s.
Proof.
  induction s as [|u s IH]; intros b acc Hacc; cbn [piezas filter].
  - split; [repeat constructor; exact Hacc|]. cbn. reflexivity.
  - destruct (is_space u) eqn:E; cbn [negb].
    + destruct b.
      * apply IH, Hacc.
      * destruct (IH true [] eq_refl) as [H1 H2]. split.
        -- constructor; [exact Hacc|exact H1].
        -- cbn [concat]. now rewrite H2.
    + assert (Hacc' : forallb (fun u => negb (is_space u)) (acc ++ [u]) = true).
      { rewrite forallb_app, Hacc. cbn. now rewrite E. }
      destruct (IH false (acc ++ [u]) Hacc') as [H1 H2]. split; [exact H1|].
      rewrite H2, <- app_assoc. reflexivity.
Qed.

Lemma piezas_whole (s : jsstring) :
  forallb (fun u => negb (is_space u)) s = true ->
  forall acc, piezas false acc s = [acc ++ s].
Proof.
  induction s as [|u s IH]; intros H acc; cbn [piezas].
  - now rewrite app_nil_r.
  - cbn [forallb] in H. apply andb_true_iff in H as [Hu Hs].
    apply negb_true_iff in Hu. rewrite Hu, (IH Hs), <- app_assoc. reflexivity.
Qed.

(** X9.  [split(/\s+/)] never answers the empty array; no piece contains
    white space; the pieces put together are the text without its white
    space; a text without white space is its only piece, and the empty text
    has the empty piece. *)
Theorem split_pieces (s : jsstring) :
  split re_spaces s <> []
  /\ (forall p, In p (split re_spaces s) ->
                forall u, In u p -> is_space u = false)
  /\ concat (split re_spaces s) = filter (fun u => negb (is_space u)) s
  /\ (forallb (fun u => negb (is_space u)) s = true -> split re_spaces s = [s]).
Proof.
  split; [apply split_not_nil|].
  rewrite split_spaces.
  destruct (piezas_facts s false [] eq_refl) as [H1 H2].
  split; [|split; [exact H2|]].
  - intros p Hp u Hu. rewrite Forall_forall in H1.
    specialize (H1 p Hp). rewrite forallb_forall in H1.
    apply negb_true_iff. exact (H1 u Hu).
  - intros H. exact (piezas_whole s H []).
Qed.

Lemma piezas_leading (s : jsstring) (u : N) :
  is_space u = true -> In [] (piezas false [] (u :: s)).
Proof. intros H. cbn [piezas]. rewrite H. now left. Qed.

Lemma piezas_trailing (s : jsstring) (u : N) :
  is_space u = true ->
  forall b acc, (b = true -> acc = []) -> In [] (piezas b acc (s ++ [u])).
Proof.
  intros Hu. induction s as [|v s IH]; intros b acc Hb.
  - cbn [app piezas]. rewrite Hu. destruct b.
    + rewrite (Hb eq_refl). now left.
    + right. now left.
  - cbn [app piezas]. destruct (is_space v).
    + destruct b.
      * apply IH. exact Hb.
      * right. apply IH. reflexivity.
    + apply IH. discriminate.
Qed.

End Piezas2.

Module Entidades2.
Import JS RegExp Store NlpProcessor Ejemplos Ejemplos2 RegExpFacts Piezas Piezas2 Entidades.
Local Open Scope N_scope.

Lemma includes_nil (t : jsstring) : includes t [] = true.
Proof. destruct t; reflexivity. Qed.

Lemma substring_wider (e t pre post : jsstring) :
  substring e t -> substring e (pre ++ t ++ post).
Proof.
  intros (a & b & ->). exists (pre ++ a), (b ++ post).
  now rewrite <- !app_assoc.
Qed.

(** X10.  [matchFlexible] answers false when the entity or the question is
    empty.  A match is kept when text is added before or after the question.
    An entity whose folded name begins or ends with white space has an empty
    piece and is therefore found in every non-empty question. *)
Theorem matchFlexible_edges (entidad texto : jsstring) :
  matchFlexible [] texto = false
  /\ matchFlexible entidad [] = false
  /\ (forall pre post,
        matchFlexible entidad texto = true ->
        matchFlexible entidad (pre ++ texto ++ post) = true)
  /\ (texto <> [] ->
      (exists u resto, entidad = u :: resto /\ is_space u = true)
      \/ (exists inicio u, entidad = inicio ++ [u] /\ is_space u = true) ->
      matchFlexible entidad texto = true).
Proof.
  split; [reflexivity|].
  split; [unfold matchFlexible; destruct entidad; reflexivity|].
  split.
  - intros pre post H. apply matchFlexible_menciona in H.
    apply matchFlexible_menciona. destruct H as (He & Ht & H).
    split; [exact He|]. split.
    + destruct texto as [|u t]; [congruence|]. destruct pre; discriminate.
    + destruct H as [H | (parte & Hp & H)].
      * left. now apply substring_wider.
      * right. exists parte. split; [exact Hp|]. now apply substring_wider.
  - intros Ht H. apply matchFlexible_menciona.
    assert (He : entidad <> []).
    { destruct H as [(u & r & -> & _) | (i & u & -> & _)];
        [discriminate|destruct i; discriminate]. }
    split; [exact He|]. split; [exact Ht|]. right. exists [].
    split.
    + rewrite split_spaces.
      destruct H as [(u & r & -> & Hu) | (i & u & -> & Hu)].
      * now apply piezas_leading.
      * apply piezas_trailing; [exact Hu|discriminate].
    + exists [], texto. reflexivity.
Qed.

(** A place stored as ["Macondo "] and a question about something else. *)
Lemma matchFlexible_edges_witness :
  matchFlexible (js "macondo ") (js "quien murio") = true
  /\ detectar_lugares [macondo_espacio_final] (js "quien murio")
     = [js "Macondo "].
Proof.
  split.
  - apply (proj2 (proj2 (proj2 (matchFlexible_edges (js "macondo ") (js "quien murio")))));
      [vm_compute; discriminate|].
    right. exists (js "macondo"), 32. split; reflexivity.
  - vm_compute. reflexivity.
Defined.

End Entidades2.


Module Ranker2.
Import JS RegExp Store NlpProcessor Ejemplos RegExpFacts Piezas Ranker.
Local Open Scope N_scope.

Lemma filter_all (A : Type) (p : A -> bool) (l : list A) :
  length (filter p l) = length l <-> forall x, In x l -> p x = true.
Proof.
  induction l as [|a l IH]; cbn [filter length In]; [tauto|].
  pose proof (filter_length_le p l) as Hle.
  destruct (p a) eqn:E; cbn [length].
  - split.
    + intros H x [<- | Hx]; [exact E|]. apply IH; [lia|exact Hx].
    + intros H. f_equal. apply IH. auto.
  - split; [lia|]. intros H. specialize (H a (or_introl eq_refl)). congruence.
Qed.

Lemma filter_none (A : Type) (p : A -> bool) (l : list A) :
  length (filter p l) = 0%nat <-> forall x, In x l -> p x = false.
Proof.
  induction l as [|a l IH]; cbn [filter length In]; [tauto|].
  destruct (p a) eqn:E; cbn [length].
  - split; [discriminate|]. intros H.
    specialize (H a (or_introl eq_refl)). congruence.
  - rewrite IH. split; [intros H x [<- | Hx]; auto|auto].
Qed.

Lemma new_Set_length_pos (l : list jsstring) :
  l <> [] -> (length (new_Set l) <> 0)%nat.
Proof.
  destruct l as [|p ps]; [congruence|]. intros _.
  assert (Hin : In p (new_Set (p :: ps)))
    by (apply (proj2 (new_Set_In _ _)); now left).
  destruct (new_Set (p :: ps)); [contradiction|discriminate].
Qed.

(** X11.  The score lies between 0 and 1.  It is 1 exactly when every
    piece of the question is a piece of the candidate, and 0 exactly when
    none is.  For a question of at most four distinct pieces one shared piece
    is enough to pass the threshold of one fifth, and is needed. *)
Theorem score_properties (a b : jsstring) :
  (0 <= calcularScore a b)%Q /\ (calcularScore a b <= 1)%Q
  /\ ((calcularScore a b == 1)%Q
      <-> incl (split re_spaces a) (split re_spaces b))
  /\ ((calcularScore a b == 0)%Q
      <-> forall p, In p (split re_spaces a) -> ~ In p (split re_spaces b))
  /\ ((length (new_Set (split re_spaces a)) <= 4)%nat ->
      ((1 # 5 < calcularScore a b)%Q
       <-> exists p, In p (split re_spaces a) /\ In p (split re_spaces b))).
Proof.
  pose proof (new_Set_length_pos (split_not_nil a)) as Hn.
  pose proof (filter_length_le (fun p => has (new_Set (split re_spaces b)) p)
                               (new_Set (split re_spaces a))) as Hk.
  assert (Hden : Zpos (Pos.of_nat (Nat.max (length (new_Set (split re_spaces a))) 1))
                 = Z.of_nat (length (new_Set (split re_spaces a)))).
  { rewrite Zpos_of_nat by lia. f_equal. lia. }
  assert (Hp : forall p, has (new_Set (split re_spaces b)) p = true
                         <-> In p (split re_spaces b)).
  { intros p. rewrite has_new_Set. apply has_In. }
  split; [|split; [apply score_le_1|split; [|split]]].
  - unfold calcularScore, Qle. cbn [Qnum Qden]. lia.
  - unfold calcularScore, Qeq. cbn [Qnum Qden]. rewrite Hden, Z.mul_1_r, Z.mul_1_l.
    rewrite Nat2Z.inj_iff, filter_all. split.
    + intros H p Hin. apply Hp, H, (proj2 (new_Set_In _ _)), Hin.
    + intros H p Hin. apply Hp, H, (proj1 (new_Set_In _ _)), Hin.
  - unfold calcularScore, Qeq. cbn [Qnum Qden]. rewrite Z.mul_1_r, Z.mul_0_l.
    change 0%Z with (Z.of_nat 0). rewrite Nat2Z.inj_iff, filter_none. split.
    + intros H p Hin Hb. apply (proj2 (new_Set_In _ _)) in Hin.
      specialize (H p Hin). apply Hp in Hb. congruence.
    + intros H p Hin. apply (proj1 (new_Set_In _ _)) in Hin.
      destruct (has (new_Set (split re_spaces b)) p) eqn:E; [|reflexivity].
      apply Hp in E. exfalso. exact (H p Hin E).
  - intros Hfour. unfold calcularScore, Qlt. cbn [Qnum Qden].
    rewrite Hden, Z.mul_1_l. split.
    + intros H.
      destruct (filter (fun p => has (new_Set (split re_spaces b)) p)
                       (new_Set (split re_spaces a))) as [|p ps] eqn:E.
      * cbn [length] in H. lia.
      * assert (Hin : In p (filter (fun p => has (new_Set (split re_spaces b)) p)
                                   (new_Set (split re_spaces a))))
          by (rewrite E; now left).
        apply filter_In in Hin as [Hin Hb]. exists p. split.
        -- apply (proj1 (new_Set_In _ _)), Hin.
        -- apply Hp, Hb.
    + intros (p & Ha & Hb).
      assert (Hin : In p (filter (fun p => has (new_Set (split re_spaces b)) p)
                                 (new_Set (split re_spaces a)))).
      { apply filter_In. split; [apply (proj2 (new_Set_In _ _)), Ha|apply Hp, Hb]. }
      destruct (filter (fun p => has (new_Set (split re_spaces b)) p)
                       (new_Set (split re_spaces a))) as [|x xs];
        [contradiction|].
      cbn [length] in *. lia.
Qed.

Lemma insertar_perm (x : Evento.t * Q) (l : list (Evento.t * Q)) :
  Permutation (x :: l) (insertar x l).
Proof.
  induction l as [|y l IH]; cbn [insertar]; [reflexivity|].
  destruct (Qlt_le_dec (snd x) (snd y)); [|reflexivity].
  rewrite perm_swap. now apply perm_skip.
Qed.

Lemma insertar_sorted (x : Evento.t * Q) (l : list (Evento.t * Q)) :
  Sorted (fun a b => (snd b <= snd a)%Q) l ->
  Sorted (fun a b => (snd b <= snd a)%Q) (insertar x l).
Proof.
  induction l as [|y l IH]; intros H; cbn [insertar].
  - repeat constructor.
  - destruct (Qlt_le_dec (snd x) (snd y)) as [Hlt | Hle].
    + inversion H as [|? ? Hs Hhd]; subst. constructor; [now apply IH|].
      destruct l as [|z l]; cbn [insertar].
      * constructor. now apply Qlt_le_weak.
      * destruct (Qlt_le_dec (snd x) (snd z)).
        -- inversion Hhd; subst. now constructor.
        -- constructor. now apply Qlt_le_weak.
    + constructor; [exact H|]. now constructor.
Qed.

(** X12.  The sort of the candidates keeps the candidates (it permutes
    them) and puts them in order of decreasing score. *)
Theorem ordenar_sorts (l : list (Evento.t * Q)) :
  Permutation l (ordenar l)
  /\ StronglySorted (fun a b => (snd b <= snd a)%Q) (ordenar l).
Proof.
  split.
  - induction l as [|x l IH]; [reflexivity|].
    change (ordenar (x :: l)) with (insertar x (ordenar l)).
    rewrite <- insertar_perm. now apply perm_skip.
  - apply Sorted_StronglySorted.
    + intros a b c Hab Hbc. now apply Qle_trans with (snd b).
    + induction l as [|x l IH]; [constructor|].
      change (ordenar (x :: l)) with (insertar x (ordenar l)).
      now apply insertar_sorted.
Qed.

End Ranker2.

Module Escape2.
Import JS RegExp Store NlpProcessor Nociones RegExpFacts EscapeFacts Verbos.
Local Open Scope N_scope.

Lemma run_lits_exact (w : jsstring) :
  forall prev s cs,
    run (lits false w Eps) (fun _ s' cs' => Some (s', cs')) prev s cs
    = if starts_with s w then Some (skipn (length w) s, cs) else None.
Proof.
  induction w as [|c w IH]; intros prev s cs.
  - destruct s; reflexivity.
  - cbn [lits]. unfold chr at 1.
    destruct s as [|u s]; cbn [run starts_with length skipn]; [reflexivity|].
    destruct (u =? c); cbn [andb]; [apply IH|reflexivity].
Qed.

Lemma exec_lits_exact (w : jsstring) :
  forall s idx prev,
    (match exec_from (lits false w Eps) idx prev s with
     | Some _ => true
     | None => false
     end) = includes s w.
Proof.
  induction s as [|u s IH]; intros idx prev.
  - cbn [exec_from includes]. unfold match_at. rewrite run_lits_exact.
    destruct (starts_with [] w); reflexivity.
  - cbn [exec_from includes]. unfold match_at. rewrite run_lits_exact.
    destruct (starts_with (u :: s) w); cbn [orb]; [reflexivity|]. apply IH.
Qed.

(** X13.  [escapeRegex] puts a backslash before each of the fourteen syntax
    characters and leaves the rest.  Whatever the text, the [RegExp]
    constructor accepts the escaped text and compiles it to the characters of
    the text: as a pattern it is found in exactly the strings that contain the
    text. *)
Theorem escaped_text_is_literal (w s : jsstring) :
  NlpProcessor.escapeRegex w
  = flat_map (fun u => if is_syntax_char u then [92; u] else [u]) w
  /\ Preguntas.escapeRegex w = NlpProcessor.escapeRegex w
  /\ exists r,
       parse false (NlpProcessor.escapeRegex w) = Some r
       /\ test r s = includes s w.
Proof.
  split; [apply escapeRegex_flat_map|]. split; [reflexivity|].
  exists (lits false w Eps). split.
  - pose proof (parse_escaped false w []) as H.
    rewrite app_nil_r in H. exact H.
  - unfold test, exec. apply exec_lits_exact.
Qed.

(** *** Whole words *)

Lemma after_app (prev : option N) (a v : jsstring) :
  after (after prev a) v = after prev (a ++ v).
Proof.
  unfold after. rewrite rev_app_distr.
  destruct (rev v) as [|x r]; [reflexivity|reflexivity].
Qed.

Lemma run_lits_ci (w : jsstring) (rest : regex) (k : cont) :
  forall prev s cs r,
    run (lits true w rest) k prev s cs = Some r
    <-> exists v s',
          s = v ++ s' /\ igual_sin_caja v w
          /\ run rest k (after prev v) s' cs = Some r.
Proof.
  induction w as [|c w IH]; intros prev s cs r.
  - cbn [lits]. split.
    + intros H. exists [], s. repeat split; [constructor|exact H].
    + intros (v & s' & -> & Hv & H). inversion Hv; subst. exact H.
  - cbn [lits]. unfold chr at 1. cbn [run]. split.
    + destruct s as [|u s]; [discriminate|].
      destruct (N.eqb_spec (canonicalize u) (canonicalize c)) as [E|];
        [|discriminate].
      intros H. apply IH in H as (v & s' & -> & Hv & H).
      exists (u :: v), s'. split; [reflexivity|]. split.
      * now constructor.
      * now rewrite after_cons.
    + intros (v & s' & -> & Hv & H). inversion Hv as [|u c' v' w' E Hv']; subst.
      cbn [app]. rewrite E, N.eqb_refl. apply IH.
      exists v', s'. rewrite after_cons in H. auto.
Qed.

Lemma exec_from_inv (r : regex) (s : jsstring) :
  forall idx prev m,
    exec_from r idx prev s = Some m ->
    exists a s', s = a ++ s'
                 /\ match_at r (idx + length a) (after prev a) s' = Some m.
Proof.
  induction s as [|u s IH]; intros idx prev m H; cbn [exec_from] in H.
  - destruct (match_at r idx prev []) as [m'|] eqn:E; [|discriminate].
    exists [], []. split; [reflexivity|]. cbn [length].
    rewrite Nat.add_0_r. unfold after. cbn [rev]. congruence.
  - destruct (match_at r idx prev (u :: s)) as [m'|] eqn:E.
    + exists [], (u :: s). split; [reflexivity|]. cbn [length].
      rewrite Nat.add_0_r. unfold after. cbn [rev]. congruence.
    + apply IH in H as (a & s' & -> & H). exists (u :: a), s'.
      split; [reflexivity|]. cbn [length].
      rewrite after_cons, Nat.add_succ_r. exact H.
Qed.

Lemma match_at_some (r : regex) (idx : nat) (prev : option N) (s : jsstring) :
  (exists m, match_at r idx prev s = Some m)
  <-> exists x, run r (fun _ s' cs' => Some (s', cs')) prev s [] = Some x.
Proof.
  unfold match_at.
  destruct (run r _ prev s []) as [[s' cs']|]; split;
    intros [x H]; try discriminate; eauto.
Qed.

(** X14.  The whole-word pattern of a form is found in a text exactly when
    the text contains a copy of the form, up to case, with a word boundary
    before it and a word boundary after it. *)
Theorem whole_word_test (w t : jsstring) :
  test (palabra w) t = true <-> palabra_en w t.
Proof.
  unfold test, exec, palabra_en. split.
  - destruct (exec_from (palabra w) 0 None t) as [m|] eqn:E; [|discriminate].
    intros _. apply exec_from_inv in E as (a & s' & -> & Hm).
    destruct (proj1 (@match_at_some (palabra w) _ _ _) (ex_intro _ m Hm))
      as [x Hx]. unfold palabra in Hx. cbn [run] in Hx.
    destruct (xorb (word_before (after None a)) (word_after s')) eqn:B1;
      [|discriminate].
    apply run_lits_ci in Hx as (v & b & -> & Hv & Hx). cbn [run] in Hx.
    destruct (xorb (word_before (after (after None a) v)) (word_after b)) eqn:B2;
      [|discriminate].
    exists a, v, b. rewrite <- after_app. auto.
  - intros (a & v & b & -> & Hv & B1 & B2).
    destruct (@exec_from_app (palabra w) a (v ++ b) 0%nat None) as [m ->];
      [|reflexivity].
    exists 0%nat. apply (proj2 (@match_at_some (palabra w) 0%nat _ _)).
    unfold palabra. cbn [run]. rewrite B1.
    rewrite <- after_app in B2.
    exists (b, []). apply run_lits_ci. exists v, b.
    split; [reflexivity|]. split; [exact Hv|]. cbn [run]. now rewrite B2.
Qed.

End Escape2.

Module Fold2.
Import JS RegExp Store NlpProcessor Preguntas Nociones RegExpFacts Fold.
Local Open Scope N_scope.

Lemma latin_simple (x : jsstring) :
  Forall (fun u => u < 880) x -> Forall (fun u => simple u = true) x.
Proof.
  intros H. eapply Forall_impl; [|exact H]. intros u Hu.
  pose proof latinas_check as Hc. rewrite forallb_forall in Hc.
  specialize (Hc u (@latinas_In u Hu)). now apply andb_true_iff in Hc.
Qed.

Lemma ascii_check :
  forallb (fun u => simple u && JS.eqb (limpiar_unidad u) [minuscula_ascii u])
          ascii = true.
Proof. vm_compute. reflexivity. Qed.

Lemma ascii_In (u : N) : u < 128 -> In u ascii.
Proof.
  intros H. unfold ascii. rewrite <- (N2Nat.id u). apply in_map.
  apply in_seq. lia.
Qed.

Lemma ascii_facts (u : N) :
  u < 128 -> simple u = true /\ limpiar_unidad u = [minuscula_ascii u].
Proof.
  intros H. pose proof ascii_check as Hc. rewrite forallb_forall in Hc.
  specialize (Hc u (@ascii_In u H)). apply andb_true_iff in Hc as [Hs He].
  split; [exact Hs|]. now apply eqb_true.
Qed.

Lemma limpiarTexto_nil : limpiarTexto [] = [].
Proof. vm_compute. reflexivity. Qed.

(** X15.  The fold leaves none of the marks U+0300 to U+036F, and it folds
    a text of words separated by single spaces word by word. *)
Theorem fold_word_by_word (s : jsstring) (ws : list jsstring) :
  Forall (fun u => es_marca u = false) (limpiarTexto s)
  /\ limpiarTexto (unir ws) = unir (map limpiarTexto ws).
Proof.
  split.
  - rewrite limpiarTexto_filter. apply Forall_forall. intros u Hu.
    apply filter_In in Hu as [_ Hu]. now apply negb_true_iff in Hu.
  - induction ws as [|w ws IH]; [exact limpiarTexto_nil|].
    destruct ws as [|w' ws]; [reflexivity|].
    change (unir (w :: w' :: ws)) with (w ++ 32 :: unir (w' :: ws)).
    rewrite limpiarTexto_app_space, IH. reflexivity.
Qed.

(** X16.  On text below U+0370 the fold works code unit by code unit: the
    fold of two texts put together is the two folds put together, wherever
    the cut falls. *)
Theorem fold_latin_concat (a b : jsstring) :
  Forall (fun u => u < 880) a ->
  Forall (fun u => u < 880) b ->
  limpiarTexto (a ++ b) = limpiarTexto a ++ limpiarTexto b.
Proof.
  intros Ha Hb.
  rewrite !limpiarTexto_simple, ?flat_map_app; [reflexivity| | |].
  - now apply latin_simple.
  - now apply latin_simple.
  - apply latin_simple. apply Forall_app. now split.
Qed.

(** X17.  On ASCII text the fold is the lower case of ASCII, letter by
    letter. *)
Theorem fold_ascii (s : jsstring) :
  Forall (fun u => u < 128) s ->
  limpiarTexto s = map minuscula_ascii s.
Proof.
  intros H. rewrite limpiarTexto_simple.
  - induction H as [|u s Hu Hs IH]; [reflexivity|].
    cbn [flat_map map]. rewrite (proj2 (ascii_facts Hu)), IH. reflexivity.
  - eapply Forall_impl; [|exact H]. intros u Hu. apply (ascii_facts Hu).
Qed.

(** X18.  The normalisation of the route is the fold of the language module
    with everything deleted that is neither a word character nor white space;
    nothing else is left in its result. *)
Theorem route_normalisation (s : jsstring) :
  normalizarTexto s
  = filter (fun u => is_word u || is_space u) (limpiarTexto s)
  /\ Forall (fun u => is_word u || is_space u = true) (normalizarTexto s).
Proof.
  assert (H : normalizarTexto s
              = filter (fun u => is_word u || is_space u) (limpiarTexto s)).
  { unfold normalizarTexto, limpiarTexto. rewrite replace_all_delete.
    apply filter_ext. intros u. apply negb_involutive. }
  split; [exact H|]. rewrite H. apply Forall_forall. intros u Hu.
  now apply filter_In in Hu.
Qed.

End Fold2.

Module Fold2Ejemplos.
Import JS RegExp Store NlpProcessor Preguntas Nociones RegExpFacts Fold Fold2.
Local Open Scope N_scope.

Lemma below (n : N) (s : jsstring) :
  forallb (fun u => u <? n) s = true -> Forall (fun u => u < n) s.
Proof.
  intros H. apply Forall_forall. intros u Hu.
  rewrite forallb_forall in H. now apply N.ltb_lt, H.
Qed.

(** The cut between a letter and its accent, and in the middle of a word. *)
Lemma fold_latin_concat_witness :
  Forall (fun u => u < 880) (js "Jose")
  /\ Forall (fun u => u < 880) (769 :: js " Arcadio Buendía")
  /\ limpiarTexto (js "Jose" ++ 769 :: js " Arcadio Buendía")
     = limpiarTexto (js "Jose") ++ limpiarTexto (769 :: js " Arcadio Buendía").
Proof.
  assert (Ha : Forall (fun u => u < 880) (js "Jose"))
    by (apply below; vm_compute; reflexivity).
  assert (Hb : Forall (fun u => u < 880) (769 :: js " Arcadio Buendía"))
    by (apply below; vm_compute; reflexivity).
  split; [exact Ha|]. split; [exact Hb|].
  exact (@fold_latin_concat _ _ Ha Hb).
Defined.

Lemma fold_ascii_witness :
  Forall (fun u => u < 128) (js "Hubo una GUERRA civil?")
  /\ limpiarTexto (js "Hubo una GUERRA civil?")
     = map minuscula_ascii (js "Hubo una GUERRA civil?").
Proof.
  assert (H : Forall (fun u => u < 128) (js "Hubo una GUERRA civil?"))
    by (apply below; vm_compute; reflexivity).
  split; [exact H|]. exact (@fold_ascii _ H).
Defined.

End Fold2Ejemplos.

Module Literal.
Import JS RegExp Store NlpProcessor Nociones RegExpFacts Ranker.
Local Open Scope N_scope.








End Literal.

Module Alias2.
Import JS RegExp Store NlpProcessor Nociones RegExpFacts Piezas Verbos Escape2.
Local Open Scope N_scope.

(** *** The engine on the two patterns of [extraerAlias] *)

Lemma chr_blocked (c : N) (R : regex) (k : cont) (prev : option N)
    (s : jsstring) (cs : caps) :
  cabeza (fun u => u <> c) s ->
  run (Cat (chr false c) R) k prev s cs = None.
Proof.
  intros H. cbn [run]. unfold chr. cbn [run].
  destruct s as [|u s]; [reflexivity|]. cbn [cabeza] in H.
  destruct (N.eqb_spec u c); [contradiction|reflexivity].
Qed.

Lemma star_greedy_blocked (k : cont) (c : N) :
  is_space c = false ->
  (forall prev s cs, cabeza (fun u => u <> c) s -> k prev s cs = None) ->
  forall s prev cs,
    cabeza (fun u => u <> c) (drop_while is_space s) ->
    star_greedy is_space k prev s cs = None.
Proof.
  intros Hc Hk. induction s as [|u s IH]; intros prev cs H; cbn [star_greedy].
  - apply Hk. exact I.
  - cbn [drop_while] in H. destruct (is_space u) eqn:E.
    + rewrite IH by exact H. apply Hk. cbn [cabeza]. intros ->. congruence.
    + apply Hk. exact H.
Qed.

Lemma star_greedy_spaces (k : cont) (sp rest : jsstring) (cs : caps)
    (r : jsstring * caps) :
  forallb is_space sp = true ->
  cabeza (fun u => is_space u = false) rest ->
  forall prev,
    k (after prev sp) rest cs = Some r ->
    star_greedy is_space k prev (sp ++ rest) cs = Some r.
Proof.
  intros Hsp Hrest. induction sp as [|u sp IH]; intros prev Hk.
  - cbn [app]. destruct rest as [|v rest]; cbn [star_greedy]; [exact Hk|].
    cbn [cabeza] in Hrest. rewrite Hrest. exact Hk.
  - cbn [forallb] in Hsp. apply andb_true_iff in Hsp as [Hu Hsp].
    cbn [app star_greedy]. rewrite Hu, (IH Hsp (Some u)); [reflexivity|].
    rewrite after_cons in Hk. exact Hk.
Qed.

Lemma star_lazy_now (p : N -> bool) (k : cont) (prev : option N) (s : jsstring)
    (cs : caps) (r : jsstring * caps) :
  k prev s cs = Some r -> star_lazy p k prev s cs = Some r.
Proof. intros H. destruct s; cbn [star_lazy]; now rewrite H. Qed.

Lemma star_lazy_skip (k : cont) (c : N) (b rest : jsstring) :
  (forall prev u s cs, u <> c -> k prev (u :: s) cs = None) ->
  Forall (fun u => dot u = true /\ u <> c) b ->
  forall prev cs,
    star_lazy dot k prev (b ++ rest) cs = star_lazy dot k (after prev b) rest cs.
Proof.
  intros Hk Hb. induction Hb as [|u b [Hd Hu] Hb IH]; intros prev cs.
  - reflexivity.
  - cbn [app star_lazy]. rewrite (Hk _ _ _ _ Hu), Hd, IH, after_cons.
    reflexivity.
Qed.

Lemma drop_while_spaces (sp rest : jsstring) :
  forallb is_space sp = true ->
  cabeza (fun u => is_space u = false) rest ->
  drop_while is_space (sp ++ rest) = rest.
Proof.
  intros Hsp Hrest. induction sp as [|u sp IH].
  - destruct rest as [|v rest]; [reflexivity|]. cbn [app drop_while].
    cbn [cabeza] in Hrest. now rewrite Hrest.
  - cbn [forallb] in Hsp. apply andb_true_iff in Hsp as [Hu Hsp].
    cbn [app drop_while]. rewrite Hu. now apply IH.
Qed.

(** Where no parenthesis can open. *)
Lemma blocked_all (c : jsstring) :
  Forall (fun u => u <> 40) c ->
  cabeza (fun u => u <> 40) (drop_while is_space c).
Proof.
  intros H. induction H as [|u c Hu Hc IH]; [exact I|].
  cbn [drop_while]. destruct (is_space u); [exact IH|exact Hu].
Qed.

Lemma sin_espacio_final_tail (u : N) (a : jsstring) :
  sin_espacio_final (u :: a) -> sin_espacio_final a.
Proof.
  unfold sin_espacio_final. cbn [rev].
  destruct (rev a) as [|v r]; [trivial|]. cbn [app]. trivial.
Qed.

Lemma blocked_prefix (a s : jsstring) :
  Forall (fun u => u <> 40) a ->
  sin_espacio_final a ->
  a <> [] ->
  cabeza (fun u => u <> 40) (drop_while is_space (a ++ s)).
Proof.
  intros Ha. induction Ha as [|u a Hu Ha IH]; intros Hend Hne; [congruence|].
  cbn [app drop_while]. destruct (is_space u) eqn:E; [|exact Hu].
  apply IH.
  - now apply sin_espacio_final_tail with u.
  - intros ->. unfold sin_espacio_final in Hend. cbn [rev app] in Hend.
    congruence.
Qed.

Lemma space_40 : is_space 40 = false.
Proof. vm_compute. reflexivity. Qed.

Lemma parentesis_blocked (idx : nat) (prev : option N) (s : jsstring) :
  cabeza (fun u => u <> 40) (drop_while is_space s) ->
  match_at re_parentesis idx prev s = None.
Proof.
  intros H. unfold match_at.
  change (run re_parentesis (fun _ s' cs' => Some (s', cs')) prev s [])
    with (star_greedy is_space
            (run (Cat (chr false 40)
                      (seq [Star false dot; chr false 41; Star true is_space]))
                 (fun _ s' cs' => Some (s', cs')))
            prev s []).
  rewrite (@star_greedy_blocked _ 40 space_40); [reflexivity| |exact H].
  intros prev' s' cs' H'. now apply chr_blocked.
Qed.

Lemma alias_blocked (idx : nat) (prev : option N) (s : jsstring) :
  cabeza (fun u => u <> 40) s ->
  match_at re_alias idx prev s = None.
Proof.
  intros H. unfold match_at, re_alias. cbn [seq].
  now rewrite chr_blocked.
Qed.

(** *** Scanning *)

Lemma replace_go_skip (r : regex) (f : rmatch -> jsstring) (x c : jsstring) :
  forall prev,
    replace_go r f (length x) prev (x ++ c) = replace_go r f 0 (after prev x) c.
Proof.
  induction x as [|u x IH]; intros prev; [reflexivity|].
  cbn [length app replace_go]. now rewrite IH, after_cons.
Qed.

Lemma replace_go_plain (f : rmatch -> jsstring) (c : jsstring) :
  Forall (fun u => u <> 40) c ->
  forall prev, replace_go re_parentesis f 0 prev c = c.
Proof.
  intros H. induction H as [|u c Hu Hc IH]; intros prev; cbn [replace_go].
  - now rewrite parentesis_blocked.
  - rewrite parentesis_blocked, IH; [reflexivity|].
    apply blocked_all. now constructor.
Qed.

Lemma replace_go_prefix (f : rmatch -> jsstring) (a s : jsstring) :
  Forall (fun u => u <> 40) a ->
  sin_espacio_final a ->
  forall prev,
    replace_go re_parentesis f 0 prev (a ++ s)
    = a ++ replace_go re_parentesis f 0 (after prev a) s.
Proof.
  intros Ha. induction Ha as [|u a Hu Ha IH]; intros Hend prev; [reflexivity|].
  cbn [app replace_go]. rewrite parentesis_blocked.
  - rewrite IH, after_cons; [reflexivity|].
    now apply sin_espacio_final_tail with u.
  - apply (@blocked_prefix (u :: a) s); [now constructor|exact Hend|discriminate].
Qed.

Lemma exec_from_plain (x s : jsstring) :
  Forall (fun u => u <> 40) x ->
  forall idx prev,
    exec_from re_alias idx prev (x ++ s)
    = exec_from re_alias (idx + length x) (after prev x) s.
Proof.
  intros H. induction H as [|u x Hu Hx IH]; intros idx prev.
  - cbn [app length]. now rewrite Nat.add_0_r.
  - cbn [app exec_from length]. rewrite alias_blocked by exact Hu.
    now rewrite IH, after_cons, Nat.add_succ_r.
Qed.

Lemma exec_from_nil (idx : nat) (prev : option N) :
  exec_from re_alias idx prev [] = None.
Proof. cbn [exec_from]. now rewrite alias_blocked. Qed.

(** X20.  A name without an opening parenthesis has no alias, and its
    clean name is its fold without the white space around it. *)
Theorem plain_name_has_no_alias (nombre : jsstring) :
  Forall (fun u => u <> 40) nombre ->
  extraerAlias nombre = (trim (limpiarTexto nombre), None).
Proof.
  intros H. unfold extraerAlias, exec, replace_all.
  rewrite (@replace_go_plain _ _ H).
  pose proof (@exec_from_plain _ [] H 0%nat None) as He.
  rewrite app_nil_r, exec_from_nil in He. rewrite He. reflexivity.
Qed.

(** *** A name with an alias *)

Lemma parentesis_run (prev : option N) (sp b sp2 c : jsstring) :
  forallb is_space sp = true ->
  Forall (fun u => dot u = true /\ u <> 41) b ->
  forallb is_space sp2 = true ->
  cabeza (fun u => is_space u = false) c ->
  run re_parentesis (fun _ s' cs' => Some (s', cs')) prev
      (sp ++ 40 :: b ++ 41 :: sp2 ++ c) []
  = Some (c, []).
Proof.
  intros Hsp Hb Hsp2 Hc.
  change (run re_parentesis (fun _ s' cs' => Some (s', cs')) prev
              (sp ++ 40 :: b ++ 41 :: sp2 ++ c) [])
    with (star_greedy is_space
            (run (Cat (chr false 40)
                      (seq [Star false dot; chr false 41; Star true is_space]))
                 (fun _ s' cs' => Some (s', cs')))
            prev (sp ++ 40 :: b ++ 41 :: sp2 ++ c) []).
  apply star_greedy_spaces; [exact Hsp|exact space_40|].
  change (star_lazy dot
            (run (seq [chr false 41; Star true is_space])
                 (fun _ s' cs' => Some (s', cs')))
            (Some 40) (b ++ 41 :: sp2 ++ c) [] = Some (c, [])).
  rewrite (@star_lazy_skip _ 41 b (41 :: sp2 ++ c)); [|clear|exact Hb].
  - apply star_lazy_now.
    change (star_greedy is_space
              (run Eps (fun _ s' cs' => Some (s', cs')))
              (Some 41) (sp2 ++ c) [] = Some (c, [])).
    apply star_greedy_spaces; [exact Hsp2|exact Hc|reflexivity].
  - intros prev' u s cs Hu. cbn [seq]. apply chr_blocked. exact Hu.
Qed.

Lemma replace_go_match (r : regex) (f : rmatch -> jsstring) (prev : option N)
    (u : N) (x c : jsstring) :
  run r (fun _ s' cs' => Some (s', cs')) prev (u :: x ++ c) [] = Some (c, []) ->
  replace_go r f 0 prev (u :: x ++ c)
  = f {| m_index := 0;
         m_text := firstn (length (u :: x ++ c) - length c) (u :: x ++ c);
         m_rest := c; m_caps := [] |}
    ++ replace_go r f 0 (after (Some u) x) c.
Proof.
  intros H. cbn [replace_go]. unfold match_at. rewrite H. cbn [m_text].
  f_equal.
  replace (length (firstn (length (u :: x ++ c) - length c) (u :: x ++ c)))
    with (S (length x)).
  - apply replace_go_skip.
  - rewrite length_firstn. cbn [length]. rewrite length_app. lia.
Qed.

Lemma alias_run (prev : option N) (b rest : jsstring) :
  Forall (fun u => dot u = true /\ u <> 41) b ->
  run re_alias (fun _ s' cs' => Some (s', cs')) prev (40 :: b ++ 41 :: rest) []
  = Some (rest, [(1%nat, b)]).
Proof.
  intros Hb.
  change (star_lazy dot
            (fun prev' s' cs' =>
               run (seq [chr false 41]) (fun _ s'' cs'' => Some (s'', cs''))
                   prev' s'
                   (set_cap 1 (firstn (length (b ++ 41 :: rest) - length s')
                                      (b ++ 41 :: rest)) cs'))
            (Some 40) (b ++ 41 :: rest) [] = Some (rest, [(1%nat, b)])).
  rewrite (@star_lazy_skip _ 41 b (41 :: rest)); [|clear|exact Hb].
  - apply star_lazy_now.
    change (Some (rest,
                  set_cap 1 (firstn (length (b ++ 41 :: rest) - length (41 :: rest))
                                    (b ++ 41 :: rest)) [])
            = Some (rest, [(1%nat, b)])).
    replace (Nat.sub (length (b ++ 41 :: rest)) (length (41 :: rest)))
      with (Nat.add (length b) 0%nat)
      by (rewrite length_app; cbn [length]; lia).
    rewrite firstn_app_2. cbn [firstn]. rewrite app_nil_r. reflexivity.
  - intros prev' u s cs Hu. cbn [seq]. apply chr_blocked. exact Hu.
Qed.

Lemma spaces_not_40 (sp : jsstring) :
  forallb is_space sp = true -> Forall (fun u => u <> 40) sp.
Proof.
  intros H. apply Forall_forall. intros u Hu.
  rewrite forallb_forall in H. specialize (H u Hu).
  intros ->. rewrite space_40 in H. discriminate.
Qed.

(** X21.  A name with one alias in parentheses: the alias is the fold of
    what stands between the first opening parenthesis and the next closing
    one, and the clean name is the fold of the name without the parentheses
    and the white space around them.  Text after the closing parenthesis is
    joined to what comes before the opening one without a space. *)
Theorem name_with_alias (a sp b sp2 c : jsstring) :
  Forall (fun u => u <> 40) a ->
  sin_espacio_final a ->
  forallb is_space sp = true ->
  Forall (fun u => dot u = true /\ u <> 41) b ->
  forallb is_space sp2 = true ->
  cabeza (fun u => is_space u = false) c ->
  Forall (fun u => u <> 40) c ->
  extraerAlias (a ++ sp ++ 40 :: b ++ 41 :: sp2 ++ c)
  = (trim (limpiarTexto (a ++ c)), Some (limpiarTexto b)).
Proof.
  intros Ha Hend Hsp Hb Hsp2 Hc Hc40. unfold extraerAlias.
  assert (Hexec : exists m,
            exec re_alias (a ++ sp ++ 40 :: b ++ 41 :: sp2 ++ c) = Some m
            /\ group m 1 = Some b).
  { unfold exec. rewrite (@exec_from_plain _ _ Ha).
    rewrite (@exec_from_plain _ _ (@spaces_not_40 _ Hsp)).
    cbn [exec_from]. unfold match_at. rewrite (@alias_run _ _ _ Hb).
    eexists. split; [reflexivity|]. reflexivity. }
  destruct Hexec as (m & -> & ->).
  assert (Hrep : replace_all re_parentesis (fun _ => [])
                   (a ++ sp ++ 40 :: b ++ 41 :: sp2 ++ c) = a ++ c).
  { unfold replace_all. rewrite (@replace_go_prefix _ _ _ Ha Hend). f_equal.
    pose proof (@parentesis_run (after None a) _ _ _ _ Hsp Hb Hsp2 Hc) as Hrun.
    assert (Hpre : exists u x,
               sp ++ 40 :: b ++ 41 :: sp2 ++ c = u :: x ++ c).
    { destruct sp as [|v sp'].
      - exists 40, (b ++ 41 :: sp2). cbn [app].
        now rewrite <- app_assoc.
      - exists v, (sp' ++ 40 :: b ++ 41 :: sp2). cbn [app].
        rewrite <- app_assoc. cbn [app]. now rewrite <- app_assoc. }
    destruct Hpre as (u & x & Hpre). rewrite Hpre in *.
    rewrite (@replace_go_match _ (fun _ => []) _ _ _ _ Hrun). cbn [app].
    apply (@replace_go_plain _ _ Hc40). }
  rewrite Hrep. reflexivity.
Qed.

End Alias2.

Module Alias2Ejemplos.
Import JS RegExp Store NlpProcessor Nociones RegExpFacts Alias2.
Local Open Scope N_scope.

Lemma distinct_all (c : N) (s : jsstring) :
  forallb (fun u => negb (u =? c)) s = true -> Forall (fun u => u <> c) s.
Proof.
  intros H. apply Forall_forall. intros u Hu.
  rewrite forallb_forall in H. specialize (H u Hu).
  apply negb_true_iff in H. now apply N.eqb_neq.
Qed.

Lemma dot_all (c : N) (s : jsstring) :
  forallb (fun u => dot u && negb (u =? c)) s = true ->
  Forall (fun u => dot u = true /\ u <> c) s.
Proof.
  intros H. apply Forall_forall. intros u Hu.
  rewrite forallb_forall in H. specialize (H u Hu).
  apply andb_true_iff in H as [H1 H2]. split; [exact H1|].
  apply negb_true_iff in H2. now apply N.eqb_neq.
Qed.

Lemma plain_name_has_no_alias_witness :
  Forall (fun u => u <> 40) (js " Úrsula Iguarán ")
  /\ extraerAlias (js " Úrsula Iguarán ")
     = (trim (limpiarTexto (js " Úrsula Iguarán ")), None).
Proof.
  assert (H : Forall (fun u => u <> 40) (js " Úrsula Iguarán "))
    by (apply distinct_all; vm_compute; reflexivity).
  split; [exact H|]. exact (@plain_name_has_no_alias _ H).
Defined.

(** ["José Arcadio (el Grande) Buendía"]: the clean name is
    ["jose arcadiobuendia"]. *)
Lemma name_with_alias_witness :
  Forall (fun u => u <> 40) (js "José Arcadio")
  /\ sin_espacio_final (js "José Arcadio")
  /\ forallb is_space (js " ") = true
  /\ Forall (fun u => dot u = true /\ u <> 41) (js "el Grande")
  /\ forallb is_space (js " ") = true
  /\ cabeza (fun u => is_space u = false) (js "Buendía")
  /\ Forall (fun u => u <> 40) (js "Buendía")
  /\ extraerAlias (js "José Arcadio" ++ js " " ++ 40 :: js "el Grande"
                     ++ 41 :: js " " ++ js "Buendía")
     = (trim (limpiarTexto (js "José Arcadio" ++ js "Buendía")),
        Some (limpiarTexto (js "el Grande"))).
Proof.
  assert (H1 : Forall (fun u => u <> 40) (js "José Arcadio"))
    by (apply distinct_all; vm_compute; reflexivity).
  assert (H2 : sin_espacio_final (js "José Arcadio"))
    by (vm_compute; reflexivity).
  assert (H3 : forallb is_space (js " ") = true) by (vm_compute; reflexivity).
  assert (H4 : Forall (fun u => dot u = true /\ u <> 41) (js "el Grande"))
    by (apply dot_all; vm_compute; reflexivity).
  assert (H5 : cabeza (fun u => is_space u = false) (js "Buendía"))
    by (vm_compute; reflexivity).
  assert (H6 : Forall (fun u => u <> 40) (js "Buendía"))
    by (apply distinct_all; vm_compute; reflexivity).
  repeat (split; [assumption|]).
  exact (@name_with_alias _ _ _ _ _ H1 H2 H3 H4 H3 H5 H6).
Defined.

End Alias2Ejemplos.

Module Existencia2.
Import JS RegExp Store NlpProcessor Nociones RegExpFacts Piezas Verbos Escape2 Alias2.
Local Open Scope N_scope.

(** *** Prefixes *)

Lemma starts_with_app (w r : jsstring) : starts_with (w ++ r) w = true.
Proof.
  induction w as [|c w IH]; [destruct r; reflexivity|].
  cbn [app starts_with]. now rewrite N.eqb_refl, IH.
Qed.

Lemma starts_with_app_both (w r x : jsstring) :
  starts_with (w ++ r) (w ++ x) = starts_with r x.
Proof.
  induction w as [|c w IH]; [reflexivity|].
  cbn [app starts_with]. now rewrite N.eqb_refl, IH.
Qed.

Lemma starts_with_shorter (s a b : jsstring) :
  starts_with s (a ++ b) = true -> starts_with s a = true.
Proof.
  revert s. induction a as [|c a IH]; intros s H; [destruct s; reflexivity|].
  destruct s as [|u s]; [discriminate H|].
  cbn [app starts_with] in *. apply andb_true_iff in H as [H1 H2].
  now rewrite H1, (IH s H2).
Qed.

Lemma starts_with_clash (w r w' : jsstring) :
  starts_with w (firstn (length w) w') = false ->
  starts_with (w ++ r) w' = false.
Proof.
  revert w'. induction w as [|c w IH]; intros w' H; [discriminate H|].
  destruct w' as [|c' w']; [discriminate H|].
  cbn [length firstn app starts_with] in *.
  destruct (c =? c'); [|reflexivity]. cbn [andb] in *. now apply IH.
Qed.

Lemma skipn_prefix (w r : jsstring) : skipn (length w) (w ++ r) = r.
Proof. induction w as [|c w IH]; [reflexivity|exact IH]. Qed.

(** *** The engine on the patterns of [detectarExistencia] *)

Lemma run_lit (w : jsstring) (k : cont) :
  forall prev s cs,
    run (lit false w) k prev s cs
    = if starts_with s w then k (after prev w) (skipn (length w) s) cs
      else None.
Proof.
  induction w as [|c w IH]; intros prev s cs.
  - cbn [lit run length skipn]. destruct s; reflexivity.
  - cbn [lit]. unfold chr at 1. destruct s as [|u s]; cbn [run]; [reflexivity|].
    cbn [starts_with length skipn]. destruct (N.eqb_spec u c) as [->|_];
      [|reflexivity].
    cbn [andb]. now rewrite IH, after_cons.
Qed.

Lemma bol_later (R : regex) (s : jsstring) :
  forall idx u, exec_from (Cat Bol R) idx (Some u) s = None.
Proof.
  induction s as [|v s IH]; intros idx u; cbn [exec_from]; unfold match_at;
    cbn [run]; [reflexivity|apply IH].
Qed.

Lemma exec_bol (R : regex) (s : jsstring) :
  exec (Cat Bol R) s = match_at (Cat Bol R) 0 None s.
Proof.
  unfold exec. destruct s as [|u s]; cbn [exec_from];
    destruct (match_at (Cat Bol R) 0 None _); try reflexivity.
  apply bol_later.
Qed.

Lemma prefix_fail (R : regex) (w s : jsstring) :
  starts_with s w = false ->
  exec (Cat Bol (Cat (lit false w) R)) s = None.
Proof.
  intros H. rewrite exec_bol. unfold match_at. cbn [run].
  now rewrite run_lit, H.
Qed.

Lemma prefix_needed (R : regex) (w s : jsstring) (m : rmatch) :
  exec (Cat Bol (Cat (lit false w) R)) s = Some m ->
  starts_with s w = true.
Proof.
  intros H. destruct (starts_with s w) eqn:E; [reflexivity|].
  rewrite (prefix_fail R _ _ E) in H. discriminate H.
Qed.

Lemma star_greedy_run (p : N -> bool) (k : cont) (x rest : jsstring) (cs : caps)
    (r : jsstring * caps) :
  forallb p x = true ->
  cabeza (fun u => p u = false) rest ->
  forall prev,
    k (after prev x) rest cs = Some r ->
    star_greedy p k prev (x ++ rest) cs = Some r.
Proof.
  intros Hx Hrest. induction x as [|u x IH]; intros prev Hk.
  - cbn [app]. destruct rest as [|v rest]; cbn [star_greedy]; [exact Hk|].
    cbn [cabeza] in Hrest. rewrite Hrest. exact Hk.
  - cbn [forallb] in Hx. apply andb_true_iff in Hx as [Hu Hx].
    cbn [app star_greedy]. rewrite Hu, (IH Hx (Some u)); [reflexivity|].
    rewrite after_cons in Hk. exact Hk.
Qed.

Lemma star_greedy_inv (p : N -> bool) (k : cont) (s : jsstring) (cs : caps)
    (r : jsstring * caps) :
  forall prev,
    star_greedy p k prev s cs = Some r ->
    exists prev' s', k prev' s' cs = Some r.
Proof.
  induction s as [|u s IH]; intros prev H; cbn [star_greedy] in H; [eauto|].
  destruct (p u); [|eauto].
  destruct (star_greedy p k (Some u) s cs) eqn:E; [|eauto].
  injection H as <-. exact (IH _ E).
Qed.

(** The end of the seven patterns, [\s+(.+)$], on white space followed by a
    text without line terminators that does not begin with white space. *)
Lemma tail_run (n : nat) (prev : option N) (sp t : jsstring) (cs0 : caps) :
  sp <> [] ->
  forallb is_space sp = true ->
  t <> [] ->
  cabeza (fun u => is_space u = false) t ->
  Forall (fun u => dot u = true) t ->
  run (Cat (plus true is_space) (Cat (Group n (plus true dot)) (Cat Eol Eps)))
      (fun _ s' cs' => Some (s', cs')) prev (sp ++ t) cs0
  = Some ([], set_cap n t cs0).
Proof.
  intros Hne Hsp Hnt Ht Hdot.
  destruct sp as [|v sp]; [congruence|]. destruct t as [|u t]; [congruence|].
  cbn [forallb] in Hsp. apply andb_true_iff in Hsp as [Hv Hsp].
  unfold plus. cbn [run app]. rewrite Hv.
  apply star_greedy_run; [exact Hsp|exact Ht|].
  inversion Hdot as [|? ? Hu Hdot']; subst. rewrite Hu.
  rewrite <- (app_nil_r t) at 1.
  apply star_greedy_run; [|exact I|].
  - apply forallb_forall. intros x Hx.
    rewrite Forall_forall in Hdot'. now apply Hdot'.
  - change (length (@nil N)) with 0%nat.
    rewrite Nat.sub_0_r, firstn_all. reflexivity.
Qed.

(** Whatever [\s+(.+)$] matches, it only adds the capture of its group. *)
Lemma tail_caps (n : nat) (prev : option N) (s : jsstring) (cs0 : caps)
    (r : jsstring * caps) :
  run (Cat (plus true is_space) (Cat (Group n (plus true dot)) (Cat Eol Eps)))
      (fun _ s' cs' => Some (s', cs')) prev s cs0 = Some r ->
  exists v, snd r = set_cap n v cs0.
Proof.
  unfold plus. cbn [run]. intros H.
  destruct s as [|u s]; [discriminate H|].
  destruct (is_space u); [|discriminate H].
  apply star_greedy_inv in H as (prev1 & s1 & H).
  destruct s1 as [|u1 s1]; [discriminate H|].
  destruct (dot u1); [|discriminate H].
  apply star_greedy_inv in H as (prev2 & s2 & H).
  destruct s2; [|discriminate H]. injection H as <-. cbn [snd]. eauto.
Qed.

Lemma run_bol_lit (w : jsstring) (R : regex) (k : cont) (s : jsstring)
    (cs : caps) :
  run (Cat Bol (Cat (lit false w) R)) k None s cs
  = if starts_with s w then run R k (after None w) (skipn (length w) s) cs
    else None.
Proof.
  change (run (Cat Bol (Cat (lit false w) R)) k None s cs)
    with (run (lit false w) (run R k) None s cs).
  apply run_lit.
Qed.

Lemma run_cat_lit (w : jsstring) (R : regex) (k : cont) (prev : option N)
    (s : jsstring) (cs : caps) :
  run (Cat (lit false w) R) k prev s cs
  = if starts_with s w then run R k (after prev w) (skipn (length w) s) cs
    else None.
Proof.
  change (run (Cat (lit false w) R) k prev s cs)
    with (run (lit false w) (run R k) prev s cs).
  apply run_lit.
Qed.

(** The optional [(n)]. *)
Lemma opt_n_skip (R : regex) (k : cont) (prev : option N) (s : jsstring)
    (cs : caps) :
  cabeza (fun u => u <> 110) s ->
  run (Cat (Opt (Group 1 (chr false 110))) R) k prev s cs = run R k prev s cs.
Proof.
  intros H. cbn [run]. unfold chr. cbn [run].
  destruct s as [|u s]; [reflexivity|]. cbn [cabeza] in H.
  destruct (N.eqb_spec u 110); [contradiction|reflexivity].
Qed.

Lemma opt_n_take (R : regex) (k : cont) (prev : option N) (s : jsstring)
    (cs : caps) :
  run (Cat (Opt (Group 1 (chr false 110))) R) k prev (110 :: s) cs
  = match run R k (Some 110) s (set_cap 1 [110] cs) with
    | Some x => Some x
    | None => run R k prev (110 :: s) cs
    end.
Proof.
  cbn [run]. unfold chr. cbn [run]. rewrite N.eqb_refl, firstn_one.
  reflexivity.
Qed.

Lemma space_not (c u : N) : is_space c = false -> is_space u = true -> u <> c.
Proof. intros Hc Hu ->. congruence. Qed.

Lemma alguna_fail (sp t : jsstring) :
  sp <> [] ->
  forallb is_space sp = true ->
  starts_with t (js "alguna") = false ->
  starts_with (sp ++ t) (js " alguna") = false.
Proof.
  intros Hne Hsp Ht. change (js " alguna") with (32 :: js "alguna").
  destruct sp as [|v [|v2 sp]]; [congruence| |].
  - cbn [app starts_with]. rewrite Ht. apply andb_false_r.
  - change (js "alguna") with (97 :: js "lguna"). cbn [app starts_with].
    cbn [forallb] in Hsp. apply andb_true_iff in Hsp as [_ Hsp].
    apply andb_true_iff in Hsp as [Hv2 _].
    assert (E : (v2 =? 97) = false).
    { apply N.eqb_neq. apply space_not; [vm_compute; reflexivity|exact Hv2]. }
    rewrite E. apply andb_false_r.
Qed.

(** *** The loop over the patterns *)

Lemma detectar_en_none (pat : regex) (pats : list regex) (s : jsstring) :
  exec pat s = None ->
  detectar_en (pat :: pats) s = detectar_en pats s.
Proof. intros H. cbn [detectar_en]. now rewrite H. Qed.

Lemma detectar_en_some (pat : regex) (pats : list regex) (s : jsstring)
    (m : rmatch) (c : jsstring) :
  exec pat s = Some m ->
  or_else (group m 1) (group m 2) = Some c ->
  c <> [] ->
  detectar_en (pat :: pats) s = Some (termino_de c).
Proof.
  intros H Hc Hne. cbn [detectar_en]. rewrite H, Hc.
  destruct c as [|u c]; [congruence|reflexivity].
Qed.

Lemma detectar_en_found (pats : list regex) (s t : jsstring) :
  detectar_en pats s = Some t ->
  exists pat m, In pat pats /\ exec pat s = Some m.
Proof.
  induction pats as [|pat pats IH]; intros H; [discriminate H|].
  cbn [detectar_en] in H. destruct (exec pat s) as [m|] eqn:E.
  - exists pat, m. split; [now left|exact E].
  - destruct (IH H) as (pat' & m' & Hin & H'). exists pat', m'.
    split; [now right|exact H'].
Qed.

(** The five patterns without [(n)]. *)
Lemma simple_ok (w sp t : jsstring) :
  sp <> [] ->
  forallb is_space sp = true ->
  t <> [] ->
  cabeza (fun u => is_space u = false) t ->
  Forall (fun u => dot u = true) t ->
  exists m,
    exec (Cat Bol
            (Cat (lit false w)
               (Cat (plus true is_space)
                  (Cat (Group 1 (plus true dot)) (Cat Eol Eps)))))
         (w ++ sp ++ t) = Some m
    /\ or_else (group m 1) (group m 2) = Some t.
Proof.
  intros Hne Hsp Hnt Ht Hdot. rewrite exec_bol. unfold match_at.
  rewrite run_bol_lit, starts_with_app, skipn_prefix.
  rewrite (@tail_run 1 _ sp t [] Hne Hsp Hnt Ht Hdot).
  eexists. split; [reflexivity|].
  destruct t; [congruence|reflexivity].
Qed.

(** The two patterns with [(n)] on a text that continues without [n]. *)
Lemma existe_ok (x sp t : jsstring) :
  cabeza (fun u => u <> 110) (x ++ sp ++ t) ->
  sp <> [] ->
  forallb is_space sp = true ->
  t <> [] ->
  cabeza (fun u => is_space u = false) t ->
  Forall (fun u => dot u = true) t ->
  exists m,
    exec (Cat Bol
            (Cat (lit false (js "existe"))
               (Cat (Opt (Group 1 (chr false 110)))
                  (Cat (lit false x)
                     (Cat (plus true is_space)
                        (Cat (Group 2 (plus true dot)) (Cat Eol Eps)))))))
         (js "existe" ++ x ++ sp ++ t) = Some m
    /\ or_else (group m 1) (group m 2) = Some t.
Proof.
  intros Hx Hne Hsp Hnt Ht Hdot. rewrite exec_bol. unfold match_at.
  rewrite run_bol_lit, starts_with_app, skipn_prefix.
  rewrite (opt_n_skip _ _ _ _ _ Hx).
  rewrite run_cat_lit, starts_with_app, skipn_prefix.
  rewrite (@tail_run 2 _ sp t [] Hne Hsp Hnt Ht Hdot).
  eexists. split; [reflexivity|].
  destruct t; [congruence|reflexivity].
Qed.

Lemma existe_ok4 (sp t : jsstring) :
  sp <> [] ->
  forallb is_space sp = true ->
  t <> [] ->
  cabeza (fun u => is_space u = false) t ->
  Forall (fun u => dot u = true) t ->
  exists m,
    exec (Cat Bol
            (Cat (lit false (js "existe"))
               (Cat (Opt (Group 1 (chr false 110)))
                  (Cat (plus true is_space)
                     (Cat (Group 2 (plus true dot)) (Cat Eol Eps))))))
         (js "existe" ++ sp ++ t) = Some m
    /\ or_else (group m 1) (group m 2) = Some t.
Proof.
  intros Hne Hsp Hnt Ht Hdot. rewrite exec_bol. unfold match_at.
  rewrite run_bol_lit, starts_with_app, skipn_prefix.
  rewrite opt_n_skip.
  - rewrite (@tail_run 2 _ sp t [] Hne Hsp Hnt Ht Hdot).
    eexists. split; [reflexivity|].
    destruct t; [congruence|reflexivity].
  - destruct sp as [|v sp]; [congruence|]. cbn [app cabeza].
    cbn [forallb] in Hsp. apply andb_true_iff in Hsp as [Hv _].
    apply space_not; [vm_compute; reflexivity|exact Hv].
Qed.

Lemma existe_alguna_fail (sp t : jsstring) :
  sp <> [] ->
  forallb is_space sp = true ->
  starts_with t (js "alguna") = false ->
  exec (Cat Bol
          (Cat (lit false (js "existe"))
             (Cat (Opt (Group 1 (chr false 110)))
                (Cat (lit false (js " alguna"))
                   (Cat (plus true is_space)
                      (Cat (Group 2 (plus true dot)) (Cat Eol Eps)))))))
       (js "existe" ++ sp ++ t) = None.
Proof.
  intros Hne Hsp Ha. rewrite exec_bol. unfold match_at.
  rewrite run_bol_lit, starts_with_app, skipn_prefix.
  rewrite opt_n_skip.
  - now rewrite run_cat_lit, alguna_fail.
  - destruct sp as [|v sp]; [congruence|]. cbn [app cabeza].
    cbn [forallb] in Hsp. apply andb_true_iff in Hsp as [Hv _].
    apply space_not; [vm_compute; reflexivity|exact Hv].
Qed.

Ltac otro_verbo :=
  rewrite detectar_en_none
    by (cbn [seq]; apply prefix_fail; apply starts_with_clash;
        vm_compute; reflexivity).

Ltac sin_alguna Hne Hsp Ha :=
  rewrite detectar_en_none
    by (cbn [seq]; apply prefix_fail;
        change (js "hubo alguna") with (js "hubo" ++ js " alguna");
        change (js "hay alguna") with (js "hay" ++ js " alguna");
        rewrite starts_with_app_both; apply alguna_fail; assumption).

(** X22.  [detectarExistencia] answers a term only for a question that,
    in lower case and without the question marks and the white space at its
    ends, begins with one of the verb forms [hubo], [existe], [existió],
    [hay]. *)
Theorem existence_needs_verb (q t : jsstring) :
  detectarExistencia q = Some t ->
  exists w,
    In w [js "hubo"; js "existe"; js "existió"; js "hay"]
    /\ starts_with (sinSignos q) w = true.
Proof.
  change (detectarExistencia q) with (detectar_en patrones (sinSignos q)).
  intros H. apply detectar_en_found in H as (pat & m & Hin & H).
  unfold patrones in Hin. cbn [In seq] in Hin.
  destruct Hin as [<-|[<-|[<-|[<-|[<-|[<-|[<-|[]]]]]]]];
    apply prefix_needed in H.
  - exists (js "hubo"). split; [cbn [In]; tauto|].
    apply starts_with_shorter with (js " alguna"). exact H.
  - exists (js "hubo"). split; [cbn [In]; tauto|exact H].
  - exists (js "existe"). split; [cbn [In]; tauto|exact H].
  - exists (js "existe"). split; [cbn [In]; tauto|exact H].
  - exists (js "existió"). split; [cbn [In]; tauto|exact H].
  - exists (js "hay"). split; [cbn [In]; tauto|].
    apply starts_with_shorter with (js " alguna"). exact H.
  - exists (js "hay"). split; [cbn [In]; tauto|exact H].
Qed.

(** X23.  After [hubo], [existe], [existió] or [hay] and white space, or
    after [hubo alguna], [existe alguna] or [hay alguna] and white space, a
    text without line terminators is the capture, and the term is its fold
    without the punctuation [?], [.], [!] at its end and the white space
    around it. *)
Theorem existence_term (q w sp t : jsstring) :
  sp <> [] ->
  forallb is_space sp = true ->
  t <> [] ->
  cabeza (fun u => is_space u = false) t ->
  Forall (fun u => dot u = true) t ->
  (In w [js "hubo"; js "existe"; js "existió"; js "hay"]
   /\ starts_with t (js "alguna") = false
   /\ sinSignos q = w ++ sp ++ t)
  \/ (In w [js "hubo"; js "existe"; js "hay"]
      /\ sinSignos q = w ++ js " alguna" ++ sp ++ t) ->
  detectarExistencia q = Some (termino_de t).
Proof.
  intros Hne Hsp Hnt Ht Hdot H.
  change (detectarExistencia q) with (detectar_en patrones (sinSignos q)).
  unfold patrones.
  destruct H as [(Hw & Ha & ->) | (Hw & ->)]; cbn [In] in Hw.
  - destruct Hw as [<-|[<-|[<-|[<-|[]]]]].
    + sin_alguna Hne Hsp Ha.
      destruct (@simple_ok (js "hubo") _ _ Hne Hsp Hnt Ht Hdot) as (m & Hm & Hg).
      eapply detectar_en_some; [cbn [seq]; exact Hm|exact Hg|exact Hnt].
    + do 2 otro_verbo.
      rewrite detectar_en_none
        by (cbn [seq]; now apply existe_alguna_fail).
      destruct (@existe_ok4 _ _ Hne Hsp Hnt Ht Hdot) as (m & Hm & Hg).
      eapply detectar_en_some; [cbn [seq]; exact Hm|exact Hg|exact Hnt].
    + do 4 otro_verbo.
      destruct (@simple_ok (js "existió") _ _ Hne Hsp Hnt Ht Hdot) as (m & Hm & Hg).
      eapply detectar_en_some; [cbn [seq]; exact Hm|exact Hg|exact Hnt].
    + do 5 otro_verbo. sin_alguna Hne Hsp Ha.
      destruct (@simple_ok (js "hay") _ _ Hne Hsp Hnt Ht Hdot) as (m & Hm & Hg).
      eapply detectar_en_some; [cbn [seq]; exact Hm|exact Hg|exact Hnt].
  - destruct Hw as [<-|[<-|[<-|[]]]].
    + change (js "hubo" ++ js " alguna" ++ sp ++ t)
        with (js "hubo alguna" ++ sp ++ t).
      destruct (@simple_ok (js "hubo alguna") _ _ Hne Hsp Hnt Ht Hdot)
        as (m & Hm & Hg).
      eapply detectar_en_some; [cbn [seq]; exact Hm|exact Hg|exact Hnt].
    + do 2 otro_verbo.
      assert (Hx : cabeza (fun u => u <> 110) (js " alguna" ++ sp ++ t))
        by (change (js " alguna") with (32 :: js "alguna");
            cbn [app cabeza]; discriminate).
      destruct (@existe_ok (js " alguna") sp t Hx Hne Hsp Hnt Ht Hdot)
        as (m & Hm & Hg).
      eapply detectar_en_some; [cbn [seq]; exact Hm|exact Hg|exact Hnt].
    + do 5 otro_verbo.
      change (js "hay" ++ js " alguna" ++ sp ++ t)
        with (js "hay alguna" ++ sp ++ t).
      destruct (@simple_ok (js "hay alguna") _ _ Hne Hsp Hnt Ht Hdot)
        as (m & Hm & Hg).
      eapply detectar_en_some; [cbn [seq]; exact Hm|exact Hg|exact Hnt].
Qed.

Lemma termino_n : termino_de [110] = js "n".
Proof. vm_compute. reflexivity. Qed.

(** X24.  After [existen] the optional group [(n)] captures the letter and
    [m[1] || m[2]] takes it: whatever text follows, the term is ["n"]. *)
Theorem existen_term_is_n (q sp t : jsstring) :
  sp <> [] ->
  forallb is_space sp = true ->
  t <> [] ->
  cabeza (fun u => is_space u = false) t ->
  Forall (fun u => dot u = true) t ->
  sinSignos q = js "existen" ++ sp ++ t ->
  detectarExistencia q = Some (js "n").
Proof.
  intros Hne Hsp Hnt Ht Hdot Hq.
  change (detectarExistencia q) with (detectar_en patrones (sinSignos q)).
  rewrite Hq. unfold patrones. do 2 otro_verbo.
  change (js "existen" ++ sp ++ t) with (js "existe" ++ 110 :: sp ++ t).
  rewrite <- termino_n.
  destruct (exec (seq [Bol; lit false (js "existe");
                       Opt (Group 1 (chr false 110)); lit false (js " alguna");
                       plus true is_space; Group 2 (plus true dot); Eol])
                 (js "existe" ++ 110 :: sp ++ t)) as [m|] eqn:E.
  - apply detectar_en_some with m; [exact E| |discriminate].
    cbn [seq] in E. rewrite exec_bol in E. unfold match_at in E.
    rewrite run_bol_lit, starts_with_app, skipn_prefix, opt_n_take in E.
    rewrite (run_cat_lit (js " alguna") _ _ _ (110 :: sp ++ t)) in E.
    change (starts_with (110 :: sp ++ t) (js " alguna")) with false in E.
    rewrite run_cat_lit in E.
    destruct (starts_with (sp ++ t) (js " alguna")); [|discriminate E].
    destruct (run _ _ _ _ _) as [[s' cs']|] eqn:Er in E; [|discriminate E].
    apply tail_caps in Er as [v Hv]. cbn [snd] in Hv.
    injection E as <-. unfold group. cbn [m_caps]. rewrite Hv. reflexivity.
  - rewrite (@detectar_en_none _ _ _ E).
    assert (H4 : exists m,
               exec (seq [Bol; lit false (js "existe");
                          Opt (Group 1 (chr false 110)); plus true is_space;
                          Group 2 (plus true dot); Eol])
                    (js "existe" ++ 110 :: sp ++ t) = Some m
               /\ or_else (group m 1) (group m 2) = Some [110]).
    { cbn [seq]. rewrite exec_bol. unfold match_at.
      rewrite run_bol_lit, starts_with_app, skipn_prefix, opt_n_take.
      rewrite (@tail_run 2 _ sp t (set_cap 1 [110] []) Hne Hsp Hnt Ht Hdot).
      eexists. split; reflexivity. }
    destruct H4 as (m & Hm & Hg).
    apply detectar_en_some with m; [exact Hm|exact Hg|discriminate].
Qed.

End Existencia2.

Module Existencia2Ejemplos.
Import JS RegExp Store NlpProcessor Nociones Existencia2 Alias2Ejemplos.
Local Open Scope N_scope.

Lemma dots (s : jsstring) :
  forallb dot s = true -> Forall (fun u => dot u = true) s.
Proof. intros H. apply Forall_forall. now apply forallb_forall. Qed.

Lemma existence_needs_verb_witness :
  detectarExistencia (js "¿Hay pescaditos de oro?") = Some (js "pescaditos de oro")
  /\ exists w,
       In w [js "hubo"; js "existe"; js "existió"; js "hay"]
       /\ starts_with (sinSignos (js "¿Hay pescaditos de oro?")) w = true.
Proof.
  assert (H : detectarExistencia (js "¿Hay pescaditos de oro?")
              = Some (js "pescaditos de oro")) by (vm_compute; reflexivity).
  split; [exact H|]. exact (@existence_needs_verb _ _ H).
Defined.

Lemma existence_term_witness :
  js " " <> []
  /\ forallb is_space (js " ") = true
  /\ js "una guerra civil." <> []
  /\ cabeza (fun u => is_space u = false) (js "una guerra civil.")
  /\ Forall (fun u => dot u = true) (js "una guerra civil.")
  /\ (In (js "hubo") [js "hubo"; js "existe"; js "existió"; js "hay"]
      /\ starts_with (js "una guerra civil.") (js "alguna") = false
      /\ sinSignos (js "¿Hubo una guerra civil.?")
         = js "hubo" ++ js " " ++ js "una guerra civil.")
  /\ detectarExistencia (js "¿Hubo una guerra civil.?")
     = Some (termino_de (js "una guerra civil.")).
Proof.
  assert (H1 : js " " <> []) by discriminate.
  assert (H2 : forallb is_space (js " ") = true) by (vm_compute; reflexivity).
  assert (H3 : js "una guerra civil." <> []) by discriminate.
  assert (H4 : cabeza (fun u => is_space u = false) (js "una guerra civil."))
    by (vm_compute; reflexivity).
  assert (H5 : Forall (fun u => dot u = true) (js "una guerra civil."))
    by (apply dots; vm_compute; reflexivity).
  assert (H6 : In (js "hubo") [js "hubo"; js "existe"; js "existió"; js "hay"]
               /\ starts_with (js "una guerra civil.") (js "alguna") = false
               /\ sinSignos (js "¿Hubo una guerra civil.?")
                  = js "hubo" ++ js " " ++ js "una guerra civil.")
    by (split; [left; reflexivity|split; vm_compute; reflexivity]).
  repeat (split; [assumption|]).
  exact (@existence_term _ _ _ _ H1 H2 H3 H4 H5 (or_introl H6)).
Defined.

Lemma existen_term_is_n_witness :
  js " " <> []
  /\ forallb is_space (js " ") = true
  /\ js "fantasmas en macondo" <> []
  /\ cabeza (fun u => is_space u = false) (js "fantasmas en macondo")
  /\ Forall (fun u => dot u = true) (js "fantasmas en macondo")
  /\ sinSignos (js "¿Existen fantasmas en Macondo?")
     = js "existen" ++ js " " ++ js "fantasmas en macondo"
  /\ detectarExistencia (js "¿Existen fantasmas en Macondo?") = Some (js "n").
Proof.
  assert (H1 : js " " <> []) by discriminate.
  assert (H2 : forallb is_space (js " ") = true) by (vm_compute; reflexivity).
  assert (H3 : js "fantasmas en macondo" <> []) by discriminate.
  assert (H4 : cabeza (fun u => is_space u = false) (js "fantasmas en macondo"))
    by (vm_compute; reflexivity).
  assert (H5 : Forall (fun u => dot u = true) (js "fantasmas en macondo"))
    by (apply dots; vm_compute; reflexivity).
  assert (H6 : sinSignos (js "¿Existen fantasmas en Macondo?")
               = js "existen" ++ js " " ++ js "fantasmas en macondo")
    by (vm_compute; reflexivity).
  repeat (split; [assumption|]).
  exact (@existen_term_is_n _ _ _ H1 H2 H3 H4 H5 H6).
Defined.

End Existencia2Ejemplos.

Module Capitulo2.
Import JS RegExp Store NlpProcessor Nociones RegExpFacts Piezas Verbos Escape2
       Alias2 Existencia2.
Local Open Scope N_scope.

(** *** The engine on [/cap[ií]tulo\s*(\d+)/i] *)













End Capitulo2.

Module Errores.
Import JS RegExp Store NlpProcessor Preguntas Ejemplos Ejemplos2 Ruta.
Local Open Scope N_scope.

Section Externals.
Variable compromise : jsstring -> jsstring.
Variable engine : jsstring -> jsstring -> jsstring -> bool.

(** X26.  The error bodies of the handler: status 400 for a missing or
    blank question, status 404 "Capítulo no existe" and status 500; no other.
    The 404 never answers a question that takes the chapter shortcut (a
    missing chapter there gives an empty result), and the 400 never answers a
    question that is not blank. *)
Theorem error_statuses (st : store) (q : option jsstring) (s : N)
    (e : jsstring) :
  get compromise engine st q = Responde (Error s e) ->
  (s = 400 /\ e = falta_q
   /\ match q with None => True | Some x => trim x = [] end)
  \/ (s = 404 /\ e = js "Capítulo no existe"
      /\ exists x, q = Some x /\ trim x <> []
                   /\ exec re_capitulo (trim x) = None)
  \/ (s = 500 /\ e = error_interno
      /\ exists x, q = Some x /\ trim x <> []
                   /\ exec re_capitulo (trim x) = None).
Proof.
  unfold get. destruct q as [x|]; cbn [option_map].
  - destruct (trim x) as [|u x'] eqn:Ex.
    + intros H. injection H as <- <-. left. auto.
    + destruct (exec re_capitulo (u :: x')) as [m|] eqn:Em.
      * intros H. exfalso.
        destruct (bind _ _) as [[evs|]|err] in H; discriminate H.
      * destruct (analizarPregunta compromise st (u :: x')) as [a|err];
          [|discriminate].
        destruct (consultar engine st a) as [r|err] eqn:Er.
        -- intros H. injection H as ->.
           apply consultar_shape in Er as [(c & t & rs & Hr) | Hr];
             [discriminate Hr|].
           injection Hr as <- <-. right. left.
           split; [reflexivity|]. split; [reflexivity|].
           exists x. rewrite Ex. repeat split; [discriminate|exact Em].
        -- intros H. injection H as <- <-. right. right.
           split; [reflexivity|]. split; [reflexivity|].
           exists x. rewrite Ex. repeat split; [discriminate|exact Em].
  - intros H. injection H as <- <-. left. auto.
Qed.

End Externals.

Lemma error_statuses_witness :
  get sin_cambios motor (available novela) (Some (js "   ")) = Responde (Error 400 falta_q)
  /\ ((400 = 400 /\ falta_q = falta_q /\ trim (js "   ") = [])
      \/ (400 = 404 /\ falta_q = js "Capítulo no existe"
          /\ exists x, Some (js "   ") = Some x /\ trim x <> []
                       /\ exec re_capitulo (trim x) = None)
      \/ (400 = 500 /\ falta_q = error_interno
          /\ exists x, Some (js "   ") = Some x /\ trim x <> []
                       /\ exec re_capitulo (trim x) = None)).
Proof.
  assert (H : get sin_cambios motor (available novela) (Some (js "   "))
              = Responde (Error 400 falta_q)) by (vm_compute; reflexivity).
  split; [exact H|].
  exact (@error_statuses sin_cambios motor (available novela) (Some (js "   ")) 400
                         falta_q H).
Defined.

End Errores.

Module Ejemplos3.
Import JS RegExp Store NlpProcessor Nociones Piezas2 Ranker2 Capitulo2.
Local Open Scope N_scope.


Lemma split_pieces_witness :
  forallb (fun u => negb (is_space u)) (js "Macondo") = true
  /\ split re_spaces (js "Macondo") = [js "Macondo"].
Proof.
  assert (H : forallb (fun u => negb (is_space u)) (js "Macondo") = true)
    by (vm_compute; reflexivity).
  split; [exact H|].
  exact (proj2 (proj2 (proj2 (split_pieces (js "Macondo")))) H).
Defined.

Lemma score_properties_witness :
  (length (new_Set (split re_spaces (js "guerra civil"))) <= 4)%nat
  /\ (exists p, In p (split re_spaces (js "guerra civil"))
                /\ In p (split re_spaces (js "la guerra de los mil dias")))
  /\ (1 # 5 < calcularScore (js "guerra civil")
                            (js "la guerra de los mil dias"))%Q.
Proof.
  assert (H1 : (length (new_Set (split re_spaces (js "guerra civil"))) <= 4)%nat)
    by (vm_compute; lia).
  assert (H2 : exists p, In p (split re_spaces (js "guerra civil"))
                         /\ In p (split re_spaces (js "la guerra de los mil dias"))).
  { exists (js "guerra"). split; vm_compute; [left|right; left]; reflexivity. }
  split; [exact H1|]. split; [exact H2|].
  exact (proj2 (proj2 (proj2 (proj2 (proj2
           (score_properties (js "guerra civil")
                             (js "la guerra de los mil dias"))))) H1) H2).
Defined.


End Ejemplos3.
